(** * MedicinalLeaf: [app/model_loader.py], [app/app.py] and
      [database/db_setup.py]

    A shallow embedding of the ensemble predictor ([predict_image]), of the
    class-map initialisation that runs when [model_loader] is imported, of the
    image preprocessor ([preprocess_image_if_available]), of the request
    handlers [register], [login], [logout], [upload] and [predict_base64]
    with [allowed_file], and of the script that fills the [LeafInfo]
    table.

    Conventions.
    - A Python call that may raise returns a [result]; [except Exception]
      catches every exception modelled here.
    - Calls into Keras, rembg, OpenCV and the file system are oracles, fields
      of a record describing the runtime environment; the Python code between
      those calls (loops, slicing, [max], dict comprehensions, [dict.get])
      is written out.
    - Werkzeug, Pillow, the clock and the failures of SQLite that do not
      come from the tables are oracles of a second record; the tables of
      [leaf_info.db] are lists of rows, and the SQL statements of the code
      are written out on them.
    - Numbers produced by the classifiers are values of a type with the
      arithmetic that numpy uses on them ([Number]).  The arrays of the
      code hold [float32]: this is the instance [float32_Number], IEEE
      binary32 ([spec_float] with 24 bits of precision), every operation
      rounded to nearest even; the properties of the mean, of the arg-max
      and of the confidence are proved on it.  The instance [Q_Number]
      computes without rounding; it serves where the numbers are only
      passed on. *)

From Stdlib Require Import ZArith QArith Lia Lqa List Bool String Ascii.
From Stdlib Require Import DecimalString DecimalNat DecimalFacts.
From Stdlib Require Import Floats.SpecFloat.
From stdpp Require Import base option list strings gmap.

Open Scope string_scope.
Open Scope list_scope.
Open Scope nat_scope.

(** ** Exceptions and results *)

(** The exception classes that the modelled code can meet.  All of them are
    subclasses of Python's [Exception]. *)
Inductive exn : Type :=
| RuntimeError (msg : string)
| ValueError
| TypeError
| AttributeError
| IndexError
| OverflowError
| ImportError
| FileNotFoundError
| OSError
| cv2_error.

Inductive result (A : Type) : Type :=
| Ok (a : A)
| Raise (e : exn).
Arguments Ok {A} a.
Arguments Raise {A} e.

Definition rbind {A B : Type} (r : result A) (k : A -> result B) : result B :=
  match r with
  | Ok a => k a
  | Raise e => Raise e
  end.

Definition is_Ok {A : Type} (r : result A) : bool :=
  match r with Ok _ => true | Raise _ => false end.

(** ** Numbers *)

(** The operations numpy applies to the prediction arrays:
    element-wise [+], true division, the conversion of an integer count,
    [<=] and [isnan]. *)
Class Number (A : Type) : Type := {
  num_add : A -> A -> A;
  num_div : A -> A -> A;
  num_of_nat : nat -> A;
  num_leb : A -> A -> bool;
  num_isnan : A -> bool
}.

(** Rationals, added and divided without rounding.  They are not the
    numbers of the code: they serve in the statements in which the
    numbers are only passed on or compared, and in examples. *)
#[export] Instance Q_Number : Number Q := {|
  num_add := Qplus;
  num_div := Qdiv;
  num_of_nat := fun n => inject_Z (Z.of_nat n);
  num_leb := Qle_bool;
  num_isnan := fun _ => false
|}.

(** IEEE binary32, numpy's [float32]: precision 24, [emax] 128.  These
    are the numbers of the arrays that [predict] returns and that lines
    59-61 average and compare. *)
Definition float32 : Type := spec_float.

Definition f32_of_nat (n : nat) : float32 :=
  binary_normalize 24 128 (Z.of_nat n) 0 false.

Definition f32_isnan (x : float32) : bool :=
  match x with S754_nan => true | _ => false end.

#[export] Instance float32_Number : Number float32 := {|
  num_add := SFadd 24 128;
  num_div := SFdiv 24 128;
  num_of_nat := f32_of_nat;
  num_leb := SFleb;
  num_isnan := f32_isnan
|}.

(** ** numpy reductions used by [predict_image] *)

Section Numpy.
Context {A : Type} `{Number A}.

(** Element-wise sum of two rows of equal length. *)
Fixpoint row_add (u v : list A) : list A :=
  match u, v with
  | a :: u', b :: v' => num_add a b :: row_add u' v'
  | _, _ => []
  end.

(** [np.mean(preds, axis=0)] for a non-empty list [r :: rs] of 1-D rows.
    The rows must have one length, otherwise the conversion to an array
    raises [ValueError].  The rows are summed from the first to the last
    ([np.add.reduce]) and the sum is divided by the number of rows. *)
Definition np_mean_axis0 (r : list A) (rs : list (list A)) : result (list A) :=
  if forallb (fun r' => Nat.eqb (length r') (length r)) rs
  then Ok (map (fun s => num_div s (num_of_nat (S (length rs))))
               (fold_left row_add rs r))
  else Raise ValueError.

(** The scan of [np.argmax]: [mp] is the largest value so far, [max_ind]
    its index, [i] the index of the head of [l].  A value replaces [mp]
    when [not (x <= mp)]; the scan stops at the first NaN. *)
Fixpoint argmax_scan (mp : A) (max_ind i : nat) (l : list A) : nat :=
  match l with
  | [] => max_ind
  | x :: l' =>
      if negb (num_leb x mp)
      then (if num_isnan x then i else argmax_scan x i (S i) l')
      else argmax_scan mp max_ind (S i) l'
  end.

(** [np.argmax(a)]; an empty array raises [ValueError]. *)
Definition np_argmax (a : list A) : result nat :=
  match a with
  | [] => Raise ValueError
  | x :: l => Ok (if num_isnan x then 0 else argmax_scan x 0 1 l)
  end.

(** [np.maximum(a, b)]: [a] when [a >= b] or [a] is NaN, else [b]. *)
Definition np_maximum (a b : A) : A :=
  if num_leb b a || num_isnan a then a else b.

(** [np.max(a)]; an empty array raises [ValueError]. *)
Definition np_max (a : list A) : result A :=
  match a with
  | [] => Raise ValueError
  | x :: l => Ok (fold_left np_maximum l x)
  end.
End Numpy.

(** ** Python values read from [class_indices.json] *)

(** What [json.load] can return.  A JSON object becomes a [dict] whose keys
    are strings, kept here in insertion order; a JSON real becomes a
    binary64 float. *)
#[local] Set Warnings "-register-all".
Inductive pyval : Type :=
| PyNone
| PyBool (b : bool)
| PyInt (z : Z)
| PyFloat (f : spec_float)
| PyStr (s : string)
| PyList (l : list pyval)
| PyDict (d : list (string * pyval)).

(** The integer a finite float is equal to, when there is one. *)
Definition float_exact_Z (f : spec_float) : option Z :=
  match f with
  | S754_zero _ => Some 0%Z
  | S754_finite s m e =>
      let v :=
        if (0 <=? e)%Z then Some (Z.pos m * 2 ^ e)%Z
        else if (Z.pos m mod 2 ^ (- e) =? 0)%Z then Some (Z.pos m / 2 ^ (- e))%Z
        else None in
      if s then option_map Z.opp v else v
  | _ => None
  end.

Definition float_isnan (f : spec_float) : bool :=
  match f with S754_nan => true | _ => false end.

(** [int(f)] for a float: truncation toward zero; infinities and NaN raise. *)
Definition float_int (f : spec_float) : result Z :=
  match f with
  | S754_zero _ => Ok 0%Z
  | S754_infinity _ => Raise OverflowError
  | S754_nan => Raise ValueError
  | S754_finite s m e =>
      let a := if (0 <=? e)%Z then (Z.pos m * 2 ^ e)%Z else (Z.pos m / 2 ^ (- e))%Z in
      Ok (if s then (- a)%Z else a)
  end.

(** Truth value of an object, as tested by [if CLASS_MAP:]. *)
Definition py_truthy (v : pyval) : bool :=
  match v with
  | PyNone => false
  | PyBool b => b
  | PyInt z => negb (z =? 0)%Z
  | PyFloat (S754_zero _) => false
  | PyFloat _ => true
  | PyStr s => negb (String.eqb s "")
  | PyList l => match l with [] => false | _ => true end
  | PyDict d => match d with [] => false | _ => true end
  end.

(** [v.items()]: only a dict has the method. *)
Definition py_items (v : pyval) : result (list (string * pyval)) :=
  match v with
  | PyDict d => Ok d
  | _ => Raise AttributeError
  end.

(** Lists and dicts are unhashable and cannot be dict keys. *)
Definition py_hashable (v : pyval) : bool :=
  match v with
  | PyList _ | PyDict _ => false
  | _ => true
  end.

Definition py_exact_int (v : pyval) : option Z :=
  match v with
  | PyBool b => Some (if b then 1 else 0)%Z
  | PyInt z => Some z
  | PyFloat f => float_exact_Z f
  | _ => None
  end.

(** Equality of two hashable values as dict keys.  Numbers of different
    types are equal when they have the same value ([1 == 1.0 == True]);
    the NaN that [json] produces is one shared object, equal to itself
    as a key. *)
Definition py_key_eq (a b : pyval) : bool :=
  match a, b with
  | PyNone, PyNone => true
  | PyStr s, PyStr t => String.eqb s t
  | PyFloat f, PyFloat g => SFeqb f g || (float_isnan f && float_isnan g)
  | _, _ =>
      match py_exact_int a, py_exact_int b with
      | Some x, Some y => (x =? y)%Z
      | _, _ => false
      end
  end.

(** A dict with arbitrary hashable keys and string values, in insertion
    order: [d[k] = v] replaces the value of an equal key, else appends. *)
Fixpoint dict_set (d : list (pyval * string)) (k : pyval) (v : string)
  : list (pyval * string) :=
  match d with
  | [] => [(k, v)]
  | (k', v') :: d' =>
      if py_key_eq k' k then (k', v) :: d' else (k', v') :: dict_set d' k v
  end.

(** [d.get(k, default)]. *)
Fixpoint dict_get (d : list (pyval * string)) (k : pyval) (default : string) : string :=
  match d with
  | [] => default
  | (k', v') :: d' => if py_key_eq k' k then v' else dict_get d' k default
  end.

(** [str(n)] for a non-negative int. *)
Definition py_str (n : nat) : string := NilZero.string_of_uint (Nat.to_uint n).

(** ** Module initialisation of [model_loader] *)

Section ModuleInit.
(** [int(s)] for a string is Python's own parser; it is a parameter. *)
Variable int_of_str : string -> option Z.

(** [int(v)], line 32. *)
Definition py_int (v : pyval) : result Z :=
  match v with
  | PyBool b => Ok (if b then 1 else 0)%Z
  | PyInt z => Ok z
  | PyFloat f => float_int f
  | PyStr s => match int_of_str s with Some z => Ok z | None => Raise ValueError end
  | PyNone | PyList _ | PyDict _ => Raise TypeError
  end.

(** [{k: int(v) for k, v in items}], line 32; keys of a dict returned by
    [json.load] are distinct, so no entry is overwritten. *)
Fixpoint ints_of_items (items : list (string * pyval)) : result (list (string * pyval)) :=
  match items with
  | [] => Ok []
  | (k, v) :: rest =>
      rbind (py_int v) (fun z =>
      rbind (ints_of_items rest) (fun d => Ok ((k, PyInt z) :: d)))
  end.

(** Lines 25-34.  [file] is [None] when [class_indices.json] does not
    exist, [Some (Raise e)] when opening or parsing it raises, and
    [Some (Ok j)] when [json.load] returns [j].  [CLASS_MAP] is first
    bound to [j] (line 30) and then, if the conversion of line 32 does
    not raise, to the converted dict; an exception is printed and the
    binding of the moment stays. *)
Definition load_class_map (file : option (result pyval)) : pyval :=
  match file with
  | None => PyDict []
  | Some (Raise _) => PyDict []
  | Some (Ok j) =>
      match rbind (py_items j) ints_of_items with
      | Ok d => PyDict d
      | Raise _ => j
      end
  end.
End ModuleInit.

(** ** The ensemble predictor *)

Section Predict.
Context {A : Type} `{Number A}.

(** [m.predict(x)]: from a batch of samples to a batch of rows, or an
    exception. *)
Definition classifier : Type := list (list A) -> result (list (list A)).

(** Lines 15-22.  One entry per candidate path: [None] when the file does
    not exist, [Some (Raise e)] when [load_model] raises, [Some (Ok m)]
    when it returns the model [m]. *)
Fixpoint load_models (artifacts : list (option (result classifier))) : list classifier :=
  match artifacts with
  | [] => []
  | Some (Ok m) :: rest => m :: load_models rest
  | _ :: rest => load_models rest
  end.

(** [p[0]]. *)
Definition first_row (p : list (list A)) : result (list A) :=
  match p with
  | [] => Raise IndexError
  | r :: _ => Ok r
  end.

(** Lines 49-55: every model is tried; an exception of [m.predict] or of
    [p[0]] is printed and the model contributes nothing. *)
Fixpoint collect_preds (models : list classifier) (x : list (list A)) : list (list A) :=
  match models with
  | [] => []
  | m :: ms =>
      match rbind (m x) first_row with
      | Ok r => r :: collect_preds ms x
      | Raise _ => collect_preds ms x
      end
  end.

(** Lines 63-68 (the spec's [label_for]). *)
Fixpoint invert_items (items : list (string * pyval)) (inv : list (pyval * string))
  : result (list (pyval * string)) :=
  match items with
  | [] => Ok inv
  | (k, v) :: rest =>
      if py_hashable v then invert_items rest (dict_set inv v k)
      else Raise TypeError
  end.

Definition label_for (CLASS_MAP : pyval) (idx : nat) : result string :=
  if py_truthy CLASS_MAP then
    rbind (py_items CLASS_MAP) (fun items =>
    rbind (invert_items items []) (fun inv =>
    Ok (dict_get inv (PyInt (Z.of_nat idx)) (py_str idx))))
  else Ok (py_str idx).

Definition no_models_msg : string :=
  "No models loaded in 'models/' directory. Add your .h5 files.".
Definition no_predictions_msg : string :=
  "No predictions produced by models.".

(** Lines 59-61: the averaged row, its arg-max and its maximum. *)
Definition ensemble (r : list A) (rs : list (list A)) : result (list A * nat * A) :=
  rbind (np_mean_axis0 r rs) (fun avg =>
  rbind (np_argmax avg) (fun idx =>
  rbind (np_max avg) (fun confidence =>
  Ok (avg, idx, confidence)))).

(** Lines 46-47: the channel values scaled by [1/255], as a batch of one
    sample. *)
Definition scaled_batch (img : list A) : list (list A) :=
  [map (fun v => num_div v (num_of_nat 255)) img].

(** [predict_image(img_path)].  [_models] and [CLASS_MAP] are the module
    globals; [loaded] is the outcome of reading the file at [img_path]
    with Keras (lines 45-46): the channel values of the 224x224 image,
    or the exception raised. *)
Definition predict_image (_models : list classifier) (CLASS_MAP : pyval)
    (loaded : result (list A)) : result (string * A) :=
  match _models with
  | [] => Raise (RuntimeError no_models_msg)
  | _ :: _ =>
      rbind loaded (fun img =>
      let x := scaled_batch img in
      match collect_preds _models x with
      | [] => Raise (RuntimeError no_predictions_msg)
      | r :: rs =>
          rbind (ensemble r rs) (fun '(_, idx, confidence) =>
          rbind (label_for CLASS_MAP idx) (fun label =>
          Ok (label, confidence)))
      end)
  end.
End Predict.

(** ** The runtime environment of the preprocessor *)

Abbreviation bytes := (list Byte.byte).

(** A colour image as OpenCV returns it: rows of columns of (B, G, R). *)
Definition pixel : Type := (Z * Z * Z)%type.
Definition image : Type := list (list pixel).
(** A single-channel image. *)
Definition gray : Type := list (list Z).
(** A contour: the points of its boundary. *)
Definition contour : Type := list (Z * Z).
Definition hierarchy : Type := list (list Z).

(** The outcome of [o.write(data)] on a file just opened with mode ["wb"]:
    either all of [data] is stored, or the call raises after [persisted]
    bytes have reached the file. *)
Inductive write_outcome : Type :=
| Written
| WriteRaises (e : exn) (persisted : nat).

(** What the code cannot see into: the packages it imports and the faults
    of the file system.  Each field is the behaviour of one external call
    on its arguments. *)
Record environment : Type := {
  (** [from rembg import remove]: the package is there, or the import
      raises. *)
  rembg_import : result unit;
  rembg_remove : bytes -> result bytes;
  (** The exception, if any, with which opening an existing file for
      reading, or a file for writing, fails. *)
  open_rb_fault : string -> option exn;
  open_wb_fault : string -> option exn;
  file_write : string -> bytes -> write_outcome;
  cv2_import : result unit;
  (** The constants of [cv2] that the code names. *)
  COLOR_BGR2GRAY : Z;
  THRESH_BINARY : Z;
  THRESH_OTSU : Z;
  RETR_EXTERNAL : Z;
  CHAIN_APPROX_SIMPLE : Z;
  (** [cv2.imread] on the content of the file, [None] when it is absent;
      returns Python's [None] when the file cannot be decoded. *)
  cv2_imread : option bytes -> result (option image);
  cv2_cvtColor : image -> Z -> result gray;
  cv2_GaussianBlur : gray -> Z * Z -> Z -> result gray;
  cv2_threshold : gray -> Z -> Z -> Z -> result (Q * gray);
  cv2_findContours : gray -> Z -> Z -> result (list contour * hierarchy);
  cv2_contourArea : contour -> result Q;
  cv2_boundingRect : contour -> result (nat * nat * nat * nat);
  cv2_resize : image -> Z * Z -> result image;
  (** [cv2.imwrite]: raises, or returns [False] having saved nothing
      ([Ok None]), or returns [True] having stored the encoded image. *)
  cv2_imwrite : string -> image -> result (option bytes)
}.

(** The external calls, in the order in which they are made. *)
Inductive event : Type :=
| EvImport (module : string)
| EvOpen (path mode : string)
| EvRead (path : string)
| EvRemove (input : bytes)
| EvWrite (path : string) (data : bytes)
| EvImread (path : string)
| EvCvtColor (src : image) (code : Z)
| EvGaussianBlur (src : gray) (ksize : Z * Z) (sigmaX : Z)
| EvThreshold (src : gray) (thresh maxval type : Z)
| EvFindContours (src : gray) (mode method : Z)
| EvContourArea (c : contour)
| EvBoundingRect (c : contour)
| EvResize (src : image) (dsize : Z * Z)
| EvImwrite (path : string) (img : image).

(** The files on disk and the calls made so far. *)
Record state : Type := {
  fs : gmap string bytes;
  trace : list event
}.

(** ** A state-and-exception monad *)

Definition M (A : Type) : Type := state -> result A * state.

Definition ret {A : Type} (a : A) : M A := fun s => (Ok a, s).
Definition raise {A : Type} (e : exn) : M A := fun s => (Raise e, s).
Definition bind {A B : Type} (m : M A) (k : A -> M B) : M B :=
  fun s => match m s with
           | (Ok a, s') => k a s'
           | (Raise e, s') => (Raise e, s')
           end.
(** [try: body  except Exception: handler]. *)
Definition try_except {A : Type} (body : M A) (handler : exn -> M A) : M A :=
  fun s => match body s with
           | (Ok a, s') => (Ok a, s')
           | (Raise e, s') => handler e s'
           end.
Definition lift {A : Type} (r : result A) : M A := fun s => (r, s).
Definition log (e : event) : M unit :=
  fun s => (Ok tt, {| fs := fs s; trace := trace s ++ [e] |}).
Definition store (path : string) (b : bytes) : M unit :=
  fun s => (Ok tt, {| fs := <[path := b]> (fs s); trace := trace s |}).
Definition content (path : string) : M (option bytes) :=
  fun s => (Ok (fs s !! path), s).

(** The monad is used through stdpp's [x ← m; k] notation. *)
#[export] Instance M_ret : MRet M := @ret.
#[export] Instance M_bind : MBind M := fun A B k m => bind m k.

(** ** [preprocess_image_if_available] *)

(** [l[a:b]] for [0 <= a <= b]. *)
Definition py_slice {T : Type} (a b : nat) (l : list T) : list T :=
  take (b - a) (drop a l).

(** [img[y:y+h, x:x+w]]. *)
Definition crop_box (img : image) (x y w h : nat) : image :=
  map (py_slice x (x + w)) (py_slice y (y + h) img).

Section Preprocess.
Variable env : environment.

(** [from rembg import remove]. *)
Definition import_rembg : M unit :=
  log (EvImport "rembg");; lift (rembg_import env).

(** [with open(path, "rb") as i: input_bytes = i.read()]. *)
Definition read_file (path : string) : M bytes :=
  log (EvOpen path "rb");;
  match open_rb_fault env path with
  | Some e => raise e
  | None =>
      c ← content path;
      match c with
      | None => raise FileNotFoundError
      | Some b => log (EvRead path);; mret b
      end
  end.

Definition remove (input_bytes : bytes) : M bytes :=
  log (EvRemove input_bytes);; lift (rembg_remove env input_bytes).

(** [open(path, "wb")]: when it does not raise, the file exists and is
    empty. *)
Definition open_wb (path : string) : M unit :=
  log (EvOpen path "wb");;
  match open_wb_fault env path with
  | Some e => raise e
  | None => store path []
  end.

(** [o.write(data)], with the flush of the [with] block's exit. *)
Definition write (path : string) (data : bytes) : M unit :=
  log (EvWrite path data);;
  match file_write env path data with
  | Written => store path data
  | WriteRaises e persisted => store path (take persisted data);; raise e
  end.

(** Lines 79-85. *)
Definition primary (img_path : string) : M bool :=
  import_rembg;;
  input_bytes ← read_file img_path;
  output ← remove input_bytes;
  open_wb img_path;;
  write img_path output;;
  mret true.

(** [import cv2]; the [import numpy] that follows finds the module that
    [model_loader] imported when it was loaded. *)
Definition import_cv2 : M unit :=
  log (EvImport "cv2");; lift (cv2_import env).

Definition imread (path : string) : M (option image) :=
  log (EvImread path);;
  c ← content path;
  lift (cv2_imread env c).

Definition cvtColor (src : image) (code : Z) : M gray :=
  log (EvCvtColor src code);; lift (cv2_cvtColor env src code).

Definition GaussianBlur (src : gray) (ksize : Z * Z) (sigmaX : Z) : M gray :=
  log (EvGaussianBlur src ksize sigmaX);; lift (cv2_GaussianBlur env src ksize sigmaX).

Definition threshold (src : gray) (thresh maxval type : Z) : M (Q * gray) :=
  log (EvThreshold src thresh maxval type);;
  lift (cv2_threshold env src thresh maxval type).

Definition findContours (src : gray) (mode method : Z) : M (list contour * hierarchy) :=
  log (EvFindContours src mode method);;
  lift (cv2_findContours env src mode method).

Definition contourArea (c : contour) : M Q :=
  log (EvContourArea c);; lift (cv2_contourArea env c).

Definition boundingRect (c : contour) : M (nat * nat * nat * nat) :=
  log (EvBoundingRect c);; lift (cv2_boundingRect env c).

Definition resize (src : image) (dsize : Z * Z) : M image :=
  log (EvResize src dsize);; lift (cv2_resize env src dsize).

Definition imwrite (path : string) (img : image) : M bool :=
  log (EvImwrite path img);;
  saved ← lift (cv2_imwrite env path img);
  match saved with
  | None => mret false
  | Some b => store path b;; mret true
  end.

(** The loop of [max(contours, key=cv2.contourArea)] after its first
    item: the key of each item is computed in turn, and an item
    replaces the current one when its key is greater. *)
Fixpoint max_scan (maxitem : contour) (maxval : Q) (rest : list contour) : M contour :=
  match rest with
  | [] => mret maxitem
  | c :: rest' =>
      v ← contourArea c;
      if negb (Qle_bool v maxval) then max_scan c v rest'
      else max_scan maxitem maxval rest'
  end.

Definition max_by_contourArea (c0 : contour) (rest : list contour) : M contour :=
  v0 ← contourArea c0;
  max_scan c0 v0 rest.

(** Lines 89-105. *)
Definition fallback (img_path : string) : M bool :=
  import_cv2;;
  img ← imread img_path;
  match img with
  | None => mret false
  | Some img =>
      gray ← cvtColor img (COLOR_BGR2GRAY env);
      blur ← GaussianBlur gray (5, 5)%Z 0%Z;
      '(_, th) ← threshold blur 0%Z 255%Z (THRESH_BINARY env + THRESH_OTSU env)%Z;
      '(contours, _) ← findContours th (RETR_EXTERNAL env) (CHAIN_APPROX_SIMPLE env);
      match contours with
      | [] => mret false
      | c0 :: rest =>
          c ← max_by_contourArea c0 rest;
          '(x, y, w, h) ← boundingRect c;
          let crop := crop_box img x y w h in
          crop ← resize crop (224, 224)%Z;
          imwrite img_path crop;;
          mret true
      end
  end.

(** Lines 72-107. *)
Definition preprocess_image_if_available (img_path : string) : M bool :=
  try_except (primary img_path)
    (fun _ => try_except (fallback img_path) (fun _ => mret false)).
End Preprocess.

(** ** The prediction fragment of the request handlers *)

(** How the fragment ends: with a label and a confidence, which the handler
    goes on to store and return, or with the HTTP 500 answer that carries
    the exception of [predict_image]. *)
Inductive response (A : Type) : Type :=
| Predicted (label : string) (confidence : A)
| PredictionError (e : exn).
Arguments Predicted {A} label confidence.
Arguments PredictionError {A} e.

(** [label, confidence = predict_image(...)] inside the handler's [try]. *)
Definition response_of {A : Type} (r : result (string * A)) : response A :=
  match r with
  | Ok (label, confidence) => Predicted label confidence
  | Raise e => PredictionError e
  end.

Section Pipeline.
Context {A : Type} `{Number A}.
Variable env : environment.
(** Lines 45-46 of [predict_image] on the content of the file. *)
Variable keras_load_img : option bytes -> result (list A).
Variable _models : list (@classifier A).
Variable CLASS_MAP : pyval.

(** Lines 157-168 of [upload], repeated as lines 222-231 of
    [predict_base64]: the preprocessor runs inside a [try] whose handler
    only logs, then [predict_image] runs on the same path. *)
Definition preprocess_and_predict (save_path : string) : M (response A) :=
  try_except (preprocess_image_if_available env save_path;; mret tt)
             (fun _ => mret tt);;
  c ← content save_path;
  mret (response_of (predict_image _models CLASS_MAP (keras_load_img c))).
End Pipeline.

(** ** [allowed_file] of [app/app.py] *)

(** [s.split(sep)] for a separator of one character. *)
Fixpoint py_split (sep : ascii) (s : string) : list string :=
  match s with
  | EmptyString => [EmptyString]
  | String c s' =>
      if Ascii.eqb c sep then EmptyString :: py_split sep s'
      else match py_split sep s' with
           | [] => [String c EmptyString]
           | p :: ps => String c p :: ps
           end
  end.

(** [Path(filename).name] where paths are POSIX paths: the last of the
    components between slashes, empty components and ["."] left out; the
    empty string when there is none. *)
Definition path_name (filename : string) : string :=
  List.last
    (List.filter (fun x => negb (String.eqb x "") && negb (String.eqb x "."))
       (py_split "/" filename))
    "".

(** [name.rfind(".")], counting from [i] at the head of [name]. *)
Fixpoint rfind_dot (name : string) (i : nat) : option nat :=
  match name with
  | EmptyString => None
  | String c rest =>
      match rfind_dot rest (S i) with
      | Some j => Some j
      | None => if Ascii.eqb c "." then Some i else None
      end
  end.

(** [PurePath.suffix] as pathlib defines it up to Python 3.13:
    [i = name.rfind(".")], and [name[i:]] if [0 < i < len(name) - 1],
    else the empty string. *)
Definition path_suffix (name : string) : string :=
  match rfind_dot name 0 with
  | Some i =>
      if (0 <? i) && (S i <? String.length name)
      then String.substring i (String.length name - i) name
      else ""
  | None => ""
  end.

(** [str.lower] on the letters [A-Z].  Other characters are kept: none of
    them is lowered by Python to a letter of an allowed extension. *)
Definition lower_ascii (c : ascii) : ascii :=
  let n := nat_of_ascii c in
  if (65 <=? n) && (n <=? 90) then ascii_of_nat (n + 32) else c.

Fixpoint py_lower (s : string) : string :=
  match s with
  | EmptyString => EmptyString
  | String c s' => String (lower_ascii c) (py_lower s')
  end.

Definition ALLOWED_EXT : list string := [".jpg"; ".jpeg"; ".png"; ".bmp"].

(** Lines 135-137. *)
Definition allowed_file (filename : string) : bool :=
  let ext := py_lower (path_suffix (path_name filename)) in
  bool_decide (ext ∈ ALLOWED_EXT).

(** ** The database [leaf_info.db] *)

(** The exceptions of [sqlite3] met by the code. *)
Inductive sqlite_error : Type :=
| IntegrityError
| OperationalError
| DatabaseError.

(** The rows of the three tables.  [id] is an [INTEGER PRIMARY KEY
    AUTOINCREMENT] in each of them. *)
Record users_row : Type := {
  users_id : nat;
  users_username : string;
  users_password : string
}.

Record history_row (A : Type) : Type := {
  history_id : nat;
  history_username : string;
  history_filename : string;
  history_label : string;
  history_confidence : A;
  history_created_at : string
}.
Arguments history_id {A} _.
Arguments history_username {A} _.
Arguments history_filename {A} _.
Arguments history_label {A} _.
Arguments history_confidence {A} _.
Arguments history_created_at {A} _.

Record LeafInfo_row : Type := {
  LeafInfo_id : nat;
  LeafInfo_name : string;
  LeafInfo_scientific_name : string;
  LeafInfo_benefits : string;
  LeafInfo_precautions : string
}.

(** The committed content of the database file.  A table is [None] until
    a [CREATE TABLE IF NOT EXISTS] has made it, and then holds its rows in
    the order of their insertion; a table that exists has the columns and
    the [UNIQUE] constraint of the statement that creates it in the code.

    [LeafInfo_sequence] is the entry of [LeafInfo] in [sqlite_sequence],
    the largest id that [AUTOINCREMENT] has taken for the table, and 0
    when the table has no entry.  An [INSERT OR IGNORE] that is ignored
    takes an id too, so this counter can be ahead of the ids in the
    table.  [users] and [history] receive plain [INSERT]s only, which
    leave their counters at the largest id in the table: those counters
    are not kept apart from the rows. *)
Record database (A : Type) : Type := {
  users : option (list users_row);
  history : option (list (history_row A));
  LeafInfo : option (list LeafInfo_row);
  LeafInfo_sequence : nat
}.
Arguments users {A} _.
Arguments history {A} _.
Arguments LeafInfo {A} _.
Arguments LeafInfo_sequence {A} _.

Definition set_users {A : Type} (d : database A) (t : option (list users_row))
  : database A :=
  {| users := t; history := history d; LeafInfo := LeafInfo d;
     LeafInfo_sequence := LeafInfo_sequence d |}.
Definition set_history {A : Type} (d : database A) (t : option (list (history_row A)))
  : database A :=
  {| users := users d; history := t; LeafInfo := LeafInfo d;
     LeafInfo_sequence := LeafInfo_sequence d |}.
Definition set_LeafInfo {A : Type} (d : database A) (t : option (list LeafInfo_row))
    (sequence : nat) : database A :=
  {| users := users d; history := history d; LeafInfo := t;
     LeafInfo_sequence := sequence |}.

(** The id that [AUTOINCREMENT] gives to a new row of [users] or
    [history]: no row of these tables is ever deleted and no insertion
    into them is ignored, so the largest id in use is the largest id
    that was taken. *)
Definition next_id (ids : list nat) : nat := S (list_max ids).

(** ** [database/db_setup.py] *)

Definition samples : list (string * string * string * string) :=
  [ ("Neem", "Azadirachta indica",
     "Antibacterial, skin healing, anti-inflammatory",
     "Avoid ingestion in large amounts.");
    ("Tulsi", "Ocimum tenuiflorum",
     "Immunity booster, respiratory support",
     "Use moderate amounts in pregnancy.");
    ("AloeVera", "Aloe vera",
     "Skin hydration, wound healing",
     "External use recommended.") ].

Definition has_name (name : string) (rows : list LeafInfo_row) : bool :=
  existsb (fun r => String.eqb (LeafInfo_name r) name) rows.

(** [INSERT OR IGNORE INTO LeafInfo (name, scientific_name, benefits,
    precautions) VALUES (?, ?, ?, ?)] on the rows of the table and its
    counter.  [AUTOINCREMENT] takes the id one above the largest of the
    counter and the ids in the table, and the counter becomes that id;
    then a row whose name is in the table already is not inserted, and
    the id it took stays taken. *)
Definition insert_or_ignore (t : list LeafInfo_row * nat)
    (s : string * string * string * string) : list LeafInfo_row * nat :=
  let '(rows, sequence) := t in
  let '(name, scientific_name, benefits, precautions) := s in
  let id := S (Nat.max sequence (list_max (map LeafInfo_id rows))) in
  if has_name name rows then (rows, id)
  else (rows ++ [ {| LeafInfo_id := id;
                     LeafInfo_name := name;
                     LeafInfo_scientific_name := scientific_name;
                     LeafInfo_benefits := benefits;
                     LeafInfo_precautions := precautions |} ],
        id).

Section DbSetup.
Context {A : Type}.
(** The exception, if any, with which the [sqlite3] call on a line of
    [db_setup.py] fails for a reason that is not in the tables, and
    whether the insertion of a sample (line 30) so fails. *)
Variable setup_fault : nat -> option sqlite_error.
Variable insert_fault : string * string * string * string -> bool.

(** Lines 29-32: an exception of the insertion is printed; the statement
    that raised has changed nothing. *)
Definition insert_sample (t : list LeafInfo_row * nat)
    (s : string * string * string * string) : list LeafInfo_row * nat :=
  if insert_fault s then t else insert_or_ignore t s.

(** Lines 28-32. *)
Definition insert_samples (t : list LeafInfo_row * nat) : list LeafInfo_row * nat :=
  fold_left insert_sample samples t.

(** The run of the script: the exception that ends it, if any, and the
    database it leaves.  The table is created as soon as line 11 has run;
    the inserted rows and the ids taken are there once line 34 has
    committed them. *)
Definition db_setup (d : database A) : option sqlite_error * database A :=
  match setup_fault 7 with
  | Some e => (Some e, d)
  | None =>
      match setup_fault 11 with
      | Some e => (Some e, d)
      | None =>
          let t :=
            match LeafInfo d with
            | Some rows => (rows, LeafInfo_sequence d)
            | None => ([], 0)
            end in
          match setup_fault 34 with
          | Some e => (Some e, set_LeafInfo d (Some (fst t)) (snd t))
          | None =>
              let t' := insert_samples t in
              (None, set_LeafInfo d (Some (fst t')) (snd t'))
          end
      end
  end.
End DbSetup.

(** ** The request handlers of [app/app.py] *)

(** How [file.save(path)] or [img.save(path)] fails: with an exception,
    the file at [path] holding [left] if anything was written. *)
Inductive save_failure : Type :=
| SaveFailure (e : exn) (left : option bytes).

(** What the handlers call and cannot see into. *)
Record web_environment : Type := {
  (** [werkzeug.utils.secure_filename]. *)
  secure_filename : string -> string;
  (** [datetime.utcnow().strftime("%Y%m%d_%H%M%S")] and
      [datetime.utcnow().isoformat()] during the request. *)
  utcnow_strftime : string;
  utcnow_isoformat : string;
  (** [str(UPLOAD_FOLDER / save_name)]. *)
  upload_path : string -> string;
  (** [file.save(save_path)] of an uploaded file with the given content:
      [None] when it stores the content. *)
  file_save : string -> bytes -> option save_failure;
  (** Lines 212-213: [b64decode], [Image.open] and [convert("RGB")]. *)
  b64_open_rgb : string -> result image;
  (** [img.save(save_path)]: the bytes of the JPEG file it stores, or its
      failure. *)
  img_save : string -> image -> bytes + save_failure;
  (** The exception, if any, with which the [sqlite3] call on a line of
      [app.py] fails for a reason that is not in the tables. *)
  sqlite_fault : nat -> option sqlite_error;
  (** The hash that [generate_password_hash] returns during the request. *)
  generate_password_hash : string -> string;
  check_password_hash : string -> string -> bool;
  (** [str.strip]. *)
  strip : string -> string
}.

(** What the client keeps of the session. *)
Record session : Type := {
  session_user_id : option nat;
  session_username : option string
}.

(** The files, the database and the session of the client.  The
    database is the file [leaf_info.db]; it is kept here as its tables
    ([db]), apart from the other files ([disk]), on which the handlers
    act through [save] and the preprocessor. *)
Record app_state (A : Type) : Type := {
  disk : state;
  db : database A;
  client : session
}.
Arguments disk {A} _.
Arguments db {A} _.
Arguments client {A} _.

(** An exception that leaves the view function. *)
Inductive uncaught : Type :=
| PythonException (e : exn)
| SqliteException (e : sqlite_error).

Inductive http_response (A : Type) : Type :=
| Redirect (endpoint : string)
| Template (name : string)
| Text (body : string) (status : nat)
| JsonError (error : string) (status : nat)
(** [{"error": f"Invalid image data: {e}"}], 400. *)
| JsonInvalidImage (e : exn)
(** [{"error": f"Prediction error: {e}"}], 500. *)
| JsonPredictionError (e : exn)
| JsonPrediction (label : string) (confidence : A) (scientific_name benefits : string)
(** Flask answers an exception of the view with status 500. *)
| InternalServerError (e : uncaught).
Arguments Redirect {A} endpoint.
Arguments Template {A} name.
Arguments Text {A} body status.
Arguments JsonError {A} error status.
Arguments JsonInvalidImage {A} e.
Arguments JsonPredictionError {A} e.
Arguments JsonPrediction {A} label confidence scientific_name benefits.
Arguments InternalServerError {A} e.

(** [load_user], lines 46-51, as Flask-Login calls it: the user of the
    request, if the session names one. *)
Definition current_user (c : session) : option (nat * string) :=
  match session_user_id c with
  | None => None
  | Some user_id =>
      match session_username c with
      | None => None
      | Some username =>
          if String.eqb username "" then None else Some (user_id, username)
      end
  end.

(** [s.startswith(sub)]. *)
Fixpoint py_startswith (sub s : string) : bool :=
  match sub with
  | EmptyString => true
  | String a sub' =>
      match s with
      | EmptyString => false
      | String b s' => Ascii.eqb a b && py_startswith sub' s'
      end
  end.

(** [sub in s] for two strings. *)
Fixpoint py_str_contains (sub s : string) : bool :=
  py_startswith sub s ||
  match s with
  | EmptyString => false
  | String _ s' => py_str_contains sub s'
  end.

(** [item in v] for a string [item]. *)
Definition py_contains (item : string) (v : pyval) : result bool :=
  match v with
  | PyDict d => Ok (existsb (fun kv => String.eqb (fst kv) item) d)
  | PyList l =>
      Ok (existsb (fun x => match x with
                            | PyStr t => String.eqb t item
                            | _ => false
                            end) l)
  | PyStr t => Ok (py_str_contains item t)
  | _ => Raise TypeError
  end.

(** [s.split(",", 1)[1]] for a string with a comma. *)
Fixpoint after_comma (s : string) : string :=
  match s with
  | EmptyString => EmptyString
  | String c s' => if Ascii.eqb c "," then s' else after_comma s'
  end.

(** Lines 209-210 of [predict_base64]: the value bound to [img_b64] when
    line 213 is reached. *)
Definition without_header (img_b64 : pyval) : result pyval :=
  rbind (py_contains "," img_b64) (fun comma =>
  if comma then
    match img_b64 with
    | PyStr t => Ok (PyStr (after_comma t))
    | _ => Raise AttributeError
    end
  else Ok img_b64).

(** Lines 206-210 of [predict_base64]: [None] for the answer "No image
    provided", else the value bound to [img_b64].  A dict that has the
    key is indexed by it; indexing a list or a string by ["image"]
    raises. *)
Definition image_field (data : pyval) : result (option pyval) :=
  if negb (py_truthy data) then Ok None
  else
    match data with
    | PyDict d =>
        match List.find (fun kv => String.eqb (fst kv) "image") d with
        | Some kv => rbind (without_header (snd kv)) (fun v => Ok (Some v))
        | None => Ok None
        end
    | _ =>
        rbind (py_contains "image" data) (fun present =>
        if present then Raise TypeError else Ok None)
    end.

Section Handlers.
Context {A : Type} `{Number A}.
Variable env : environment.
Variable web : web_environment.
Variable keras_load_img : option bytes -> result (list A).
Variable _models : list (@classifier A).
Variable CLASS_MAP : pyval.

(** The first of the lines on which a [sqlite3] call fails. *)
Fixpoint first_fault (lines : list nat) : option sqlite_error :=
  match lines with
  | [] => None
  | l :: ls =>
      match sqlite_fault web l with
      | Some e => Some e
      | None => first_fault ls
      end
  end.

Definition find_user (username : string) (rows : list users_row) : option users_row :=
  List.find (fun r => String.eqb (users_username r) username) rows.

(** Lines 66-85. *)
Definition register (method : string) (form : string -> option string)
    (s : app_state A) : http_response A * app_state A :=
  if String.eqb method "POST" then
    match form "username" with
    | None => (InternalServerError (PythonException AttributeError), s)
    | Some u =>
        let username := strip web u in
        match form "password" with
        | None => (Text "Username and password required" 400, s)
        | Some password =>
            if String.eqb username "" || String.eqb password ""
            then (Text "Username and password required" 400, s)
            else
              let hashed := generate_password_hash web password in
              match first_fault [74; 76] with
              | Some e => (InternalServerError (SqliteException e), s)
              | None =>
                  let rows := default [] (users (db s)) in
                  let created :=
                    {| disk := disk s; db := set_users (db s) (Some rows);
                       client := client s |} in
                  let inserted : sqlite_error + list users_row :=
                    match sqlite_fault web 78 with
                    | Some e => inl e
                    | None =>
                        match find_user username rows with
                        | Some _ => inl IntegrityError
                        | None =>
                            match sqlite_fault web 79 with
                            | Some e => inl e
                            | None =>
                                inr (rows ++
                                     [ {| users_id := next_id (map users_id rows);
                                          users_username := username;
                                          users_password := hashed |} ])
                            end
                        end
                    end in
                  match inserted with
                  | inl IntegrityError => (Text "Username already exists" 400, created)
                  | inl e => (InternalServerError (SqliteException e), created)
                  | inr rows' =>
                      (Redirect "login",
                       {| disk := disk s; db := set_users (db s) (Some rows');
                          client := client s |})
                  end
              end
        end
    end
  else (Template "register.html", s).

(** Lines 87-103. *)
Definition login (method : string) (form : string -> option string)
    (s : app_state A) : http_response A * app_state A :=
  if String.eqb method "POST" then
    match form "username" with
    | None => (InternalServerError (PythonException AttributeError), s)
    | Some u =>
        let username := strip web u in
        match form "password" with
        | None => (InternalServerError (PythonException AttributeError), s)
        | Some p =>
            let password := strip web p in
            match first_fault [92; 94] with
            | Some e => (InternalServerError (SqliteException e), s)
            | None =>
                match users (db s) with
                | None => (InternalServerError (SqliteException OperationalError), s)
                | Some rows =>
                    match find_user username rows with
                    | Some row =>
                        if check_password_hash web (users_password row) password
                        then (Redirect "dashboard",
                              {| disk := disk s; db := db s;
                                 client := {| session_user_id := Some (users_id row);
                                              session_username := Some username |} |})
                        else (Text "Invalid credentials" 401, s)
                    | None => (Text "Invalid credentials" 401, s)
                    end
                end
            end
        end
    end
  else (Template "login.html", s).

(** Lines 105-110. *)
Definition logout (s : app_state A) : http_response A * app_state A :=
  match current_user (client s) with
  | None => (Redirect "login", s)
  | Some _ =>
      (Redirect "login",
       {| disk := disk s; db := db s;
          client := {| session_user_id := None; session_username := None |} |})
  end.

(** [file.save(save_path)] and [img.save(save_path)]. *)
Definition save_to (path : string) (outcome : bytes + save_failure) : M unit :=
  match outcome with
  | inl b => store path b
  | inr (SaveFailure e None) => raise e
  | inr (SaveFailure e (Some b)) => store path b;; raise e
  end.

(** Lines 171-181 of [upload] and 234-243 of [predict_base64]; [lines]
    are those of the [connect] and of the [execute]. *)
Definition leaf_info (lines : list nat) (label : string) (d : database A)
  : sqlite_error + string * string :=
  match first_fault lines with
  | Some e => inl e
  | None =>
      match LeafInfo d with
      | None => inl OperationalError
      | Some rows =>
          match List.find (fun r => String.eqb (LeafInfo_name r) label) rows with
          | Some info => inr (LeafInfo_scientific_name info, LeafInfo_benefits info)
          | None => inr ("N/A", "N/A")
          end
      end
  end.

Definition new_history_row (rows : list (history_row A))
    (username save_name label : string) (confidence : A) : history_row A :=
  {| history_id := next_id (map history_id rows);
     history_username := username;
     history_filename := save_name;
     history_label := label;
     history_confidence := confidence;
     history_created_at := utcnow_isoformat web |}.

(** Lines 184-193 of [upload]: the table is made if it is not there, the
    row is inserted and committed; an exception is logged. *)
Definition save_history_upload (username save_name label : string) (confidence : A)
    (d : database A) : database A :=
  match first_fault [185; 187] with
  | Some _ => d
  | None =>
      let rows := default [] (history d) in
      match first_fault [188; 190] with
      | Some _ => set_history d (Some rows)
      | None =>
          set_history d
            (Some (rows ++ [new_history_row rows username save_name label confidence]))
      end
  end.

(** Lines 246-252 of [predict_base64]: the same without the
    [CREATE TABLE IF NOT EXISTS]. *)
Definition save_history_base64 (username save_name label : string) (confidence : A)
    (d : database A) : database A :=
  match first_fault [247; 248; 250] with
  | Some _ => d
  | None =>
      match history d with
      | None => d
      | Some rows =>
          set_history d
            (Some (rows ++ [new_history_row rows username save_name label confidence]))
      end
  end.

(** From the saving of the image to the answer, lines 155-199 of [upload]
    and 220-254 of [predict_base64]. *)
Definition save_predict_record (outcome : bytes + save_failure)
    (info_lines : list nat)
    (save_history : string -> string -> string -> A -> database A -> database A)
    (username save_name : string) (s : app_state A)
  : http_response A * app_state A :=
  let save_path := upload_path web save_name in
  match save_to save_path outcome (disk s) with
  | (Raise e, disk1) =>
      (InternalServerError (PythonException e),
       {| disk := disk1; db := db s; client := client s |})
  | (Ok _, disk1) =>
      match preprocess_and_predict env keras_load_img _models CLASS_MAP save_path disk1 with
      | (Raise e, disk2) =>
          (InternalServerError (PythonException e),
           {| disk := disk2; db := db s; client := client s |})
      | (Ok (PredictionError e), disk2) =>
          (JsonPredictionError e, {| disk := disk2; db := db s; client := client s |})
      | (Ok (Predicted label confidence), disk2) =>
          match leaf_info info_lines label (db s) with
          | inl e =>
              (InternalServerError (SqliteException e),
               {| disk := disk2; db := db s; client := client s |})
          | inr (scientific_name, benefits) =>
              (JsonPrediction label confidence scientific_name benefits,
               {| disk := disk2;
                  db := save_history username save_name label confidence (db s);
                  client := client s |})
          end
      end
  end.

(** The name under which [upload] saves a file. *)
Definition upload_save_name (username file_filename : string) : string :=
  (username ++ "_" ++ utcnow_strftime web ++ "_" ++ secure_filename web file_filename)%string.

(** Lines 140-199.  [file] is [request.files.get("file")]: the name and
    the content of the uploaded file. *)
Definition upload (file : option (string * bytes)) (s : app_state A)
  : http_response A * app_state A :=
  match current_user (client s) with
  | None => (Redirect "login", s)
  | Some (_, username) =>
      match file with
      | None => (JsonError "No file part" 400, s)
      | Some (file_filename, data) =>
          if String.eqb file_filename "" then (JsonError "No selected file" 400, s)
          else if negb (allowed_file file_filename)
          then (JsonError "Invalid file type" 400, s)
          else
            let save_name := upload_save_name username file_filename in
            let outcome :=
              match file_save web (upload_path web save_name) data with
              | None => inl data
              | Some f => inr f
              end in
            save_predict_record outcome [171; 173] save_history_upload
              username save_name s
      end
  end.

(** The name under which [predict_base64] saves a capture. *)
Definition capture_save_name (username : string) : string :=
  (username ++ "_cam_" ++ utcnow_strftime web ++ ".jpg")%string.

(** Lines 202-254.  [data] is what [request.get_json()] returned. *)
Definition predict_base64 (data : pyval) (s : app_state A)
  : http_response A * app_state A :=
  match current_user (client s) with
  | None => (Redirect "login", s)
  | Some (_, username) =>
      match image_field data with
      | Raise e => (InternalServerError (PythonException e), s)
      | Ok None => (JsonError "No image provided" 400, s)
      | Ok (Some img_b64) =>
          let decoded :=
            match img_b64 with
            | PyStr t => b64_open_rgb web t
            | _ => Raise TypeError
            end in
          match decoded with
          | Raise e => (JsonInvalidImage e, s)
          | Ok img =>
              let save_name := capture_save_name username in
              save_predict_record (img_save web (upload_path web save_name) img)
                [234; 235] save_history_base64 username save_name s
          end
      end
  end.
End Handlers.

(** * Vocabulary of the statements *)

Definition same_length {A : Type} (r : list A) (rs : list (list A)) : Prop :=
  Forall (fun r' => length r' = length r) rs.




(** [idx] is a position of a largest element of [a] for [num_leb], and the
    first such; [d] is the value of [nth] out of range. *)
Definition first_largest {A : Type} `{Number A} (d : A) (a : list A) (idx : nat) : Prop :=
  idx < length a /\
  (forall j, j < length a -> num_leb (nth j a d) (nth idx a d) = true) /\
  (forall j, j < idx -> num_leb (nth idx a d) (nth j a d) = false).

(** The binary32 values that [<=] orders: all of them but NaN. *)
Definition f32_ordered (x : float32) : Prop := f32_isnan x = false.

(** The vectors that the classifiers produce on the batch [x]: of every
    classifier whose [predict] returns a batch that has a first row, that
    row, in the order of the classifiers. *)
Definition produced_vectors {A : Type} (models : list (@classifier A)) (x : list (list A))
  : list (list A) :=
  omap (fun m : classifier =>
          match m x with
          | Ok (r :: _) => Some r
          | _ => None
          end) models.

(** The [j]-th elements of the vectors. *)
Definition f32_column (rows : list (list float32)) (j : nat) : list float32 :=
  map (fun r => nth j r S754_nan) rows.

(** The binary32 mean of numbers: they are added one after the other,
    from the first to the last, each addition rounded, and the sum is
    divided by their count. *)
Definition f32_mean (col : list float32) : float32 :=
  match col with
  | [] => S754_nan
  | a :: l => SFdiv 24 128 (fold_left (SFadd 24 128) l a) (f32_of_nat (length col))
  end.

(** [idx] is the arg-max of [a]: the first position of a largest element
    when [a] holds no NaN, and the position of the first NaN otherwise
    (a NaN counts as the largest value for numpy). *)
Definition f32_first_argmax (a : list float32) (idx : nat) : Prop :=
  (Forall f32_ordered a /\ first_largest S754_nan a idx) \/
  (idx < length a /\ nth idx a S754_nan = S754_nan /\
   forall j, j < idx -> f32_ordered (nth j a S754_nan)).







(** A class map as line 32 leaves it: names to ints, in file order. *)
Definition int_items (cm : list (string * Z)) : list (string * pyval) :=
  map (fun kv => (fst kv, PyInt (snd kv))) cm.

(** The names to which [cm] gives the index [i], in iteration order. *)
Definition names_of_index (cm : list (string * Z)) (i : Z) : list string :=
  map fst (List.filter (fun kv => (snd kv =? i)%Z) cm).

(** States of [CLASS_MAP] on which lines 64-68 cannot raise: a falsy
    object, or a dict all of whose values are hashable. *)
Definition class_map_usable (CLASS_MAP : pyval) : bool :=
  match CLASS_MAP with
  | PyDict d => forallb (fun kv => py_hashable (snd kv)) d
  | _ => negb (py_truthy CLASS_MAP)
  end.

Definition int_keys (d : list (pyval * string)) : Prop :=
  Forall (fun kv => exists z, fst kv = PyInt z) d.

(** [s] after the calls [t]. *)
Definition appended (s : state) (t : list event) : state :=
  {| fs := fs s; trace := trace s ++ t |}.

(** What the environment makes of the primary strategy on a file:
    [Some (input, output)] when rembg is imported, the file is opened and
    read as [input], [remove] returns [output], the file is opened for
    writing and the write stores all of [output]; [None] when one of
    these steps raises. *)
Definition primary_result (env : environment) (img_path : string) (file : option bytes)
  : option (bytes * bytes) :=
  match rembg_import env, open_rb_fault env img_path, file with
  | Ok _, None, Some input =>
      match rembg_remove env input with
      | Ok output =>
          match open_wb_fault env img_path, file_write env img_path output with
          | None, Written => Some (input, output)
          | _, _ => None
          end
      | Raise _ => None
      end
  | _, _, _ => None
  end.

(** The calls of a complete run of the primary strategy. *)
Definition primary_trace (img_path : string) (input output : bytes) : list event :=
  [EvImport "rembg"; EvOpen img_path "rb"; EvRead img_path; EvRemove input;
   EvOpen img_path "wb"; EvWrite img_path output].

(** [crop] is [img] cut to the box of corner [(x, y)], width [w] and
    height [h]: it has the rows [y] to [y + h] that the image has, each
    with the columns [x] to [x + w] that the row has, and its element
    [(i, j)] is the element [(y + i, x + j)] of the image. *)
Definition cut_to_box (img : image) (box : nat * nat * nat * nat) (crop : image) : Prop :=
  let '(x, y, w, h) := box in
  length crop = Nat.min h (length img - y) /\
  forall i row,
    crop !! i = Some row ->
    exists src,
      img !! (y + i) = Some src /\
      length row = Nat.min w (length src - x) /\
      forall j, j < w -> row !! j = src !! (x + j).

(** The values that one complete run of the fallback goes through. *)
Record crop_run : Type := {
  run_img : image;
  run_gray : gray;
  run_blur : gray;
  run_retval : Q;
  run_th : gray;
  run_contours : list contour;
  run_hierarchy : hierarchy;
  run_selected : contour;
  run_box : nat * nat * nat * nat;
  run_crop : image;
  run_resized : image;
  run_saved : option bytes
}.

(** Each value is what the environment returns for the call that produces
    it, on the arguments written in lines 91-104; the selected contour is
    one of those found and none has a larger area; the image given to
    [resize] is the image read, cut to the bounding box. *)
Definition crop_run_of (env : environment) (file : option bytes) (img_path : string)
    (r : crop_run) : Prop :=
  cv2_import env = Ok tt /\
  cv2_imread env file = Ok (Some (run_img r)) /\
  cv2_cvtColor env (run_img r) (COLOR_BGR2GRAY env) = Ok (run_gray r) /\
  cv2_GaussianBlur env (run_gray r) (5, 5)%Z 0%Z = Ok (run_blur r) /\
  cv2_threshold env (run_blur r) 0%Z 255%Z (THRESH_BINARY env + THRESH_OTSU env)%Z
    = Ok (run_retval r, run_th r) /\
  cv2_findContours env (run_th r) (RETR_EXTERNAL env) (CHAIN_APPROX_SIMPLE env)
    = Ok (run_contours r, run_hierarchy r) /\
  In (run_selected r) (run_contours r) /\
  (exists a, cv2_contourArea env (run_selected r) = Ok a /\
     Forall (fun c' => exists a', cv2_contourArea env c' = Ok a' /\ (a' <= a)%Q)
            (run_contours r)) /\
  cv2_boundingRect env (run_selected r) = Ok (run_box r) /\
  cut_to_box (run_img r) (run_box r) (run_crop r) /\
  cv2_resize env (run_crop r) (224, 224)%Z = Ok (run_resized r) /\
  cv2_imwrite env img_path (run_resized r) = Ok (run_saved r).

(** The calls of one complete run of the fallback, in order. *)
Definition crop_run_trace (env : environment) (img_path : string) (r : crop_run)
  : list event :=
  [EvImport "cv2";
   EvImread img_path;
   EvCvtColor (run_img r) (COLOR_BGR2GRAY env);
   EvGaussianBlur (run_gray r) (5, 5)%Z 0%Z;
   EvThreshold (run_blur r) 0%Z 255%Z (THRESH_BINARY env + THRESH_OTSU env)%Z;
   EvFindContours (run_th r) (RETR_EXTERNAL env) (CHAIN_APPROX_SIMPLE env)]
  ++ map EvContourArea (run_contours r)
  ++ [EvBoundingRect (run_selected r);
      EvResize (run_crop r) (224, 224)%Z;
      EvImwrite img_path (run_resized r)].

(** [c] is at position [i] of [cs], no contour of [cs] has a larger area
    and none before [i] has an equal one. *)
Definition first_of_largest_area (env : environment) (cs : list contour) (c : contour)
    (i : nat) : Prop :=
  cs !! i = Some c /\
  exists a,
    cv2_contourArea env c = Ok a /\
    forall j c', cs !! j = Some c' ->
      exists a', cv2_contourArea env c' = Ok a' /\ (a' <= a)%Q /\ (j < i -> (a' < a)%Q).

(** ** Vocabulary of the request handlers *)

(** The name has no dot. *)
Fixpoint dotless (s : string) : bool :=
  match s with
  | EmptyString => true
  | String c s' => negb (Ascii.eqb c ".") && dotless s'
  end.

(** The answers that turn a request away before anything is saved. *)
Definition rejected {A : Type} (r : http_response A) : Prop :=
  match r with
  | Redirect _ | JsonError _ _ | JsonInvalidImage _ => True
  | _ => False
  end.

Definition usernames_unique {A : Type} (d : database A) : Prop :=
  match users d with
  | None => True
  | Some rows => NoDup (map users_username rows)
  end.

Fixpoint commaless (s : string) : bool :=
  match s with
  | EmptyString => true
  | String c s' => negb (Ascii.eqb c ",") && commaless s'
  end.

(** The ways in which the common part of [upload] and [predict_base64]
    ends. *)
Inductive recorded_as {A : Type} (web : web_environment)
    (info_lines : list nat)
    (save_history : string -> string -> string -> A -> database A -> database A)
    (username save_name : string) (s : app_state A)
  : http_response A -> app_state A -> Prop :=
| save_raised e s' :
    db s' = db s ->
    recorded_as web info_lines save_history username save_name s
      (InternalServerError (PythonException e)) s'
| prediction_raised e s' :
    db s' = db s ->
    is_Some (fs (disk s') !! upload_path web save_name) ->
    recorded_as web info_lines save_history username save_name s
      (JsonPredictionError e) s'
| lookup_raised e label s' :
    db s' = db s ->
    is_Some (fs (disk s') !! upload_path web save_name) ->
    leaf_info web info_lines label (db s) = inl e ->
    recorded_as web info_lines save_history username save_name s
      (InternalServerError (SqliteException e)) s'
| prediction_returned label confidence scientific_name benefits s' :
    db s' = save_history username save_name label confidence (db s) ->
    is_Some (fs (disk s') !! upload_path web save_name) ->
    leaf_info web info_lines label (db s) = inr (scientific_name, benefits) ->
    recorded_as web info_lines save_history username save_name s
      (JsonPrediction label confidence scientific_name benefits) s'.

(** The counter of [LeafInfo] is not behind the ids of the table. *)
Definition counter_ahead (t : list LeafInfo_row * nat) : Prop :=
  list_max (map LeafInfo_id (fst t)) <= snd t.

(** The name of a sample, and the sample that a row stores. *)
Definition sample_name (s : string * string * string * string) : string :=
  let '(name, _, _, _) := s in name.

Definition sample_of_row (row : LeafInfo_row) : string * string * string * string :=
  (LeafInfo_name row, LeafInfo_scientific_name row, LeafInfo_benefits row,
   LeafInfo_precautions row).

(** ** Models, environments and files used in the examples *)

(** A model that returns the same row for every input. *)
Definition constant_model {A : Type} (row : list A) : @classifier A :=
  fun _ => Ok [row].

(** A model whose [predict] raises. *)
Definition raising_model {A : Type} (e : exn) : @classifier A := fun _ => Raise e.

(** The binary32 numbers nearest to 0.9, 0.1, 0.3 and 0.7. *)
Definition f32_0_9 : float32 := S754_finite false 15099494 (-24).
Definition f32_0_1 : float32 := S754_finite false 13421773 (-27).
Definition f32_0_3 : float32 := S754_finite false 10066330 (-25).
Definition f32_0_7 : float32 := S754_finite false 11744051 (-24).


(** A 3x3 image whose centre pixel is bright. *)
Definition sample_image : image :=
  [[(0, 0, 0); (0, 0, 0); (0, 0, 0)];
   [(0, 0, 0); (200, 210, 220); (0, 0, 0)];
   [(0, 0, 0); (0, 0, 0); (0, 0, 0)]]%Z.

(** rembg is not installed; OpenCV decodes any non-empty file to
    [sample_image] and finds three one-point contours, of which the one
    on the bright pixel has the largest area. *)
Definition env_without_rembg : environment := {|
  rembg_import := Raise ImportError;
  rembg_remove := fun b => Ok b;
  open_rb_fault := fun _ => None;
  open_wb_fault := fun _ => None;
  file_write := fun _ _ => Written;
  cv2_import := Ok tt;
  COLOR_BGR2GRAY := 6;
  THRESH_BINARY := 0;
  THRESH_OTSU := 8;
  RETR_EXTERNAL := 0;
  CHAIN_APPROX_SIMPLE := 2;
  cv2_imread := fun c => Ok (match c with Some (_ :: _) => Some sample_image | _ => None end);
  cv2_cvtColor := fun _ _ => Ok [[0; 0; 0]; [0; 207; 0]; [0; 0; 0]]%Z;
  cv2_GaussianBlur := fun g _ _ => Ok g;
  cv2_threshold := fun _ _ _ _ => Ok (103 # 1, [[0; 0; 0]; [0; 255; 0]; [0; 0; 0]]%Z);
  cv2_findContours := fun _ _ _ =>
    Ok ([[(0, 0)]; [(1, 1)]; [(2, 2)]]%Z, [[-1; -1; -1; -1]]%Z);
  cv2_contourArea := fun c => Ok (if decide (c = [(1, 1)]%Z) then 1 else 0)%Q;
  cv2_boundingRect := fun c =>
    match c with
    | (x, y) :: _ => Ok (Z.to_nat x, Z.to_nat y, 1, 1)
    | [] => Raise cv2_error
    end;
  cv2_resize := fun src _ => Ok src;
  cv2_imwrite := fun _ _ => Ok (Some [Byte.x42; Byte.x4d])
|}.

(** rembg is installed and returns a PNG for any input; the file is read
    and written without failure. *)
Definition env_with_rembg : environment := {|
  rembg_import := Ok tt;
  rembg_remove := fun _ => Ok [Byte.x89; Byte.x50; Byte.x4e; Byte.x47];
  open_rb_fault := open_rb_fault env_without_rembg;
  open_wb_fault := open_wb_fault env_without_rembg;
  file_write := file_write env_without_rembg;
  cv2_import := cv2_import env_without_rembg;
  COLOR_BGR2GRAY := COLOR_BGR2GRAY env_without_rembg;
  THRESH_BINARY := THRESH_BINARY env_without_rembg;
  THRESH_OTSU := THRESH_OTSU env_without_rembg;
  RETR_EXTERNAL := RETR_EXTERNAL env_without_rembg;
  CHAIN_APPROX_SIMPLE := CHAIN_APPROX_SIMPLE env_without_rembg;
  cv2_imread := cv2_imread env_without_rembg;
  cv2_cvtColor := cv2_cvtColor env_without_rembg;
  cv2_GaussianBlur := cv2_GaussianBlur env_without_rembg;
  cv2_threshold := cv2_threshold env_without_rembg;
  cv2_findContours := cv2_findContours env_without_rembg;
  cv2_contourArea := cv2_contourArea env_without_rembg;
  cv2_boundingRect := cv2_boundingRect env_without_rembg;
  cv2_resize := cv2_resize env_without_rembg;
  cv2_imwrite := cv2_imwrite env_without_rembg
|}.

(** rembg is installed and returns a result, the file opens for writing,
    and the write raises before any byte is stored (a full disk);
    OpenCV cannot decode the empty file. *)
Definition env_write_fails : environment := {|
  rembg_import := Ok tt;
  rembg_remove := fun _ => Ok [Byte.x89; Byte.x50; Byte.x4e; Byte.x47];
  open_rb_fault := fun _ => None;
  open_wb_fault := fun _ => None;
  file_write := fun _ _ => WriteRaises OSError 0;
  cv2_import := Ok tt;
  COLOR_BGR2GRAY := 6;
  THRESH_BINARY := 0;
  THRESH_OTSU := 8;
  RETR_EXTERNAL := 0;
  CHAIN_APPROX_SIMPLE := 2;
  cv2_imread := fun c => Ok (match c with Some (_ :: _) => Some sample_image | _ => None end);
  cv2_cvtColor := fun _ _ => Raise cv2_error;
  cv2_GaussianBlur := fun _ _ _ => Raise cv2_error;
  cv2_threshold := fun _ _ _ _ => Raise cv2_error;
  cv2_findContours := fun _ _ _ => Raise cv2_error;
  cv2_contourArea := fun _ => Raise cv2_error;
  cv2_boundingRect := fun _ => Raise cv2_error;
  cv2_resize := fun _ _ => Raise cv2_error;
  cv2_imwrite := fun _ _ => Raise cv2_error
|}.

(** The path of the uploaded file. *)
Definition leaf : string := "uploads/leaf.jpg".

(** One uploaded file, before any call. *)
Definition uploaded : state := {|
  fs := {[ leaf := [Byte.xff; Byte.xd8; Byte.xff; Byte.xe0] ]};
  trace := []
|}.

(** Keras reads any non-empty file and fails on an empty or missing one. *)
Definition keras_reads_nonempty (c : option bytes) : result (list Q) :=
  match c with
  | Some (_ :: _) => Ok [128 # 1; 64 # 1; 32 # 1]%Q
  | _ => Raise OSError
  end.

(** As [env_without_rembg], but [cv2.imwrite] returns [False] and saves
    nothing (a file that cannot be written). *)
Definition env_imwrite_returns_false : environment := {|
  rembg_import := rembg_import env_without_rembg;
  rembg_remove := rembg_remove env_without_rembg;
  open_rb_fault := open_rb_fault env_without_rembg;
  open_wb_fault := open_wb_fault env_without_rembg;
  file_write := file_write env_without_rembg;
  cv2_import := cv2_import env_without_rembg;
  COLOR_BGR2GRAY := COLOR_BGR2GRAY env_without_rembg;
  THRESH_BINARY := THRESH_BINARY env_without_rembg;
  THRESH_OTSU := THRESH_OTSU env_without_rembg;
  RETR_EXTERNAL := RETR_EXTERNAL env_without_rembg;
  CHAIN_APPROX_SIMPLE := CHAIN_APPROX_SIMPLE env_without_rembg;
  cv2_imread := cv2_imread env_without_rembg;
  cv2_cvtColor := cv2_cvtColor env_without_rembg;
  cv2_GaussianBlur := cv2_GaussianBlur env_without_rembg;
  cv2_threshold := cv2_threshold env_without_rembg;
  cv2_findContours := cv2_findContours env_without_rembg;
  cv2_contourArea := cv2_contourArea env_without_rembg;
  cv2_boundingRect := cv2_boundingRect env_without_rembg;
  cv2_resize := cv2_resize env_without_rembg;
  cv2_imwrite := fun _ _ => Ok None
|}.

(** As [env_without_rembg], but the thresholded image of a picture without
    contrast holds no contour. *)
Definition env_no_contours : environment := {|
  rembg_import := rembg_import env_without_rembg;
  rembg_remove := rembg_remove env_without_rembg;
  open_rb_fault := open_rb_fault env_without_rembg;
  open_wb_fault := open_wb_fault env_without_rembg;
  file_write := file_write env_without_rembg;
  cv2_import := cv2_import env_without_rembg;
  COLOR_BGR2GRAY := COLOR_BGR2GRAY env_without_rembg;
  THRESH_BINARY := THRESH_BINARY env_without_rembg;
  THRESH_OTSU := THRESH_OTSU env_without_rembg;
  RETR_EXTERNAL := RETR_EXTERNAL env_without_rembg;
  CHAIN_APPROX_SIMPLE := CHAIN_APPROX_SIMPLE env_without_rembg;
  cv2_imread := cv2_imread env_without_rembg;
  cv2_cvtColor := fun _ _ => Ok [[0; 0; 0]; [0; 0; 0]; [0; 0; 0]]%Z;
  cv2_GaussianBlur := cv2_GaussianBlur env_without_rembg;
  cv2_threshold := fun _ _ _ _ => Ok (0 # 1, [[0; 0; 0]; [0; 0; 0]; [0; 0; 0]]%Z);
  cv2_findContours := fun _ _ _ => Ok ([], []);
  cv2_contourArea := cv2_contourArea env_without_rembg;
  cv2_boundingRect := cv2_boundingRect env_without_rembg;
  cv2_resize := cv2_resize env_without_rembg;
  cv2_imwrite := cv2_imwrite env_without_rembg
|}.

(** A parsed [class_indices.json] whose values are an int, the float
    [1.0] and [true]. *)
Definition sample_json_items : list (string * pyval) :=
  [("Neem", PyInt 0);
   ("Tulsi", PyFloat (S754_finite false 4503599627370496 (-52)));
   ("Basil", PyBool true)].

(** ** A server used in the examples *)

(** [str.strip] on spaces. *)
Fixpoint lstrip_spaces (s : string) : string :=
  match s with
  | String c s' => if Ascii.eqb c " " then lstrip_spaces s' else s
  | EmptyString => EmptyString
  end.

Fixpoint rstrip_spaces (s : string) : string :=
  match s with
  | String c s' =>
      let r := rstrip_spaces s' in
      if Ascii.eqb c " " && String.eqb r "" then "" else String c r
  | EmptyString => EmptyString
  end.

(** A server on which nothing fails: file names are kept, files go to
    ["uploads/"], every capture decodes to [sample_image], and the hash of
    a password is the password behind a prefix. *)
Definition web_plain : web_environment := {|
  secure_filename := fun name => name;
  utcnow_strftime := "20240101_120000";
  utcnow_isoformat := "2024-01-01T12:00:00";
  upload_path := fun save_name => String.append "uploads/" save_name;
  file_save := fun _ _ => None;
  b64_open_rgb := fun _ => Ok sample_image;
  img_save := fun _ _ => inl [Byte.xff; Byte.xd8; Byte.xff; Byte.xdb];
  sqlite_fault := fun _ => None;
  generate_password_hash := fun password => String.append "pbkdf2:" password;
  check_password_hash := fun pwhash password =>
    String.eqb pwhash (String.append "pbkdf2:" password);
  strip := fun s => lstrip_spaces (rstrip_spaces s)
|}.

(** The session of the user [asha]. *)
Definition asha : session := {|
  session_user_id := Some 1;
  session_username := Some "asha"
|}.

(** A server before [db_setup.py] has run, and after. *)
Definition new_server : app_state Q := {|
  disk := {| fs := ∅; trace := [] |};
  db := {| users := None; history := None; LeafInfo := None;
           LeafInfo_sequence := 0 |};
  client := asha
|}.

Definition set_up_server : app_state Q := {|
  disk := disk new_server;
  db := snd (db_setup (fun _ => None) (fun _ => false) (db new_server));
  client := asha
|}.

Definition jpeg_upload : option (string * bytes) :=
  Some ("Leaf.JPG", [Byte.xff; Byte.xd8; Byte.xff; Byte.xe0]).

Definition two_classes : pyval := PyDict [("Neem", PyInt 0); ("Tulsi", PyInt 1)].

Definition registration (username password : string) (field : string) : option string :=
  if String.eqb field "username" then Some username
  else if String.eqb field "password" then Some password
  else None.

(** A table in which Neem has been edited by hand. *)
Definition edited_Neem : LeafInfo_row := {|
  LeafInfo_id := 1;
  LeafInfo_name := "Neem";
  LeafInfo_scientific_name := "Melia azadirachta";
  LeafInfo_benefits := "Antiseptic";
  LeafInfo_precautions := ""
|}.

Definition edited_database : database Q :=
  {| users := None; history := None; LeafInfo := Some [edited_Neem];
     LeafInfo_sequence := 1 |}.

(** One classifier, sure of class 0. *)
Definition one_model : list (@classifier Q) := [constant_model [9 # 10; 1 # 10]%Q].

Definition capture : pyval := PyDict [("image", PyStr "data:image/jpeg;base64,AAAA")].

(** * Properties *)

(** ** Shapes *)

Section Shapes.
Context {A : Type} `{Number A}.

Lemma same_length_forallb (r : list A) (rs : list (list A)) :
  same_length r rs ->
  forallb (fun r' => Nat.eqb (length r') (length r)) rs = true.
Proof.
  induction 1 as [|r' rs Hr' _ IH]; simpl; [reflexivity|].
  rewrite IH, andb_true_r. now apply Nat.eqb_eq.
Qed.

Lemma row_add_length (u v : list A) :
  length v = length u -> length (row_add u v) = length u.
Proof.
  revert v. induction u as [|a u IH]; intros [|b v] Hl; simpl in *; try congruence.
  f_equal. apply IH. congruence.
Qed.

Lemma same_length_row_add (r r' : list A) (rs : list (list A)) :
  length r' = length r -> same_length r rs -> same_length (row_add r r') rs.
Proof.
  intros Hr' Hrs. unfold same_length in *.
  now rewrite row_add_length.
Qed.

Lemma sum_rows_length (rs : list (list A)) (r : list A) :
  same_length r rs -> length (fold_left row_add rs r) = length r.
Proof.
  revert r. induction rs as [|r' rs IH]; intros r Hl; simpl; [reflexivity|].
  inversion Hl as [|? ? Hr' Hrs]; subst.
  rewrite IH by now apply same_length_row_add.
  now apply row_add_length.
Qed.

(** On rows of one positive length lines 59-61 do not raise. *)
Lemma ensemble_returns (r : list A) (rs : list (list A)) :
  r <> [] -> same_length r rs ->
  exists avg idx confidence, ensemble r rs = Ok (avg, idx, confidence).
Proof.
  intros Hne Hl. unfold ensemble, np_mean_axis0.
  rewrite same_length_forallb by assumption. cbn [rbind].
  set (avg := map _ _).
  assert (Hlen : length avg = length r)
    by (unfold avg; rewrite length_map; now apply sum_rows_length).
  destruct avg as [|a0 avg'].
  - destruct r; [congruence | discriminate].
  - cbn. eauto.
Qed.

(** Lines 59-61 raise nothing but [ValueError]. *)
Lemma ensemble_raises r rs e : ensemble r rs = Raise e -> e = ValueError.
Proof.
  unfold ensemble, np_mean_axis0.
  destruct (forallb _ rs); cbn [rbind]; [|congruence].
  destruct (map _ _) as [|a0 avg']; cbn; congruence.
Qed.
End Shapes.

(** ** The scan of [np.argmax] *)

Section ArgmaxScan.
Context {A : Type} `{Number A}.
(** The values that [<=] orders: all of them but NaN. *)
Variable ordered : A -> Prop.
Hypothesis ordered_not_nan : forall a, ordered a -> num_isnan a = false.
Hypothesis leb_total :
  forall a b, ordered a -> ordered b -> num_leb a b = false -> num_leb b a = true.
Hypothesis leb_trans :
  forall a b c, ordered a -> ordered b -> ordered c ->
    num_leb a b = true -> num_leb b c = true -> num_leb a c = true.
Variable d : A.

Lemma leb_refl a : ordered a -> num_leb a a = true.
Proof.
  intros Ha. pose proof (leb_total a a Ha Ha) as Ht.
  destruct (num_leb a a); [reflexivity | now apply Ht].
Qed.

Lemma nth_snoc_old j (pre : list A) x :
  j < length pre -> nth j (pre ++ [x]) d = nth j pre d.
Proof. intros Hj. now apply app_nth1. Qed.

Lemma nth_snoc_new (pre : list A) x : nth (length pre) (pre ++ [x]) d = x.
Proof. rewrite app_nth2 by lia. now rewrite Nat.sub_diag. Qed.

Lemma nth_ordered (l : list A) j :
  Forall ordered l -> j < length l -> ordered (nth j l d).
Proof.
  intros Hl Hj. apply (proj1 (List.Forall_forall _ _) Hl). now apply nth_In.
Qed.

(** The invariant of the scan: [pre] has been read, [mp] is its largest
    element and [max_ind] the first position where it occurs. *)
Lemma argmax_scan_spec (l pre : list A) (mp : A) (max_ind : nat) :
  Forall ordered (pre ++ l) ->
  max_ind < length pre ->
  nth max_ind pre d = mp ->
  (forall j, j < length pre -> num_leb (nth j pre d) mp = true) ->
  (forall j, j < max_ind -> num_leb mp (nth j pre d) = false) ->
  first_largest d (pre ++ l) (argmax_scan mp max_ind (length pre) l) /\
  fold_left np_maximum l mp =
    nth (argmax_scan mp max_ind (length pre) l) (pre ++ l) d.
Proof.
  revert pre mp max_ind.
  induction l as [|x l IH]; intros pre mp max_ind Hord Hlt Hmp Hmax Hfirst.
  - simpl. rewrite app_nil_r. repeat split; try assumption.
    + intros j Hj. rewrite Hmp. now apply Hmax.
    + intros j Hj. rewrite Hmp. now apply Hfirst.
    + now symmetry.
  - assert (Hpre : Forall ordered pre) by (apply Forall_app in Hord; tauto).
    assert (Hx : ordered x).
    { apply Forall_app in Hord as [_ Hxl]. now inversion Hxl. }
    assert (Hmpo : ordered mp) by (rewrite <- Hmp; now apply nth_ordered).
    replace (pre ++ x :: l) with ((pre ++ [x]) ++ l) in * by now rewrite <- app_assoc.
    assert (Hlen : length (pre ++ [x]) = S (length pre))
      by (rewrite length_app; simpl; lia).
    cbn [argmax_scan fold_left]. unfold np_maximum at 2.
    rewrite (ordered_not_nan x Hx), (ordered_not_nan mp Hmpo), orb_false_r.
    destruct (num_leb x mp) eqn:Hxmp; cbn [negb]; rewrite <- Hlen.
    + apply IH; try assumption.
      * lia.
      * now rewrite nth_snoc_old.
      * intros j Hj. rewrite Hlen in Hj.
        destruct (Nat.eq_dec j (length pre)) as [->|Hne].
        -- now rewrite nth_snoc_new.
        -- rewrite nth_snoc_old by lia. apply Hmax. lia.
      * intros j Hj. rewrite nth_snoc_old by lia. now apply Hfirst.
    + assert (Hmpx : num_leb mp x = true) by now apply leb_total.
      apply IH; try assumption.
      * lia.
      * apply nth_snoc_new.
      * intros j Hj. rewrite Hlen in Hj.
        destruct (Nat.eq_dec j (length pre)) as [->|Hne].
        -- rewrite nth_snoc_new. now apply leb_refl.
        -- rewrite nth_snoc_old by lia.
           apply leb_trans with mp; try assumption.
           ++ apply nth_ordered; [assumption | lia].
           ++ apply Hmax. lia.
      * intros j Hj. rewrite nth_snoc_old by assumption.
        destruct (num_leb x (nth j pre d)) eqn:Hxj; [|reflexivity].
        rewrite <- Hxmp. symmetry.
        apply leb_trans with (nth j pre d); try assumption.
        -- now apply nth_ordered.
        -- now apply Hmax.
Qed.

End ArgmaxScan.

(** ** The order of binary32 *)

Lemma f32_leb_total (a b : float32) :
  f32_ordered a -> f32_ordered b -> SFleb a b = false -> SFleb b a = true.
Proof.
  unfold f32_ordered, SFleb, SFcompare.
  destruct a as [[]|[]| |[] m1 e1], b as [[]|[]| |[] m2 e2]; simpl;
    try discriminate; try reflexivity; intros _ _;
    change (Pos.compare_cont Eq m1 m2) with (Pos.compare m1 m2);
    change (Pos.compare_cont Eq m2 m1) with (Pos.compare m2 m1);
    rewrite (Z.compare_antisym e1 e2), (Pos.compare_antisym m1 m2);
    destruct (e1 ?= e2)%Z; simpl; try discriminate; try reflexivity;
    destruct (m1 ?= m2)%positive; simpl; try discriminate; reflexivity.
Qed.

Lemma f32_leb_trans (a b c : float32) :
  f32_ordered a -> f32_ordered b -> f32_ordered c ->
  SFleb a b = true -> SFleb b c = true -> SFleb a c = true.
Proof.
  unfold f32_ordered, SFleb, SFcompare.
  destruct a as [[]|[]| |[] m1 e1], b as [[]|[]| |[] m2 e2], c as [[]|[]| |[] m3 e3];
    simpl; try discriminate; try reflexivity; intros _ _ _;
    change (Pos.compare_cont Eq m1 m2) with (Pos.compare m1 m2);
    change (Pos.compare_cont Eq m2 m3) with (Pos.compare m2 m3);
    change (Pos.compare_cont Eq m1 m3) with (Pos.compare m1 m3);
    destruct (Z.compare_spec e1 e2), (Z.compare_spec e2 e3), (Z.compare_spec e1 e3);
    simpl; try discriminate; try reflexivity; try lia;
    destruct (Pos.compare_spec m1 m2), (Pos.compare_spec m2 m3), (Pos.compare_spec m1 m3);
    simpl; try discriminate; try reflexivity; lia.
Qed.

(** ** The order of the rationals *)

Lemma Q_leb_false (x y : Q) : Qle_bool x y = false -> (y < x)%Q.
Proof.
  intros Hb. apply Qnot_le_lt. intros Hle.
  apply Qle_bool_iff in Hle. congruence.
Qed.

(** ** The control flow of [predict_image] *)

Section PredictFlow.
Context {A : Type} `{Number A}.

(** The rows that reach the average are the vectors produced, in the
    order of [_models]. *)
Lemma collect_preds_produced (models : list (@classifier A)) (x : list (list A)) :
  collect_preds models x = produced_vectors models x.
Proof.
  unfold produced_vectors.
  induction models as [|m ms IH]; [reflexivity|].
  cbn [collect_preds]. rewrite IH. simpl.
  destruct (m x) as [[|r p]|e]; reflexivity.
Qed.

Lemma produced_by_constant_models (rows : list (list A)) (x : list (list A)) :
  produced_vectors (map constant_model rows) x = rows.
Proof.
  unfold produced_vectors.
  induction rows as [|r rows IH]; [reflexivity|].
  simpl in *. now f_equal.
Qed.

Lemma predict_image_survivors (models : list classifier) CLASS_MAP img r rs :
  collect_preds models (scaled_batch img) = r :: rs ->
  predict_image models CLASS_MAP (Ok img) =
    rbind (ensemble r rs) (fun '(_, idx, confidence) =>
    rbind (label_for CLASS_MAP idx) (fun label => Ok (label, confidence))).
Proof.
  intros Hc. destruct models as [|m ms]; [discriminate|].
  unfold predict_image. cbn [rbind]. now rewrite Hc.
Qed.

Lemma predict_image_no_survivors (models : list classifier) CLASS_MAP img :
  models <> [] ->
  collect_preds models (scaled_batch img) = [] ->
  predict_image models CLASS_MAP (Ok img) = Raise (RuntimeError no_predictions_msg).
Proof.
  intros Hne Hc. destruct models as [|m ms]; [congruence|].
  unfold predict_image. cbn [rbind]. now rewrite Hc.
Qed.
End PredictFlow.

(** ** Arg-max of the unweighted mean *)

Section ColumnSums.
Context {A : Type} `{Number A}.
Variable d : A.

Lemma row_add_nth_num j (u v : list A) :
  length v = length u -> j < length u ->
  nth j (row_add u v) d = num_add (nth j u d) (nth j v d).
Proof.
  revert j v. induction u as [|a u IH]; intros j [|b v] Hl Hj; simpl in *;
    try discriminate; try lia.
  destruct j; [reflexivity|]. apply IH; [congruence | lia].
Qed.

(** Each element of the summed row is the sum of the rows' elements at
    its position, added in the order of the rows. *)
Lemma sum_rows_nth_num j (rs : list (list A)) (r : list A) :
  same_length r rs -> j < length r ->
  nth j (fold_left row_add rs r) d =
    fold_left num_add (map (fun r' => nth j r' d) rs) (nth j r d).
Proof.
  revert r. induction rs as [|r' rs IH]; intros r Hl Hj; simpl; [reflexivity|].
  inversion Hl as [|? ? Hr' Hrs]; subst.
  rewrite IH.
  - now rewrite row_add_nth_num.
  - now apply same_length_row_add.
  - now rewrite row_add_length.
Qed.

Lemma nth_map_in_range {B : Type} (f : A -> B) (l : list A) (j : nat) (db : B) :
  j < length l -> nth j (map f l) db = f (nth j l d).
Proof.
  intros Hj. rewrite (nth_indep _ db (f d)) by now rewrite length_map.
  apply map_nth.
Qed.
End ColumnSums.

(** *** NaN in the averaged row *)

Lemma f32_first_nan (a : list float32) :
  Forall f32_ordered a \/
  exists pre post, a = pre ++ S754_nan :: post /\ Forall f32_ordered pre.
Proof.
  induction a as [|x a [IH|(pre & post & -> & Hpre)]].
  - left. constructor.
  - destruct x as [s|s| |s m e].
    1, 2, 4: left; constructor; [reflexivity | assumption].
    right. exists [], a. split; [reflexivity | constructor].
  - destruct x as [s|s| |s m e].
    1, 2, 4: right; eexists (_ :: pre), post; split;
      [reflexivity | constructor; [reflexivity | assumption]].
    right. exists [], (pre ++ S754_nan :: post). split; [reflexivity | constructor].
Qed.

(** The scan stops at the first NaN and returns its position. *)
Lemma argmax_scan_nan (pre post : list float32) (mp : float32) (max_ind i : nat) :
  Forall f32_ordered pre ->
  argmax_scan mp max_ind i (pre ++ S754_nan :: post) = i + length pre.
Proof.
  intros Hpre. revert mp max_ind i.
  induction Hpre as [|x pre Hx _ IH]; intros mp max_ind i.
  - cbn. lia.
  - cbn [app argmax_scan length].
    change (num_isnan x) with (f32_isnan x). rewrite Hx.
    destruct (negb (num_leb x mp)); rewrite IH; lia.
Qed.

(** [np.max] of values of which one is NaN is NaN. *)
Lemma np_maximum_nan_l (l : list float32) : fold_left np_maximum l S754_nan = S754_nan.
Proof.
  induction l as [|x l IH]; [reflexivity|]. cbn [fold_left].
  replace (np_maximum S754_nan x) with S754_nan; [exact IH|].
  unfold np_maximum. cbn. now rewrite orb_true_r.
Qed.

Lemma np_maximum_nan_r (a : float32) : np_maximum a S754_nan = S754_nan.
Proof. destruct a; reflexivity. Qed.

Lemma np_max_nan (pre post : list float32) (mp : float32) :
  fold_left np_maximum (pre ++ S754_nan :: post) mp = S754_nan.
Proof.
  rewrite fold_left_app. cbn [fold_left].
  rewrite np_maximum_nan_r. apply np_maximum_nan_l.
Qed.

Lemma nth_middle_nan (pre post : list float32) :
  nth (length pre) (pre ++ S754_nan :: post) S754_nan = S754_nan.
Proof. rewrite app_nth2 by lia. now rewrite Nat.sub_diag. Qed.

(** Lines 60-61 on a row that is not empty. *)
Lemma f32_argmax_and_max (avg : list float32) :
  avg <> [] ->
  exists idx,
    np_argmax avg = Ok idx /\ np_max avg = Ok (nth idx avg S754_nan) /\
    f32_first_argmax avg idx.
Proof.
  intros Hne. destruct avg as [|a0 avg']; [congruence|].
  destruct (f32_first_nan (a0 :: avg')) as [Hord|(pre & post & Heq & Hpre)].
  - assert (Ha0 : f32_ordered a0) by now inversion Hord.
    cbn [np_argmax np_max]. change (num_isnan a0) with (f32_isnan a0). rewrite Ha0.
    destruct (@argmax_scan_spec float32 float32_Number f32_ordered
                (fun a (Ha : f32_ordered a) => Ha) f32_leb_total f32_leb_trans
                S754_nan avg' [a0] a0 0) as [Harg Hmax].
    + assumption.
    + simpl. lia.
    + reflexivity.
    + intros [|j] Hj; simpl in *; [|lia].
      apply (@leb_refl float32 float32_Number f32_ordered f32_leb_total). assumption.
    + intros j Hj. lia.
    + exists (argmax_scan a0 0 1 avg'). simpl in Harg, Hmax.
      split; [reflexivity|]. split; [now rewrite Hmax|].
      left. split; assumption.
  - exists (length pre).
    assert (Hidx : np_argmax (a0 :: avg') = Ok (length pre)).
    { destruct pre as [|p pre'].
      - injection Heq as -> _. reflexivity.
      - injection Heq as -> ->. inversion Hpre as [|? ? Hp Hpre']; subst.
        cbn [np_argmax]. change (num_isnan p) with (f32_isnan p). rewrite Hp.
        now rewrite argmax_scan_nan. }
    split; [assumption|]. rewrite Heq. split.
    + rewrite nth_middle_nan.
      destruct pre as [|p pre']; cbn [app np_max]; f_equal;
        [apply np_maximum_nan_l | apply np_max_nan].
    + right. split; [rewrite length_app; simpl; lia|].
      split; [apply nth_middle_nan|].
      intros j Hj. rewrite app_nth1 by assumption.
      apply (proj1 (List.Forall_forall _ _) Hpre). now apply nth_In.
Qed.

(** C1.  When the vectors produced by the classifiers have one positive
    length, [predict_image] resolves the label of an index [idx] that is
    the arg-max of their mean [avg] as binary32 computes it: every
    element of [avg] is the rounded sum of the vectors' elements at its
    position, divided by the number of vectors; [idx] is the first
    position of a largest element of [avg], so that of equal averaged
    values the one at the lowest index is chosen (the position of the
    first NaN, should [avg] hold one); and the confidence returned is the
    element of [avg] at [idx], as it is. *)
Theorem predict_image_argmax_of_mean
    (models : list (@classifier float32)) (CLASS_MAP : pyval) (img r : list float32)
    (rs : list (list float32)) :
  produced_vectors models (scaled_batch img) = r :: rs ->
  r <> [] ->
  same_length r rs ->
  exists avg idx,
    length avg = length r /\
    (forall j, j < length r -> nth j avg S754_nan = f32_mean (f32_column (r :: rs) j)) /\
    f32_first_argmax avg idx /\
    predict_image models CLASS_MAP (Ok img) =
      rbind (label_for CLASS_MAP idx) (fun label => Ok (label, nth idx avg S754_nan)).
Proof.
  intros Hc Hne Hl. rewrite <- collect_preds_produced in Hc.
  set (avg := map (fun s => SFdiv 24 128 s (f32_of_nat (S (length rs))))
                  (fold_left row_add rs r)).
  assert (Hlen : length avg = length r)
    by (unfold avg; rewrite length_map; now apply sum_rows_length).
  assert (Havg : avg <> []).
  { intros Heq. rewrite Heq in Hlen. destruct r; [congruence | discriminate]. }
  destruct (f32_argmax_and_max avg Havg) as (idx & Hidx & Hmax & Harg).
  exists avg, idx. split; [assumption|]. split; [|split; [assumption|]].
  - intros j Hj. unfold avg.
    rewrite (nth_map_in_range S754_nan) by (rewrite sum_rows_length; assumption).
    rewrite sum_rows_nth_num by assumption.
    cbn [f32_column map f32_mean length]. now rewrite length_map.
  - rewrite (predict_image_survivors _ _ _ _ _ Hc).
    unfold ensemble, np_mean_axis0.
    rewrite same_length_forallb by assumption. cbn [rbind].
    change (map _ (fold_left row_add rs r)) with avg.
    rewrite Hidx, Hmax. reflexivity.
Qed.

Lemma predict_image_argmax_of_mean_witness :
  exists avg idx,
    length avg = 2 /\
    (forall j, j < 2 ->
       nth j avg S754_nan = f32_mean (f32_column [[f32_0_9; f32_0_1]; [f32_0_3; f32_0_7]] j)) /\
    f32_first_argmax avg idx /\
    predict_image [constant_model [f32_0_9; f32_0_1]; constant_model [f32_0_3; f32_0_7]]
                  (PyDict []) (Ok [])
      = rbind (label_for (PyDict []) idx) (fun label => Ok (label, nth idx avg S754_nan)).
Proof.
  apply (predict_image_argmax_of_mean
           [constant_model [f32_0_9; f32_0_1]; constant_model [f32_0_3; f32_0_7]]
           (PyDict []) [] [f32_0_9; f32_0_1] [[f32_0_3; f32_0_7]]).
  - reflexivity.
  - discriminate.
  - repeat constructor.
Defined.

(** The scenario of the specification as binary32 computes it: the
    vectors hold the binary32 numbers nearest to 0.9, 0.1, 0.3 and 0.7;
    the index is 0 and the confidence the binary32 number nearest to 0.6,
    [10066330 * 2^-24]. *)
Example scenario_two_classifiers_float32 :
  predict_image [constant_model [f32_0_9; f32_0_1]; constant_model [f32_0_3; f32_0_7]]
                (PyDict []) (Ok [])
  = Ok ("0", S754_finite false 10066330 (-24)).
Proof. vm_compute. reflexivity. Qed.

(** A tie that rounding makes: the exact sums at positions 0 and 1,
    [25165827 * 2^-25] and [25165829 * 2^-25], differ, both are rounded
    to [12582914 * 2^-24], and the index is 0. *)
Example scenario_rounded_tie_lowest_index :
  predict_image
    [constant_model [S754_finite false 12582912 (-25); S754_finite false 12582913 (-25);
                     S754_finite false 16777214 (-26)];
     constant_model [S754_finite false 12582915 (-25); S754_finite false 12582916 (-25);
                     S754_finite false 16777202 (-26)]]
    (PyDict []) (Ok [])
  = Ok ("0", S754_finite false 12582914 (-25)).
Proof. vm_compute. reflexivity. Qed.

(** An averaged row that holds NaN: the index is that of the NaN. *)
Example scenario_nan_is_chosen :
  predict_image [constant_model [f32_0_9; S754_nan; f32_0_1]] (PyDict []) (Ok [])
  = Ok ("1", S754_nan).
Proof. vm_compute. reflexivity. Qed.

(** ** Rounding to binary32 keeps a sum and a quotient under an integer bound *)

Section Binary32Bounds.
Local Open Scope Z_scope.



(** *** The number of digits of a mantissa *)





(** *** Shifting a mantissa to the right *)










(** *** A value under an integer bound is rounded to one under it *)










(** *** The count of the vectors *)



(** *** Division *)




(** *** Rows *)




End Binary32Bounds.

(** ** The mean of probability vectors *)




(** ** Label resolution *)

Lemma dict_set_int_keys d z v : int_keys d -> int_keys (dict_set d (PyInt z) v).
Proof.
  induction 1 as [|[k' v'] d Hk Hd IH]; simpl.
  - repeat constructor. now exists z.
  - destruct (py_key_eq k' (PyInt z)); constructor; assumption.
Qed.

Lemma dict_get_set_int d a v b default :
  int_keys d ->
  dict_get (dict_set d (PyInt a) v) (PyInt b) default =
    if (a =? b)%Z then v else dict_get d (PyInt b) default.
Proof.
  induction 1 as [|[k' v'] d [c Hc] _ IH]; simpl in *.
  - reflexivity.
  - subst k'. cbn [py_key_eq py_exact_int].
    destruct (c =? a)%Z eqn:Hca; cbn [dict_get py_key_eq py_exact_int].
    + apply Z.eqb_eq in Hca. subst c. now destruct (a =? b)%Z.
    + rewrite IH. destruct (c =? b)%Z eqn:Hcb; [|reflexivity].
      apply Z.eqb_eq in Hcb. subst c. now rewrite Z.eqb_sym, Hca.
Qed.

Lemma invert_int_items cm inv :
  invert_items (int_items cm) inv =
    Ok (fold_left (fun d kv => dict_set d (PyInt (snd kv)) (fst kv)) cm inv).
Proof.
  revert inv. induction cm as [|[k v] cm IH]; intros inv; simpl; [reflexivity|].
  apply IH.
Qed.

Lemma names_of_index_cons k v cm i :
  names_of_index ((k, v) :: cm) i =
    if (v =? i)%Z then k :: names_of_index cm i else names_of_index cm i.
Proof. unfold names_of_index. simpl. now destruct (v =? i)%Z. Qed.

Lemma dict_get_inverted cm inv i default :
  int_keys inv ->
  dict_get (fold_left (fun d kv => dict_set d (PyInt (snd kv)) (fst kv)) cm inv)
           (PyInt i) default =
    match last (names_of_index cm i) with
    | Some k => k
    | None => dict_get inv (PyInt i) default
    end.
Proof.
  revert inv. induction cm as [|[k v] cm IH]; intros inv Hinv; [reflexivity|].
  cbn [fold_left fst snd]. rewrite IH by now apply dict_set_int_keys.
  rewrite names_of_index_cons, dict_get_set_int by assumption.
  destruct (v =? i)%Z; [|reflexivity].
  destruct (names_of_index cm i) as [|k' ks] eqn:Hn; [reflexivity|].
  rewrite last_cons_cons.
  destruct (last (k' :: ks)) eqn:Hl; [reflexivity|].
  apply last_None in Hl. discriminate.
Qed.

(** Lines 64-68 on a map of names to ints: the last name that carries the
    index, or the index as a string. *)
Lemma label_for_int_items cm idx :
  label_for (PyDict (int_items cm)) idx =
    Ok (default (py_str idx) (last (names_of_index cm (Z.of_nat idx)))).
Proof.
  unfold label_for. destruct cm as [|kv cm]; [reflexivity|].
  cbn [py_truthy int_items map py_items rbind].
  change ((fst kv, PyInt (snd kv)) :: map _ cm) with (int_items (kv :: cm)).
  rewrite invert_int_items. cbn [rbind].
  rewrite dict_get_inverted by constructor.
  now destruct (last _).
Qed.

Lemma invert_items_hashable items inv :
  forallb (fun kv => py_hashable (snd kv)) items = true ->
  exists inv', invert_items items inv = Ok inv'.
Proof.
  revert inv. induction items as [|[k v] items IH]; intros inv Hh; simpl in *.
  - eauto.
  - apply andb_true_iff in Hh as [Hv Hh]. rewrite Hv. now apply IH.
Qed.

Lemma label_for_usable CLASS_MAP idx :
  class_map_usable CLASS_MAP = true -> exists label, label_for CLASS_MAP idx = Ok label.
Proof.
  unfold label_for. intros Hu.
  destruct (py_truthy CLASS_MAP) eqn:Ht; [|eauto].
  destruct CLASS_MAP as [| | | | | |d];
    cbv beta iota delta [class_map_usable] in Hu;
    try (rewrite Ht in Hu; discriminate).
  cbn [py_items rbind].
  destruct (invert_items_hashable d [] Hu) as [inv' ->]. cbn. eauto.
Qed.

Lemma invert_items_raises items inv e :
  invert_items items inv = Raise e -> e = TypeError.
Proof.
  revert inv. induction items as [|[k v] items IH]; intros inv; simpl; [discriminate|].
  destruct (py_hashable v); [apply IH | congruence].
Qed.

(** Lines 64-68 raise nothing but [AttributeError] and [TypeError]. *)
Lemma label_for_raises CLASS_MAP idx e :
  label_for CLASS_MAP idx = Raise e -> e = AttributeError \/ e = TypeError.
Proof.
  unfold label_for. destruct (py_truthy CLASS_MAP); [|discriminate].
  destruct CLASS_MAP as [| | | | | |d]; cbn [py_items rbind];
    try (intros [= <-]; now left).
  destruct (invert_items d []) eqn:Hi; cbn; [discriminate|].
  intros [= <-]. right. now apply invert_items_raises in Hi.
Qed.

(** A file whose values line 32 converts is loaded as names to ints. *)
Lemma load_class_map_ints int_of_str cm :
  load_class_map int_of_str (Some (Ok (PyDict (int_items cm)))) = PyDict (int_items cm).
Proof.
  unfold load_class_map. cbn [py_items rbind].
  assert (Hi : ints_of_items int_of_str (int_items cm) = Ok (int_items cm)).
  { induction cm as [|[k v] cm IH]; simpl; [reflexivity|]. now rewrite IH. }
  now rewrite Hi.
Qed.

(** A map of names to ints is usable, and so is the empty map that a
    missing or unparsable file leaves. *)
Lemma class_map_usable_int_items cm : class_map_usable (PyDict (int_items cm)) = true.
Proof. induction cm as [|[k v] cm IH]; [reflexivity | exact IH]. Qed.

Lemma load_class_map_without_file int_of_str e :
  load_class_map int_of_str None = PyDict [] /\
  load_class_map int_of_str (Some (Raise e)) = PyDict [].
Proof. split; reflexivity. Qed.

(** ** Failing classifiers, and no classifiers *)

Section ClassifierFailures.
Context {A : Type} `{Number A}.

(** C2.  With a classifier loaded and the image read: the exception
    [RuntimeError "No predictions produced by models."] is raised exactly
    when no classifier produced a vector.  When vectors were produced,
    the outcome is the one that classifiers returning those vectors and
    nothing else would give, so that a classifier that raised counts for
    nothing; and a label and a confidence are returned whenever these
    vectors have one positive length and the class map is one on which
    lines 64-68 do not raise. *)
Theorem failed_classifiers_are_excluded
    (models : list (@classifier A)) (CLASS_MAP : pyval) (img : list A) :
  models <> [] ->
  (predict_image models CLASS_MAP (Ok img) = Raise (RuntimeError no_predictions_msg)
   <-> produced_vectors models (scaled_batch img) = []) /\
  (forall r rs,
     produced_vectors models (scaled_batch img) = r :: rs ->
     predict_image models CLASS_MAP (Ok img) =
       predict_image (map constant_model (r :: rs)) CLASS_MAP (Ok img) /\
     (r <> [] -> same_length r rs -> class_map_usable CLASS_MAP = true ->
      exists label confidence,
        predict_image models CLASS_MAP (Ok img) = Ok (label, confidence))).
Proof.
  intros Hne. rewrite <- collect_preds_produced. split.
  - split.
    + intros Hp.
      destruct (collect_preds models (scaled_batch img)) as [|r rs] eqn:Hc; [reflexivity|].
      exfalso. rewrite (predict_image_survivors _ _ _ _ _ Hc) in Hp.
      destruct (ensemble r rs) as [[[avg idx] c]|e] eqn:He; cbn [rbind] in Hp.
      * destruct (label_for CLASS_MAP idx) as [l|e] eqn:Hl; cbn [rbind] in Hp;
          [discriminate|].
        injection Hp as ->. apply label_for_raises in Hl as [Hl|Hl]; discriminate.
      * injection Hp as ->. apply ensemble_raises in He. discriminate.
    + intros Hp. now apply predict_image_no_survivors.
  - intros r rs Hc. split.
    + rewrite (predict_image_survivors _ _ _ _ _ Hc).
      symmetry. apply predict_image_survivors.
      rewrite collect_preds_produced. apply produced_by_constant_models.
    + intros Hr Hl Hu.
      destruct (ensemble_returns r rs Hr Hl) as (avg & idx & c & He).
      destruct (label_for_usable CLASS_MAP idx Hu) as [label Hlab].
      exists label, c.
      rewrite (predict_image_survivors _ _ _ _ _ Hc), He. cbn [rbind].
      now rewrite Hlab.
Qed.

(** C3.  With no model loaded [predict_image] raises
    [RuntimeError "No models loaded ..."], whatever the class map and
    whatever reading the image would do; the exception differs from the one
    raised when every model fails. *)
Theorem no_models_always_fails (CLASS_MAP : pyval) (loaded : result (list A)) :
  predict_image [] CLASS_MAP loaded = Raise (RuntimeError no_models_msg) /\
  RuntimeError no_models_msg <> RuntimeError no_predictions_msg.
Proof. split; [reflexivity | discriminate]. Qed.

(** With a model loaded and the image read, that exception is not raised. *)
Lemma models_loaded_other_failures
    (models : list (@classifier A)) (CLASS_MAP : pyval) (img : list A) e :
  models <> [] ->
  predict_image models CLASS_MAP (Ok img) = Raise e ->
  e = RuntimeError no_predictions_msg \/ e = ValueError \/
  e = AttributeError \/ e = TypeError.
Proof.
  intros Hne Hp.
  destruct (collect_preds models (scaled_batch img)) as [|r rs] eqn:Hc.
  - rewrite predict_image_no_survivors in Hp by assumption. injection Hp as <-. tauto.
  - rewrite (predict_image_survivors _ _ _ _ _ Hc) in Hp.
    destruct (ensemble r rs) as [[[avg idx] c]|e'] eqn:He; cbn [rbind] in Hp.
    + destruct (label_for CLASS_MAP idx) as [l|e'] eqn:Hl; cbn [rbind] in Hp;
        [discriminate|].
      injection Hp as ->. apply label_for_raises in Hl. tauto.
    + injection Hp as ->. apply ensemble_raises in He. tauto.
Qed.

(** When no artifact exists or loads, [_models] is empty. *)
Lemma load_models_none (artifacts : list (option (result (@classifier A)))) :
  Forall (fun a => forall m, a <> Some (Ok m)) artifacts -> load_models artifacts = [].
Proof.
  induction 1 as [|a artifacts Ha _ IH]; [reflexivity|].
  destruct a as [[m|e]|]; simpl; try assumption.
  now destruct (Ha m).
Qed.

(** C10.  The class map of a file that maps names to ints is not checked
    for injectivity: on surviving rows that lines 59-61 accept,
    [predict_image] returns, and its label is the last name, in the order
    of the file, among those that carry the arg-max index (the index as a
    string when there is none). *)
Theorem shared_index_resolves_to_last_name
    (models : list (@classifier A)) (int_of_str : string -> option Z)
    (cm : list (string * Z)) (img r : list A) (rs : list (list A))
    (avg : list A) (idx : nat) (confidence : A) :
  collect_preds models (scaled_batch img) = r :: rs ->
  ensemble r rs = Ok (avg, idx, confidence) ->
  predict_image models
      (load_class_map int_of_str (Some (Ok (PyDict (int_items cm))))) (Ok img)
    = Ok (default (py_str idx) (last (names_of_index cm (Z.of_nat idx))), confidence).
Proof.
  intros Hc He.
  rewrite load_class_map_ints, (predict_image_survivors _ _ _ _ _ Hc), He.
  cbn [rbind]. now rewrite label_for_int_items.
Qed.
End ClassifierFailures.

Lemma failed_classifiers_are_excluded_witness :
  exists label confidence,
    predict_image [raising_model OSError; constant_model [f32_0_3; f32_0_7]]
                  (PyDict []) (Ok []) = Ok (label, confidence).
Proof.
  destruct (failed_classifiers_are_excluded
              [raising_model OSError; constant_model [f32_0_3; f32_0_7]] (PyDict []) [])
    as [_ Hproduced]; [discriminate|].
  destruct (Hproduced [f32_0_3; f32_0_7] [] eq_refl) as [_ Hreturned].
  apply Hreturned; [discriminate | constructor | reflexivity].
Defined.

(** Vectors are produced and no label and no confidence is returned.
    Two classifiers produce vectors of two and of three classes:
    [np.mean] raises.  One classifier produces a vector and the class map
    is the list that a JSON array leaves bound: line 65 raises. *)
Lemma produced_vectors_may_give_no_result :
  (produced_vectors
     [constant_model [f32_0_9; f32_0_1]; constant_model [f32_0_3; f32_0_7; S754_zero false]]
     (scaled_batch []) =
     [[f32_0_9; f32_0_1]; [f32_0_3; f32_0_7; S754_zero false]] /\
   predict_image
     [constant_model [f32_0_9; f32_0_1]; constant_model [f32_0_3; f32_0_7; S754_zero false]]
     (PyDict []) (Ok []) = Raise ValueError) /\
  (produced_vectors [constant_model [f32_0_9; f32_0_1]] (scaled_batch [])
     = [[f32_0_9; f32_0_1]] /\
   predict_image [constant_model [f32_0_9; f32_0_1]]
     (PyList [PyStr "Neem"; PyStr "Tulsi"]) (Ok []) = Raise AttributeError).
Proof. repeat split. Qed.

(** The scenario of the specification: of two models one raises, and the
    result comes from the row of the other. *)
Example scenario_one_classifier_raises :
  predict_image [raising_model OSError; constant_model [f32_0_3; f32_0_7]]
                (PyDict []) (Ok [])
    = Ok ("1", f32_0_7).
Proof. vm_compute. reflexivity. Qed.

Example scenario_every_classifier_raises :
  predict_image [@raising_model Q OSError; raising_model ValueError] (PyDict []) (Ok [])
    = Raise (RuntimeError "No predictions produced by models.").
Proof. reflexivity. Qed.

Lemma shared_index_resolves_to_last_name_witness :
  predict_image [constant_model [9 # 10; 1 # 10]; constant_model [3 # 10; 7 # 10]]%Q
      (load_class_map (fun _ => None)
         (Some (Ok (PyDict (int_items [("Neem", 0); ("Tulsi", 1); ("Basil", 0)]%Z)))))
      (Ok [])
    = Ok (default (py_str 0) (last (names_of_index [("Neem", 0); ("Tulsi", 1); ("Basil", 0)]%Z
                                                   (Z.of_nat 0))),
          (120 # 200)%Q).
Proof.
  apply (shared_index_resolves_to_last_name
           [constant_model [9 # 10; 1 # 10]; constant_model [3 # 10; 7 # 10]]%Q
           (fun _ => None) [("Neem", 0); ("Tulsi", 1); ("Basil", 0)]%Z []
           [9 # 10; 1 # 10]%Q [[3 # 10; 7 # 10]]%Q [120 # 200; 80 # 200]%Q 0%nat (120 # 200)%Q).
  - reflexivity.
  - vm_compute. reflexivity.
Defined.

Example shared_index_last_name_is_Basil :
  default (py_str 0) (last (names_of_index [("Neem", 0); ("Tulsi", 1); ("Basil", 0)]%Z 0%Z))
    = "Basil".
Proof. reflexivity. Qed.

(** C8.  A [class_indices.json] that holds a JSON array of names: line 30
    binds [CLASS_MAP] to the list, line 32 raises on [.items()], the handler
    prints and the list stays bound.  From then on line 65 raises
    [AttributeError] for every index, and so does [predict_image]. *)
Theorem json_array_class_map_breaks_label_resolution :
  forall (int_of_str : string -> option Z) (idx : nat),
    let CLASS_MAP :=
      load_class_map int_of_str (Some (Ok (PyList [PyStr "Neem"; PyStr "Tulsi"]))) in
    CLASS_MAP = PyList [PyStr "Neem"; PyStr "Tulsi"] /\
    label_for CLASS_MAP idx = Raise AttributeError /\
    predict_image [constant_model [9 # 10; 1 # 10]]%Q CLASS_MAP (Ok [])
      = Raise AttributeError.
Proof. intros int_of_str idx. repeat split. Qed.

(** The same slip with a JSON object one of whose values is an array:
    [int([0])] raises, the raw dict stays bound, and the comprehension of
    line 65 raises [TypeError] on the unhashable value. *)
Example json_array_value_breaks_label_resolution :
  forall (int_of_str : string -> option Z) (idx : nat),
    label_for (load_class_map int_of_str
                 (Some (Ok (PyDict [("Neem", PyList [PyInt 0])])))) idx
      = Raise TypeError.
Proof. reflexivity. Qed.

(** ** Slices *)

Lemma lookup_map {T U : Type} (f : T -> U) (l : list T) (i : nat) :
  map f l !! i = f <$> l !! i.
Proof. revert i. induction l as [|a l IH]; intros [|i]; simpl; auto. Qed.

Lemma py_slice_lookup {T : Type} (a b i : nat) (l : list T) :
  i < b - a -> py_slice a b l !! i = l !! (a + i).
Proof.
  intros Hi. unfold py_slice. rewrite lookup_take_lt by assumption. apply lookup_drop.
Qed.

Lemma py_slice_length {T : Type} (a b : nat) (l : list T) :
  length (py_slice a b l) = Nat.min (b - a) (length l - a).
Proof. unfold py_slice. now rewrite length_take, length_drop. Qed.

Lemma crop_box_cut (img : image) (x y w h : nat) :
  cut_to_box img (x, y, w, h) (crop_box img x y w h).
Proof.
  unfold cut_to_box, crop_box. split.
  - rewrite length_map, py_slice_length. f_equal. lia.
  - intros i row Hrow. unfold image in *.
    rewrite lookup_map in Hrow.
    destruct (py_slice y (y + h) img !! i) as [src|] eqn:Hsrc; [|discriminate].
    injection Hrow as <-.
    assert (Hi : i < y + h - y).
    { apply lookup_lt_Some in Hsrc. rewrite py_slice_length in Hsrc. lia. }
    rewrite py_slice_lookup in Hsrc by assumption.
    exists src. split; [assumption|]. split.
    + rewrite py_slice_length. f_equal. lia.
    + intros j Hj. apply py_slice_lookup. lia.
Qed.

(** ** Running the preprocessor *)

Lemma appended_nil s : appended s [] = s.
Proof. destruct s. unfold appended. simpl. now rewrite app_nil_r. Qed.

Lemma appended_appended s t u : appended (appended s t) u = appended s (t ++ u).
Proof. unfold appended. simpl. now rewrite app_assoc. Qed.

Lemma log_run e s : log e s = (Ok tt, appended s [e]).
Proof. reflexivity. Qed.

Ltac unfold_monad :=
  unfold mbind, mret, M_bind, M_ret, bind, ret, raise, lift, content, try_except in *.

Ltac run_fallback H :=
  unfold fallback, import_cv2, imread, cvtColor, GaussianBlur, threshold,
    findContours, boundingRect, resize, imwrite, max_by_contourArea, contourArea,
    store in H;
  unfold_monad; cbn [log fs trace] in H.

Ltac run_primary H :=
  unfold primary, import_rembg, read_file, remove, open_wb, write, store, log in H;
  unfold_monad; cbn [fs trace] in H.

Lemma not_in_of_Forall (t : list event) :
  Forall (fun ev => ev <> EvImport "cv2") t -> ~ In (EvImport "cv2") t.
Proof.
  intros Ht Hin. now apply (proj1 (List.Forall_forall _ _) Ht _ Hin).
Qed.

Ltac finish_trace :=
  eexists; split;
  [ repeat rewrite <- app_assoc; cbn [app]; reflexivity
  | apply not_in_of_Forall; repeat (constructor; [discriminate|]); constructor ].

Section PreprocessRun.
Variable env : environment.

Lemma max_scan_run (rest : list contour) :
  forall (maxitem : contour) (maxval : Q) (s : state) (c : contour) (s' : state),
    max_scan env maxitem maxval rest s = (Ok c, s') ->
    s' = appended s (map EvContourArea rest) /\
    exists a : Q,
      (maxval <= a)%Q /\
      ((c = maxitem /\ a = maxval) \/ (In c rest /\ cv2_contourArea env c = Ok a)) /\
      Forall (fun c' => exists a', cv2_contourArea env c' = Ok a' /\ (a' <= a)%Q) rest.
Proof.
  induction rest as [|c1 rest IH]; intros maxitem maxval s c s' Hrun.
  - injection Hrun as <- <-. split; [now rewrite appended_nil|].
    exists maxval. repeat split; [lra | now left | constructor].
  - cbn [max_scan] in Hrun. unfold contourArea in Hrun. unfold_monad.
    rewrite log_run in Hrun.
    destruct (cv2_contourArea env c1) as [v|e] eqn:Hv; [|discriminate].
    destruct (Qle_bool v maxval) eqn:Hle; cbn [negb] in Hrun;
      apply IH in Hrun as (-> & a & Ha & Hc & Hall);
      (split; [now rewrite appended_appended|]); exists a.
    + apply Qle_bool_iff in Hle. split; [assumption | split].
      * destruct Hc as [Hc|[Hc Hca]]; [now left | right; split; [now right | assumption]].
      * constructor; [|assumption]. exists v. split; [assumption | lra].
    + apply Q_leb_false in Hle. split; [lra | split].
      * right. destruct Hc as [[-> ->]|[Hc Hca]]; (split; [|assumption]); [now left | now right].
      * constructor; [|assumption]. exists v. split; [assumption | lra].
Qed.

Lemma max_scan_files (rest : list contour) :
  forall (maxitem : contour) (maxval : Q) (s : state) r (s' : state),
    max_scan env maxitem maxval rest s = (r, s') -> fs s' = fs s.
Proof.
  induction rest as [|c1 rest IH]; intros maxitem maxval s r s' Hrun.
  - now injection Hrun as <- <-.
  - cbn [max_scan] in Hrun. unfold contourArea in Hrun. unfold_monad.
    cbn [log] in Hrun.
    destruct (cv2_contourArea env c1) as [v|e]; [|now injection Hrun as <- <-].
    destruct (negb (Qle_bool v maxval)); now apply IH in Hrun.
Qed.

(** What a run of the fallback that returns [True] has gone through. *)
Lemma fallback_run_inversion (img_path : string) (s s' : state) :
  fallback env img_path s = (Ok true, s') ->
  exists r : crop_run,
    crop_run_of env (fs s !! img_path) img_path r /\
    trace s' = trace s ++ crop_run_trace env img_path r /\
    fs s' = match run_saved r with
            | Some b => <[img_path := b]> (fs s)
            | None => fs s
            end.
Proof.
  intros Hrun. run_fallback Hrun.
  destruct (cv2_import env) as [[]|?] eqn:Himport; [|discriminate].
  destruct (cv2_imread env (fs s !! img_path)) as [[img|]|?] eqn:Himread;
    [|discriminate..].
  destruct (cv2_cvtColor env img (COLOR_BGR2GRAY env)) as [g|?] eqn:Hgray;
    [|discriminate].
  destruct (cv2_GaussianBlur env g (5, 5)%Z 0%Z) as [blur|?] eqn:Hblur; [|discriminate].
  destruct (cv2_threshold env blur 0%Z 255%Z (THRESH_BINARY env + THRESH_OTSU env)%Z)
    as [[t th]|?] eqn:Hth; [|discriminate].
  destruct (cv2_findContours env th (RETR_EXTERNAL env) (CHAIN_APPROX_SIMPLE env))
    as [[[|c0 rest] hier]|?] eqn:Hcontours; [discriminate| |discriminate].
  destruct (cv2_contourArea env c0) as [a0|?] eqn:Harea0; [|discriminate].
  match type of Hrun with
  | context [max_scan env c0 a0 rest ?s1] =>
      destruct (max_scan env c0 a0 rest s1) as [[c|?] s2] eqn:Hscan; [|discriminate]
  end.
  apply max_scan_run in Hscan as (-> & a & Ha & Hc & Hall).
  cbn [appended fs trace] in Hrun.
  destruct (cv2_boundingRect env c) as [[[[x y] w] h]|?] eqn:Hbox; [|discriminate].
  destruct (cv2_resize env (crop_box img x y w h) (224, 224)%Z) as [resized|?] eqn:Hresize;
    [|discriminate].
  destruct (cv2_imwrite env img_path resized) as [saved|?] eqn:Hwrite; [|discriminate].
  exists {| run_img := img; run_gray := g; run_blur := blur; run_retval := t;
            run_th := th; run_contours := c0 :: rest; run_hierarchy := hier;
            run_selected := c; run_box := (x, y, w, h);
            run_crop := crop_box img x y w h; run_resized := resized;
            run_saved := saved |}.
  unfold crop_run_of, crop_run_trace. cbn -[In cut_to_box crop_box].
  assert (Hsel : In c (c0 :: rest) /\ cv2_contourArea env c = Ok a).
  { destruct Hc as [[-> ->]|[Hc Hca]]; split; try assumption; [now left | now right]. }
  split.
  { repeat (split; [first [assumption | apply Hsel]|]).
    split.
    { exists a. split; [apply Hsel|]. constructor; [|assumption]. now exists a0. }
    split; [assumption|]. split; [apply crop_box_cut|].
    split; assumption. }
  destruct saved as [b|]; injection Hrun as <-; cbn [fs trace];
    (split; [|reflexivity]); repeat rewrite <- app_assoc; reflexivity.
Qed.

(** C6.  Whenever the fallback returns [True] it has made exactly these
    calls, in this order, each on the result of the one before: [import
    cv2], [imread] of the stored file, [cvtColor] to grayscale,
    [GaussianBlur] with a 5x5 kernel, [threshold] with the binary and Otsu
    flags, [findContours] for external contours, [contourArea] on every
    contour, [boundingRect] of a contour of largest area, [resize] to
    224x224 of the image read cut to that box, which is the image made
    of the rows and columns of the box that the image has ([cut_to_box]),
    and [imwrite] of the result to the same path; the stored file is then
    what [imwrite] saved. *)
Theorem fallback_performs_crop_steps (img_path : string) (s s' : state) :
  fallback env img_path s = (Ok true, s') ->
  exists r : crop_run,
    crop_run_of env (fs s !! img_path) img_path r /\
    trace s' = trace s ++ crop_run_trace env img_path r /\
    fs s' = match run_saved r with
            | Some b => <[img_path := b]> (fs s)
            | None => fs s
            end.
Proof. apply fallback_run_inversion. Qed.

(** Whenever the fallback does not return [True], it leaves every file as
    it found it. *)
Lemma fallback_failure_keeps_files (img_path : string) (s s' : state) r :
  fallback env img_path s = (r, s') -> r <> Ok true -> fs s' = fs s.
Proof.
  intros Hrun Hr. run_fallback Hrun.
  repeat match type of Hrun with
         | context [max_scan env ?c ?a ?rest ?s1] =>
             let Hs := fresh "Hscan" in
             destruct (max_scan env c a rest s1) as [[?|?] ?] eqn:Hs;
             apply max_scan_files in Hs; cbn [fs] in Hs
         | context [match ?o with Ok _ => _ | Raise _ => _ end] => destruct o as [?|?]
         | context [match ?o with Some _ => _ | None => _ end] => destruct o as [?|]
         | context [match ?o with [] => _ | _ :: _ => _ end] => destruct o as [|? ?]
         | context [let '(_, _) := ?o in _] => destruct o as [? ?]
         end;
    try (injection Hrun as <- <-; first [reflexivity | assumption | congruence]).
Qed.

Lemma primary_returns (img_path : string) (s s' : state) (b : bool) :
  primary env img_path s = (Ok b, s') ->
  b = true /\
  exists input output,
    rembg_import env = Ok tt /\
    fs s !! img_path = Some input /\
    rembg_remove env input = Ok output /\
    file_write env img_path output = Written /\
    fs s' = <[img_path := output]> (fs s) /\
    trace s' = trace s ++ primary_trace img_path input output.
Proof.
  intros Hrun. run_primary Hrun.
  destruct (rembg_import env) as [[]|?] eqn:Himport;
    cbn [fs trace] in Hrun; [|discriminate].
  destruct (open_rb_fault env img_path); cbn [fs trace] in Hrun; [discriminate|].
  destruct (fs s !! img_path) as [input|] eqn:Hfile;
    cbn [fs trace] in Hrun; [|discriminate].
  destruct (rembg_remove env input) as [output|?] eqn:Hremove;
    cbn [fs trace] in Hrun; [|discriminate].
  destruct (open_wb_fault env img_path); cbn [fs trace] in Hrun; [discriminate|].
  destruct (file_write env img_path output) eqn:Hwrite;
    cbn [fs trace] in Hrun; [|discriminate].
  injection Hrun as <- <-. split; [reflexivity|].
  exists input, output. cbn [fs trace].
  repeat (split; [assumption || reflexivity|]). split.
  - apply insert_insert_eq.
  - unfold primary_trace. repeat rewrite <- app_assoc. reflexivity.
Qed.

(** When the primary strategy raises, no OpenCV call has been made, and
    the files are as before unless the exception comes from the write,
    which leaves the part of the output that reached the file. *)
Lemma primary_raises (img_path : string) (s s' : state) (e : exn) :
  primary env img_path s = (Raise e, s') ->
  (exists t, trace s' = trace s ++ EvImport "rembg" :: t /\ ~ In (EvImport "cv2") t) /\
  (fs s' = fs s \/
   exists input output persisted,
     fs s !! img_path = Some input /\
     rembg_remove env input = Ok output /\
     file_write env img_path output = WriteRaises e persisted /\
     fs s' = <[img_path := take persisted output]> (fs s)).
Proof.
  intros Hrun. run_primary Hrun.
  destruct (rembg_import env) as [[]|?] eqn:Himport; cbn [fs trace] in Hrun.
  2:{ injection Hrun as <- <-. cbn [fs trace]. split; [finish_trace | now left]. }
  destruct (open_rb_fault env img_path); cbn [fs trace] in Hrun.
  { injection Hrun as <- <-. cbn [fs trace]. split; [finish_trace | now left]. }
  destruct (fs s !! img_path) as [input|] eqn:Hfile; cbn [fs trace] in Hrun.
  2:{ injection Hrun as <- <-. cbn [fs trace]. split; [finish_trace | now left]. }
  cbn [fs trace] in Hrun.
  destruct (rembg_remove env input) as [output|?] eqn:Hremove.
  2:{ injection Hrun as <- <-. cbn [fs trace]. split; [finish_trace | now left]. }
  destruct (open_wb_fault env img_path); cbn [fs trace] in Hrun.
  { injection Hrun as <- <-. cbn [fs trace]. split; [finish_trace | now left]. }
  destruct (file_write env img_path output) as [|e' persisted] eqn:Hwrite;
    cbn [fs trace] in Hrun; [discriminate|].
  injection Hrun as <- <-. cbn [fs trace]. split; [finish_trace|].
  right. exists input, output, persisted.
  repeat (split; [assumption || reflexivity|]). apply insert_insert_eq.
Qed.

(** The primary strategy returns exactly when the environment lets every
    step of lines 79-84 through. *)
Lemma primary_decided (img_path : string) (s : state) :
  match primary_result env img_path (fs s !! img_path) with
  | Some (input, output) =>
      exists s',
        primary env img_path s = (Ok true, s') /\
        fs s' = <[img_path := output]> (fs s) /\
        trace s' = trace s ++ primary_trace img_path input output
  | None => exists e s', primary env img_path s = (Raise e, s')
  end.
Proof.
  unfold primary_result.
  destruct (primary env img_path s) as [[b|e] s'] eqn:Hrun.
  - destruct (primary_returns _ _ _ _ Hrun)
      as (-> & input & output & Himport & Hfile & Hremove & Hwrite & Hfs & Htrace).
    rewrite Himport, Hfile, Hremove, Hwrite.
    run_primary Hrun. rewrite Himport in Hrun. cbn [fs trace] in Hrun.
    destruct (open_rb_fault env img_path); cbn [fs trace] in Hrun; [discriminate|].
    rewrite Hfile in Hrun. cbn [fs trace] in Hrun. rewrite Hremove in Hrun.
    destruct (open_wb_fault env img_path); cbn [fs trace] in Hrun; [discriminate|].
    eauto.
  - run_primary Hrun.
    destruct (rembg_import env) as [[]|?]; cbn [fs trace] in Hrun; [|eauto].
    destruct (open_rb_fault env img_path); cbn [fs trace] in Hrun; [eauto|].
    destruct (fs s !! img_path) as [input|]; cbn [fs trace] in Hrun; [|eauto].
    destruct (rembg_remove env input) as [output|?]; [|eauto].
    destruct (open_wb_fault env img_path); cbn [fs trace] in Hrun; [eauto|].
    destruct (file_write env img_path output); cbn [fs trace] in Hrun;
      [discriminate | eauto].
Qed.

Lemma max_scan_trace (rest : list contour) :
  forall (maxitem : contour) (maxval : Q) (s : state) r (s' : state),
    max_scan env maxitem maxval rest s = (r, s') -> exists t, trace s' = trace s ++ t.
Proof.
  induction rest as [|c1 rest IH]; intros maxitem maxval s r s' Hrun.
  - injection Hrun as <- <-. exists []. now rewrite app_nil_r.
  - cbn [max_scan] in Hrun. unfold contourArea in Hrun. unfold_monad.
    cbn [log] in Hrun.
    destruct (cv2_contourArea env c1) as [v|e].
    + destruct (negb (Qle_bool v maxval)); apply IH in Hrun as [t ->];
        cbn [trace]; rewrite <- app_assoc; eauto.
    + injection Hrun as <- <-. cbn [trace]. eauto.
Qed.

(** The fallback begins by importing OpenCV. *)
Lemma fallback_trace (img_path : string) (s s' : state) r :
  fallback env img_path s = (r, s') ->
  exists t, trace s' = trace s ++ EvImport "cv2" :: t.
Proof.
  intros Hrun. run_fallback Hrun.
  repeat match type of Hrun with
         | context [max_scan env ?c ?a ?rest ?s1] =>
             let Hs := fresh "Hscan" in
             destruct (max_scan env c a rest s1) as [[?|?] ?] eqn:Hs;
             apply max_scan_trace in Hs as [? Hs]; cbn [trace] in Hs
         | context [match ?o with Ok _ => _ | Raise _ => _ end] => destruct o as [?|?]
         | context [match ?o with Some _ => _ | None => _ end] => destruct o as [?|]
         | context [match ?o with [] => _ | _ :: _ => _ end] => destruct o as [|? ?]
         | context [let '(_, _) := ?o in _] => destruct o as [? ?]
         end;
    try (injection Hrun as <- <-; cbn [trace]; try rewrite Hscan;
         repeat rewrite <- app_assoc; eexists; reflexivity).
Qed.
End PreprocessRun.

(** ** The cropped image *)

(** [img[y:y+h, x:x+w][i][j]] is [img[y+i][x+j]] inside the box. *)
Lemma crop_box_lookup (img : image) (x y w h i j : nat) :
  i < h -> j < w ->
  crop_box img x y w h !! i ≫= (fun row => row !! j) =
  img !! (y + i) ≫= (fun row => row !! (x + j)).
Proof.
  intros Hi Hj. unfold crop_box, image in *.
  rewrite lookup_map, py_slice_lookup by lia.
  destruct (img !! (y + i)) as [row|]; [|reflexivity].
  simpl. apply py_slice_lookup. lia.
Qed.

Lemma fallback_performs_crop_steps_witness :
  exists r : crop_run,
    crop_run_of env_without_rembg (fs uploaded !! leaf) leaf r /\
    trace (snd (fallback env_without_rembg leaf uploaded)) =
      trace uploaded ++ crop_run_trace env_without_rembg leaf r /\
    fs (snd (fallback env_without_rembg leaf uploaded)) =
      match run_saved r with
      | Some b => <[leaf := b]> (fs uploaded)
      | None => fs uploaded
      end.
Proof.
  apply (fallback_performs_crop_steps env_without_rembg leaf uploaded
           (snd (fallback env_without_rembg leaf uploaded))).
  vm_compute. reflexivity.
Defined.

(** The run of the example: the contour around the bright pixel is
    selected, the image is cut to the 1x1 box at (1, 1), and the file is
    replaced. *)
Example fallback_example_run :
  fallback env_without_rembg leaf uploaded =
    (Ok true,
     {| fs := {[ leaf := [Byte.x42; Byte.x4d] ]};
        trace :=
          [EvImport "cv2"; EvImread leaf;
           EvCvtColor sample_image 6;
           EvGaussianBlur [[0; 0; 0]; [0; 207; 0]; [0; 0; 0]]%Z (5, 5)%Z 0;
           EvThreshold [[0; 0; 0]; [0; 207; 0]; [0; 0; 0]]%Z 0 255 8;
           EvFindContours [[0; 0; 0]; [0; 255; 0]; [0; 0; 0]]%Z 0 2;
           EvContourArea [(0, 0)]%Z; EvContourArea [(1, 1)]%Z; EvContourArea [(2, 2)]%Z;
           EvBoundingRect [(1, 1)]%Z;
           EvResize [[(200, 210, 220)]]%Z (224, 224)%Z;
           EvImwrite leaf [[(200, 210, 220)]]%Z] |}).
Proof. vm_compute. reflexivity. Qed.

(** ** Primary first, fallback second, prediction in every case *)

Section PreprocessOrder.
Variable env : environment.

(** [preprocess_image_if_available] returns what the primary strategy
    returns, or runs the fallback from the state in which the primary
    strategy raised and turns an exception of the fallback into [False]. *)
Lemma preprocess_cases (img_path : string) (s : state) :
  (exists s1,
     primary env img_path s = (Ok true, s1) /\
     preprocess_image_if_available env img_path s = (Ok true, s1)) \/
  (exists e s1 r s2,
     primary env img_path s = (Raise e, s1) /\
     fallback env img_path s1 = (r, s2) /\
     preprocess_image_if_available env img_path s =
       (Ok (match r with Ok b => b | Raise _ => false end), s2)).
Proof.
  unfold preprocess_image_if_available, try_except.
  destruct (primary env img_path s) as [[b|e] s1] eqn:Hp; cbv beta iota.
  - left. exists s1. apply primary_returns in Hp as Hb. destruct Hb as [-> _].
    now split.
  - right. destruct (fallback env img_path s1) as [r s2] eqn:Hf.
    exists e, s1, r, s2. split; [reflexivity|]. split; [assumption|].
    destruct r; reflexivity.
Qed.

Lemma preprocess_never_raises (img_path : string) (s : state) :
  exists b s', preprocess_image_if_available env img_path s = (Ok b, s').
Proof.
  destruct (preprocess_cases img_path s)
    as [(s1 & _ & ->)|(e & s1 & r & s2 & _ & _ & ->)]; eauto.
Qed.

(** When the preprocessor returns [False], the files are as before, unless
    the write of the primary strategy raised after the file had been
    opened for writing; the file then holds what reached it. *)
Lemma preprocess_false_files (img_path : string) (s s' : state) :
  preprocess_image_if_available env img_path s = (Ok false, s') ->
  fs s' = fs s \/
  exists input output e persisted,
    fs s !! img_path = Some input /\
    rembg_remove env input = Ok output /\
    file_write env img_path output = WriteRaises e persisted /\
    fs s' = <[img_path := take persisted output]> (fs s).
Proof.
  intros Hrun.
  destruct (preprocess_cases img_path s)
    as [(s1 & _ & Hrun')|(e & s1 & r & s2 & Hp & Hf & Hrun')];
    rewrite Hrun' in Hrun; [discriminate|].
  injection Hrun as Hr <-.
  assert (Hfs : fs s2 = fs s1).
  { apply (fallback_failure_keeps_files env img_path s1 s2 r Hf).
    intros ->. discriminate. }
  destruct (primary_raises _ _ _ _ _ Hp) as [_ [Hsame|Hpart]].
  - left. congruence.
  - right. destruct Hpart as (input & output & persisted & Hfile & Hremove & Hwrite & Hs1).
    exists input, output, e, persisted. rewrite Hfs. eauto.
Qed.

(** When the preprocessor returns [True], either the primary strategy
    stored the whole result of [remove], or the primary strategy raised and
    the fallback ran to its end. *)
Lemma preprocess_true_files (img_path : string) (s s' : state) :
  preprocess_image_if_available env img_path s = (Ok true, s') ->
  (exists input output,
     fs s !! img_path = Some input /\
     rembg_remove env input = Ok output /\
     fs s' = <[img_path := output]> (fs s)) \/
  (exists e s1 r,
     primary env img_path s = (Raise e, s1) /\
     crop_run_of env (fs s1 !! img_path) img_path r /\
     fs s' = match run_saved r with
             | Some b => <[img_path := b]> (fs s1)
             | None => fs s1
             end).
Proof.
  intros Hrun.
  destruct (preprocess_cases img_path s)
    as [(s1 & Hp & Hrun')|(e & s1 & r & s2 & Hp & Hf & Hrun')];
    rewrite Hrun' in Hrun.
  - injection Hrun as <-. left.
    destruct (primary_returns _ _ _ _ _ Hp)
      as (_ & input & output & _ & Hfile & Hremove & _ & Hfs & _).
    eauto.
  - injection Hrun as Hr <-. right.
    destruct r as [[|]|?]; try discriminate.
    destruct (fallback_run_inversion env img_path s1 s2 Hf) as (run & Hrun_of & _ & Hfs).
    eauto 6.
Qed.
End PreprocessOrder.

Section PipelineOrder.
Context {A : Type} `{Number A}.
Variable env : environment.
Variable keras_load_img : option bytes -> result (list A).
Variable models : list (@classifier A).
Variable CLASS_MAP : pyval.

Lemma preprocess_and_predict_run (save_path : string) (s s' : state) (b : bool) :
  preprocess_image_if_available env save_path s = (Ok b, s') ->
  preprocess_and_predict env keras_load_img models CLASS_MAP save_path s =
    (Ok (response_of (predict_image models CLASS_MAP (keras_load_img (fs s' !! save_path)))),
     s').
Proof.
  intros Hp. unfold preprocess_and_predict. unfold_monad. now rewrite Hp.
Qed.

(** C7.  The preprocessor never raises and its first call is the import
    of rembg.  When every step of the primary strategy goes through
    (rembg is imported, the file is read, [remove] returns, its result is
    written back), [True] is returned, the stored file is the result of
    [remove], the calls made are those of the primary strategy and no
    OpenCV call is among them.  When a step of the primary strategy
    raises, be it the import, [remove], or the reading or writing of the
    file, OpenCV is imported: the fallback executes.  In both cases the
    handler goes on to [predict_image] on the stored file, and answers
    with its label and confidence when it returns them. *)
Theorem primary_first_then_fallback (save_path : string) (s : state) :
  exists (b : bool) (s' : state) (t : list event),
    preprocess_image_if_available env save_path s = (Ok b, s') /\
    trace s' = trace s ++ EvImport "rembg" :: t /\
    match primary_result env save_path (fs s !! save_path) with
    | Some (input, output) =>
        b = true /\
        fs s' = <[save_path := output]> (fs s) /\
        EvImport "rembg" :: t = primary_trace save_path input output /\
        ~ In (EvImport "cv2") t
    | None => In (EvImport "cv2") t
    end /\
    preprocess_and_predict env keras_load_img models CLASS_MAP save_path s =
      (Ok (response_of
             (predict_image models CLASS_MAP (keras_load_img (fs s' !! save_path)))),
       s').
Proof.
  pose proof (primary_decided env save_path s) as Hdec.
  destruct (preprocess_cases env save_path s)
    as [(s1 & Hp & Hrun)|(e & s1 & r & s2 & Hp & Hf & Hrun)].
  - destruct (primary_result env save_path (fs s !! save_path)) as [[input output]|].
    2:{ destruct Hdec as (e & s1' & Hp'). congruence. }
    destruct Hdec as (s1' & Hp' & Hfs & Htrace).
    assert (s1' = s1) by congruence. subst s1'.
    exists true, s1, (tl (primary_trace save_path input output)).
    split; [assumption|]. split; [assumption|]. split; [|].
    + split; [reflexivity|]. split; [assumption|]. split; [reflexivity|].
      apply not_in_of_Forall. repeat (constructor; [discriminate|]). constructor.
    + eapply preprocess_and_predict_run; eassumption.
  - destruct (primary_result env save_path (fs s !! save_path)) as [[input output]|].
    { destruct Hdec as (s1' & Hp' & _). congruence. }
    destruct (primary_raises _ _ _ _ _ Hp) as [(t1 & Ht1 & Hno) _].
    destruct (fallback_trace _ _ _ _ _ Hf) as (t2 & Ht2).
    exists (match r with Ok b => b | Raise _ => false end), s2,
      (t1 ++ EvImport "cv2" :: t2).
    split; [assumption|]. split; [|split].
    + rewrite Ht2, Ht1, <- app_assoc. reflexivity.
    + apply in_or_app. right. now left.
    + eapply preprocess_and_predict_run; eassumption.
Qed.
End PipelineOrder.

Lemma primary_first_then_fallback_witness :
  exists (b : bool) (s' : state) (t : list event),
    preprocess_image_if_available env_with_rembg leaf uploaded = (Ok b, s') /\
    trace s' = trace uploaded ++ EvImport "rembg" :: t /\
    match primary_result env_with_rembg leaf (fs uploaded !! leaf) with
    | Some (input, output) =>
        b = true /\
        fs s' = <[leaf := output]> (fs uploaded) /\
        EvImport "rembg" :: t = primary_trace leaf input output /\
        ~ In (EvImport "cv2") t
    | None => In (EvImport "cv2") t
    end /\
    preprocess_and_predict env_with_rembg keras_reads_nonempty
        [constant_model [9 # 10; 1 # 10]%Q] (PyDict []) leaf uploaded =
      (Ok (response_of
             (predict_image [constant_model [9 # 10; 1 # 10]%Q] (PyDict [])
                (keras_reads_nonempty (fs s' !! leaf)))),
       s').
Proof.
  exact (primary_first_then_fallback env_with_rembg keras_reads_nonempty
           [constant_model [9 # 10; 1 # 10]%Q] (PyDict []) leaf uploaded).
Defined.

(** With rembg the primary strategy goes through: the file holds the
    result of [remove], the calls are those of [primary_trace], and the
    handler answers with a label and a confidence. *)
Example scenario_rembg_present :
  primary_result env_with_rembg leaf (fs uploaded !! leaf)
    = Some ([Byte.xff; Byte.xd8; Byte.xff; Byte.xe0],
            [Byte.x89; Byte.x50; Byte.x4e; Byte.x47]) /\
  preprocess_image_if_available env_with_rembg leaf uploaded
    = (Ok true,
       {| fs := {[ leaf := [Byte.x89; Byte.x50; Byte.x4e; Byte.x47] ]};
          trace := primary_trace leaf [Byte.xff; Byte.xd8; Byte.xff; Byte.xe0]
                     [Byte.x89; Byte.x50; Byte.x4e; Byte.x47] |}) /\
  fst (preprocess_and_predict env_with_rembg keras_reads_nonempty
         [constant_model [9 # 10; 1 # 10]%Q] (PyDict []) leaf uploaded)
    = Ok (Predicted "0" (9 # 10)%Q).
Proof. vm_compute. repeat split. Qed.

(** The fallback also executes when rembg is there and has done its
    work: rembg is imported, [remove] returns the PNG, the write of the
    result raises, and OpenCV is imported next.  And a fallback that has
    executed, rembg being absent, is not always followed by a label and a
    confidence: with no model loaded the handler answers with the error
    of [predict_image]. *)
Lemma fallback_runs_after_rembg_returned :
  (rembg_import env_write_fails = Ok tt /\
   rembg_remove env_write_fails [Byte.xff; Byte.xd8; Byte.xff; Byte.xe0]
     = Ok [Byte.x89; Byte.x50; Byte.x4e; Byte.x47] /\
   trace (snd (preprocess_image_if_available env_write_fails leaf uploaded))
     = [EvImport "rembg"; EvOpen leaf "rb"; EvRead leaf;
        EvRemove [Byte.xff; Byte.xd8; Byte.xff; Byte.xe0];
        EvOpen leaf "wb"; EvWrite leaf [Byte.x89; Byte.x50; Byte.x4e; Byte.x47];
        EvImport "cv2"; EvImread leaf]) /\
  (rembg_import env_without_rembg = Raise ImportError /\
   fst (preprocess_image_if_available env_without_rembg leaf uploaded) = Ok true /\
   fst (preprocess_and_predict env_without_rembg keras_reads_nonempty
          [] (PyDict []) leaf uploaded)
     = Ok (PredictionError (RuntimeError no_models_msg))).
Proof. vm_compute. repeat split. Qed.

(** The scenarios of the specification.  Without rembg the fallback crops
    the image and the handler answers with a label and a confidence. *)
Example scenario_rembg_absent :
  fst (preprocess_image_if_available env_without_rembg leaf uploaded) = Ok true /\
  fs (snd (preprocess_image_if_available env_without_rembg leaf uploaded)) !! leaf
    = Some [Byte.x42; Byte.x4d] /\
  fst (preprocess_and_predict env_without_rembg keras_reads_nonempty
         [constant_model [9 # 10; 1 # 10]%Q] (PyDict []) leaf uploaded)
    = Ok (Predicted "0" (9 # 10)%Q).
Proof. vm_compute. repeat split. Qed.

(** On a picture without contrast no contour is found: the fallback fails,
    the file is as it was, and the handler still answers. *)
Example scenario_no_contours :
  preprocess_image_if_available env_no_contours leaf uploaded
    = (Ok false,
       appended uploaded
         [EvImport "rembg"; EvImport "cv2"; EvImread leaf;
          EvCvtColor sample_image 6;
          EvGaussianBlur [[0; 0; 0]; [0; 0; 0]; [0; 0; 0]]%Z (5, 5)%Z 0;
          EvThreshold [[0; 0; 0]; [0; 0; 0]; [0; 0; 0]]%Z 0 255 8;
          EvFindContours [[0; 0; 0]; [0; 0; 0]; [0; 0; 0]]%Z 0 2]) /\
  fst (preprocess_and_predict env_no_contours keras_reads_nonempty
         [constant_model [9 # 10; 1 # 10]%Q] (PyDict []) leaf uploaded)
    = Ok (Predicted "0" (9 # 10)%Q).
Proof. vm_compute. repeat split. Qed.

(** ** A write that fails half-way, and an [imwrite] that saves nothing *)

(** C4.  rembg returns a result, the file opens for writing, which empties
    it, and the write raises.  The primary strategy has failed; the fallback
    cannot read the empty file and fails too; the preprocessor returns
    [False]; and the stored image is no longer the uploaded one but an
    empty file.  The handler does go on to [predict_image], which now
    fails on a file that it could classify before preprocessing. *)
Theorem failed_write_destroys_image :
  let s1 := snd (primary env_write_fails leaf uploaded) in
  let s2 := snd (fallback env_write_fails leaf s1) in
  fst (primary env_write_fails leaf uploaded) = Raise OSError /\
  fst (fallback env_write_fails leaf s1) = Ok false /\
  preprocess_image_if_available env_write_fails leaf uploaded = (Ok false, s2) /\
  fs uploaded !! leaf = Some [Byte.xff; Byte.xd8; Byte.xff; Byte.xe0] /\
  fs s2 !! leaf = Some [] /\
  fst (preprocess_and_predict env_write_fails keras_reads_nonempty
         [constant_model [9 # 10; 1 # 10]%Q] (PyDict []) leaf uploaded)
    = Ok (PredictionError OSError) /\
  predict_image [constant_model [9 # 10; 1 # 10]%Q] (PyDict [])
                (keras_reads_nonempty (fs uploaded !! leaf))
    = Ok ("0", ((9 # 10) / 1)%Q).
Proof. vm_compute. repeat split. Qed.

(** C9.  Two runs in which the boolean and the file disagree: with the
    failing write above the preprocessor returns [False] and the file has
    changed; when [cv2.imwrite] returns [False], a value that line 104
    drops, the preprocessor returns [True] and the file is as before. *)
Theorem boolean_does_not_track_overwrite :
  (fst (preprocess_image_if_available env_write_fails leaf uploaded) = Ok false /\
   fs (snd (preprocess_image_if_available env_write_fails leaf uploaded)) !! leaf
     <> fs uploaded !! leaf) /\
  (fst (preprocess_image_if_available env_imwrite_returns_false leaf uploaded) = Ok true /\
   fs (snd (preprocess_image_if_available env_imwrite_returns_false leaf uploaded)) !! leaf
     = fs uploaded !! leaf).
Proof. vm_compute. repeat split. discriminate. Qed.

(** * Further properties *)

(** ** The reductions without rounding *)

Section RationalEnsemble.
Local Open Scope Q_scope.



(** *** [np.mean] *)


(** *** Lines 59-61 on rows of one positive length *)


End RationalEnsemble.

(** ** A single vector *)

Section AveragedRow.
Local Open Scope Q_scope.




End AveragedRow.

(** ** Loading the models *)

Section LoadedModels.
Context {A : Type} `{Number A}.

Lemma load_models_nil_iff (artifacts : list (option (result (@classifier A)))) :
  load_models artifacts = [] <-> Forall (fun a => forall m, a <> Some (Ok m)) artifacts.
Proof.
  split; [|apply load_models_none].
  induction artifacts as [|a artifacts IH]; intros Hl; [constructor|].
  destruct a as [[m|e]|]; simpl in Hl; try discriminate;
    (constructor; [intros m; discriminate | now apply IH]).
Qed.

(** X5.  With the image read, [predict_image] on the models of lines 15-22
    raises the "No models loaded" error exactly when no candidate file
    exists and loads. *)
Theorem no_models_error_iff_nothing_loaded
    (artifacts : list (option (result (@classifier A)))) (CLASS_MAP : pyval)
    (img : list A) :
  predict_image (load_models artifacts) CLASS_MAP (Ok img)
    = Raise (RuntimeError no_models_msg)
  <-> Forall (fun a => forall m, a <> Some (Ok m)) artifacts.
Proof.
  rewrite <- load_models_nil_iff. split.
  - intros Hp. destruct (load_models artifacts) as [|m ms] eqn:Hm; [reflexivity|].
    exfalso.
    apply models_loaded_other_failures in Hp; [|discriminate].
    destruct Hp as [Hp|[Hp|[Hp|Hp]]]; discriminate.
  - intros ->. reflexivity.
Qed.

(** The models are kept in the order of the candidate paths, and an
    artifact that is missing or fails to load changes nothing. *)
Lemma load_models_app (a b : list (option (result (@classifier A)))) :
  load_models (a ++ b) = load_models a ++ load_models b.
Proof.
  induction a as [|[[m|e]|] a IH]; simpl; [reflexivity| |assumption..].
  now rewrite IH.
Qed.
End LoadedModels.

(** ** The class map after loading *)

Lemma invert_items_unhashable items inv :
  forallb (fun kv => py_hashable (snd kv)) items = false ->
  exists e, invert_items items inv = Raise e.
Proof.
  revert inv. induction items as [|[k v] items IH]; intros inv Hh; simpl in *.
  - discriminate.
  - destruct (py_hashable v); [now apply IH | eauto].
Qed.

(** Label resolution returns exactly on the usable states. *)
Lemma label_for_is_Ok CLASS_MAP idx :
  is_Ok (label_for CLASS_MAP idx) = class_map_usable CLASS_MAP.
Proof.
  destruct (class_map_usable CLASS_MAP) eqn:Hu.
  - destruct (label_for_usable CLASS_MAP idx Hu) as [label ->]. reflexivity.
  - unfold label_for.
    destruct CLASS_MAP as [| | | | | |d];
      cbv beta iota delta [class_map_usable] in Hu;
      try (apply negb_false_iff in Hu; rewrite Hu; reflexivity).
    assert (Ht : py_truthy (PyDict d) = true) by (destruct d; [discriminate | reflexivity]).
    rewrite Ht. cbn [py_items rbind].
    destruct (invert_items_unhashable d [] Hu) as [e ->]. reflexivity.
Qed.

Lemma ints_of_items_int_items int_of_str items d :
  ints_of_items int_of_str items = Ok d ->
  exists cm,
    d = int_items cm /\
    map fst cm = map fst items /\
    Forall2 (fun item c => py_int int_of_str (snd item) = Ok (snd c)) items cm.
Proof.
  revert d. induction items as [|[k v] items IH]; intros d Hd; simpl in Hd.
  - injection Hd as <-. exists []. repeat split. constructor.
  - destruct (py_int int_of_str v) as [z|e] eqn:Hv; [|discriminate].
    destruct (ints_of_items int_of_str items) as [d'|e] eqn:Hd'; [|discriminate].
    injection Hd as <-. destruct (IH d' eq_refl) as (cm & -> & Hk & Hall).
    exists ((k, z) :: cm). repeat split.
    + simpl. now rewrite Hk.
    + constructor; assumption.
Qed.

Lemma ints_of_items_hashable int_of_str items d :
  ints_of_items int_of_str items = Ok d ->
  forallb (fun kv => py_hashable (snd kv)) items = true.
Proof.
  revert d. induction items as [|[k v] items IH]; intros d Hd; simpl in *; [reflexivity|].
  destruct (py_int int_of_str v) as [z|e] eqn:Hv; [|discriminate].
  destruct (ints_of_items int_of_str items) as [d'|e] eqn:Hd'; [|discriminate].
  rewrite (IH d' eq_refl), andb_true_r. now destruct v.
Qed.

Lemma load_class_map_usable int_of_str j :
  class_map_usable (load_class_map int_of_str (Some (Ok j))) = class_map_usable j.
Proof.
  unfold load_class_map.
  destruct j as [| | | | | |items]; try reflexivity.
  cbn [py_items rbind].
  destruct (ints_of_items int_of_str items) as [d|e] eqn:Hd; [|reflexivity].
  destruct (ints_of_items_int_items _ _ _ Hd) as (cm & -> & _ & _).
  rewrite class_map_usable_int_items. symmetry.
  apply (ints_of_items_hashable _ _ _ Hd).
Qed.

(** X6.  Whatever [json.load] returned, lines 64-68 return a label exactly
    when that value is falsy or a dict without a list or dict among its
    values; on every other value they raise, for every index. *)
Theorem label_resolution_fails_exactly_on_unusable_json
    (int_of_str : string -> option Z) (j : pyval) (idx : nat) :
  is_Ok (label_for (load_class_map int_of_str (Some (Ok j))) idx) = class_map_usable j.
Proof. now rewrite label_for_is_Ok, load_class_map_usable. Qed.

Lemma last_In {T : Type} (l : list T) (x : T) : last l = Some x -> In x l.
Proof.
  intros Hl. apply list_elem_of_In. apply last_Some in Hl as [l' ->].
  apply elem_of_app. right. now left.
Qed.

Lemma names_of_index_In cm i k :
  In k (names_of_index cm i) <-> In (k, i) cm.
Proof.
  unfold names_of_index. rewrite in_map_iff. split.
  - intros ([k' v] & <- & Hin). apply filter_In in Hin as [Hin Hv].
    simpl in *. apply Z.eqb_eq in Hv. now subst.
  - intros Hin. exists (k, i). split; [reflexivity|].
    apply filter_In. split; [assumption|]. simpl. apply Z.eqb_refl.
Qed.

(** X7.  When line 32 converts every value of the parsed object,
    [CLASS_MAP] is the converted dict: it holds ints only, under the names
    of the file in their order, and every label is one of those names or
    the index as a string. *)
Theorem converted_class_map_yields_file_names
    (int_of_str : string -> option Z) (items d : list (string * pyval)) (idx : nat) :
  ints_of_items int_of_str items = Ok d ->
  load_class_map int_of_str (Some (Ok (PyDict items))) = PyDict d /\
  Forall (fun kv => exists z, snd kv = PyInt z) d /\
  map fst d = map fst items /\
  exists label,
    label_for (PyDict d) idx = Ok label /\
    (label = py_str idx \/ In label (map fst items)).
Proof.
  intros Hd. split.
  { unfold load_class_map. cbn [py_items rbind]. now rewrite Hd. }
  destruct (ints_of_items_int_items _ _ _ Hd) as (cm & -> & Hk & _).
  split; [|split].
  - unfold int_items. apply Forall_forall. intros kv Hin.
    apply list_elem_of_In, in_map_iff in Hin as (c & <- & _). simpl. eauto.
  - rewrite <- Hk. unfold int_items. rewrite map_map. reflexivity.
  - rewrite label_for_int_items. eexists. split; [reflexivity|].
    destruct (last (names_of_index cm (Z.of_nat idx))) as [k|] eqn:Hlast; [|now left].
    right. simpl. rewrite <- Hk.
    apply last_In, names_of_index_In in Hlast.
    apply in_map_iff. now exists (k, Z.of_nat idx).
Qed.

(** X8.  In a class map that gives every index to one name at most, the
    name that the file gives to an index is the label of that index. *)
Theorem injective_class_map_round_trip
    (int_of_str : string -> option Z) (cm : list (string * Z)) (k : string) (idx : nat) :
  NoDup (map snd cm) ->
  In (k, Z.of_nat idx) cm ->
  label_for (load_class_map int_of_str (Some (Ok (PyDict (int_items cm))))) idx = Ok k.
Proof.
  intros Hnd Hin. rewrite load_class_map_ints, label_for_int_items. f_equal.
  destruct (last (names_of_index cm (Z.of_nat idx))) as [k'|] eqn:Hlast.
  - simpl. apply last_In, names_of_index_In in Hlast.
    clear -Hnd Hin Hlast. induction cm as [|[k0 v0] cm IH]; [destruct Hin|].
    simpl in Hnd. apply NoDup_cons in Hnd as [Hv0 Hnd].
    assert (Hfresh : forall k1, In (k1, v0) cm -> False).
    { intros k1 Hk1. apply Hv0. apply list_elem_of_In, in_map_iff. now exists (k1, v0). }
    destruct Hin as [Hin|Hin], Hlast as [Hlast|Hlast].
    + congruence.
    + injection Hin as _ ->. now destruct (Hfresh k').
    + injection Hlast as _ ->. now destruct (Hfresh k).
    + now apply IH.
  - apply last_None in Hlast.
    apply (proj2 (names_of_index_In cm (Z.of_nat idx) k)) in Hin.
    rewrite Hlast in Hin. destruct Hin.
Qed.

(** X9.  An index that the class map gives to no name is labelled by its
    decimal string. *)
Theorem missing_index_is_rendered_as_string
    (int_of_str : string -> option Z) (cm : list (string * Z)) (idx : nat) :
  (forall k, ~ In (k, Z.of_nat idx) cm) ->
  label_for (load_class_map int_of_str (Some (Ok (PyDict (int_items cm))))) idx
    = Ok (py_str idx).
Proof.
  intros Hno. rewrite load_class_map_ints, label_for_int_items. f_equal.
  destruct (last (names_of_index cm (Z.of_nat idx))) as [k|] eqn:Hlast; [|reflexivity].
  apply last_In, names_of_index_In in Hlast. now destruct (Hno k).
Qed.

Lemma to_uint_nonnil (n : nat) : Nat.to_uint n <> Decimal.Nil.
Proof.
  rewrite <- (Unsigned.of_to n) at 1. rewrite Unsigned.to_of. apply unorm_nonnil.
Qed.

Lemma py_str_inj (i j : nat) : py_str i = py_str j -> i = j.
Proof.
  unfold py_str. intros Heq.
  apply Unsigned.to_uint_inj.
  assert (Hs : NilZero.uint_of_string (NilZero.string_of_uint (Nat.to_uint i))
               = NilZero.uint_of_string (NilZero.string_of_uint (Nat.to_uint j)))
    by now rewrite Heq.
  rewrite !NilZero.usu in Hs by apply to_uint_nonnil. now injection Hs.
Qed.

(** X10.  Without a class map two indices have the same label only if
    they are the same index. *)
Theorem index_labels_are_distinct (CLASS_MAP : pyval) (i j : nat) :
  py_truthy CLASS_MAP = false ->
  label_for CLASS_MAP i = label_for CLASS_MAP j -> i = j.
Proof.
  unfold label_for. intros ->. intros [= Heq]. now apply py_str_inj.
Qed.

(** ** More on the preprocessor *)

Section MorePreprocess.
Variable env : environment.

Lemma max_scan_first (rest pre : list contour) (maxitem : contour) (maxval : Q)
    (mi : nat) (s s' : state) (c : contour) :
  first_of_largest_area env pre maxitem mi ->
  cv2_contourArea env maxitem = Ok maxval ->
  max_scan env maxitem maxval rest s = (Ok c, s') ->
  exists i, first_of_largest_area env (pre ++ rest) c i.
Proof.
  revert pre maxitem maxval mi s.
  induction rest as [|c1 rest IH]; intros pre maxitem maxval mi s Hinv Hval Hrun.
  - injection Hrun as <- <-. rewrite app_nil_r. eauto.
  - cbn [max_scan] in Hrun. unfold contourArea in Hrun. unfold_monad.
    cbn [log] in Hrun.
    destruct (cv2_contourArea env c1) as [v|e] eqn:Hv; [|discriminate].
    replace (pre ++ c1 :: rest) with ((pre ++ [c1]) ++ rest) by now rewrite <- app_assoc.
    destruct Hinv as (Hmi & a & Ha & Hall).
    assert (a = maxval) by congruence. subst a.
    assert (Hmilt : mi < length pre) by (apply lookup_lt_Some in Hmi; exact Hmi).
    destruct (Qle_bool v maxval) eqn:Hle; cbn [negb] in Hrun.
    + apply Qle_bool_iff in Hle.
      apply (IH (pre ++ [c1]) maxitem maxval mi) in Hrun; [assumption| |assumption].
      split; [now apply lookup_app_l_Some|].
      exists maxval. split; [assumption|]. intros j c' Hj.
      apply lookup_app_Some in Hj as [Hj|[Hlen Hj]]; [now apply Hall|].
      apply list_lookup_singleton_Some in Hj as [_ <-].
      exists v. repeat split; [assumption..|]. intros Hlt. lia.
    + apply Q_leb_false in Hle.
      apply (IH (pre ++ [c1]) c1 v (length pre)) in Hrun; [assumption| |assumption].
      split.
      { rewrite lookup_app_r by lia. now rewrite Nat.sub_diag. }
      exists v. split; [assumption|]. intros j c' Hj.
      apply lookup_app_Some in Hj as [Hj|[Hlen Hj]].
      * destruct (Hall j c' Hj) as (a' & Ha' & Hle' & _).
        exists a'. repeat split; [assumption|lra|intros _; lra].
      * apply list_lookup_singleton_Some in Hj as [Hj0 <-].
        exists v. repeat split; [assumption|lra|]. intros Hlt. lia.
Qed.

Lemma max_by_contourArea_first (c0 : contour) (rest : list contour) (s s' : state)
    (c : contour) :
  max_by_contourArea env c0 rest s = (Ok c, s') ->
  exists i, first_of_largest_area env (c0 :: rest) c i.
Proof.
  unfold max_by_contourArea, contourArea. unfold_monad. cbn [log].
  destruct (cv2_contourArea env c0) as [v0|e] eqn:Hv0; [|discriminate].
  intros Hrun. apply (max_scan_first rest [c0] c0 v0 0) in Hrun; [assumption| |assumption].
  split; [reflexivity|]. exists v0. split; [assumption|].
  intros j c' Hj. apply list_lookup_singleton_Some in Hj as [-> <-].
  exists v0. repeat split; [assumption|lra|lia].
Qed.

Lemma primary_other_files (img_path p : string) (s s' : state) r :
  primary env img_path s = (r, s') -> p <> img_path -> fs s' !! p = fs s !! p.
Proof.
  intros Hrun Hp. destruct r as [b|e].
  - destruct (primary_returns _ _ _ _ _ Hrun) as (_ & ? & ? & _ & _ & _ & _ & -> & _).
    now apply lookup_insert_ne.
  - destruct (primary_raises _ _ _ _ _ Hrun) as [_ [->|(? & ? & ? & _ & _ & _ & ->)]];
      [reflexivity | now apply lookup_insert_ne].
Qed.

Lemma fallback_other_files (img_path p : string) (s s' : state) r :
  fallback env img_path s = (r, s') -> p <> img_path -> fs s' !! p = fs s !! p.
Proof.
  intros Hrun Hp.
  destruct r as [[|]|e].
  - destruct (fallback_run_inversion _ _ _ _ Hrun) as (run & _ & _ & ->).
    destruct (run_saved run); [now apply lookup_insert_ne | reflexivity].
  - now rewrite (fallback_failure_keeps_files _ _ _ _ _ Hrun).
  - now rewrite (fallback_failure_keeps_files _ _ _ _ _ Hrun).
Qed.

Lemma preprocess_other_files (img_path p : string) (s s' : state) r :
  preprocess_image_if_available env img_path s = (r, s') ->
  p <> img_path ->
  fs s' !! p = fs s !! p.
Proof.
  intros Hrun Hp.
  destruct (preprocess_cases env img_path s)
    as [(s1 & Hprim & Hrun')|(e & s1 & r' & s2 & Hprim & Hf & Hrun')];
    rewrite Hrun' in Hrun; injection Hrun as _ <-.
  - now apply (primary_other_files _ _ _ _ _ Hprim).
  - rewrite (fallback_other_files _ _ _ _ _ Hf Hp).
    now apply (primary_other_files _ _ _ _ _ Hprim).
Qed.

(** X11.  The preprocessor changes no file but the one at [img_path]. *)
Theorem preprocessor_touches_one_file (img_path p : string) (s s' : state) r :
  preprocess_image_if_available env img_path s = (r, s') ->
  p <> img_path ->
  fs s' !! p = fs s !! p.
Proof. apply preprocess_other_files. Qed.

(** X12.  A fallback that raises or returns [False] leaves every file as
    it was. *)
Theorem failing_fallback_changes_no_file (img_path : string) (s s' : state) r :
  fallback env img_path s = (r, s') -> r <> Ok true -> fs s' = fs s.
Proof. apply fallback_failure_keeps_files. Qed.

(** X13.  When the preprocessor returns [False], every file is as it was,
    unless the write of line 84 raised; the file then holds the bytes that
    reached it. *)
Theorem false_means_unchanged_or_failed_write (img_path : string) (s s' : state) :
  preprocess_image_if_available env img_path s = (Ok false, s') ->
  fs s' = fs s \/
  exists input output e persisted,
    fs s !! img_path = Some input /\
    rembg_remove env input = Ok output /\
    file_write env img_path output = WriteRaises e persisted /\
    fs s' = <[img_path := take persisted output]> (fs s).
Proof. apply preprocess_false_files. Qed.

(** X14.  When the preprocessor returns [True], either the file holds the
    whole result of [remove], or the primary strategy raised and the
    fallback ran to its end, leaving what [cv2.imwrite] saved. *)
Theorem true_means_removal_stored_or_fallback_completed
    (img_path : string) (s s' : state) :
  preprocess_image_if_available env img_path s = (Ok true, s') ->
  (exists input output,
     fs s !! img_path = Some input /\
     rembg_remove env input = Ok output /\
     fs s' = <[img_path := output]> (fs s)) \/
  (exists e s1 r,
     primary env img_path s = (Raise e, s1) /\
     crop_run_of env (fs s1 !! img_path) img_path r /\
     fs s' = match run_saved r with
             | Some b => <[img_path := b]> (fs s1)
             | None => fs s1
             end).
Proof. apply preprocess_true_files. Qed.

(** X15.  [max(contours, key=cv2.contourArea)] calls [contourArea] once on
    each contour, in order, and returns the first contour among those of
    largest area. *)
Theorem max_selects_first_largest_contour (c0 : contour) (rest : list contour)
    (s s' : state) (c : contour) :
  max_by_contourArea env c0 rest s = (Ok c, s') ->
  s' = appended s (map EvContourArea (c0 :: rest)) /\
  exists i, first_of_largest_area env (c0 :: rest) c i.
Proof.
  intros Hrun. split; [|now apply (max_by_contourArea_first c0 rest s s')].
  revert Hrun. unfold max_by_contourArea, contourArea. unfold_monad. cbn [log].
  destruct (cv2_contourArea env c0) as [v0|e]; [|discriminate].
  intros Hrun. apply max_scan_run in Hrun as [-> _].
  unfold appended. cbn [fs trace map]. now rewrite <- app_assoc.
Qed.
End MorePreprocess.

(** ** The box cut out of the image *)

(** X16.  [img[y:y+h, x:x+w]] never raises: it has the rows [y] to [y+h]
    that the image has, each cut to the columns [x] to [x+w] that the row
    has, and its element [(i, j)] is the element [(y+i, x+j)] of the
    image. *)
Theorem crop_box_is_the_clamped_box (img : image) (x y w h : nat) :
  length (crop_box img x y w h) = Nat.min h (length img - y) /\
  forall i row,
    crop_box img x y w h !! i = Some row ->
    exists src,
      img !! (y + i) = Some src /\
      length row = Nat.min w (length src - x) /\
      forall j, j < w -> row !! j = src !! (x + j).
Proof. exact (crop_box_cut img x y w h). Qed.

(** ** File names that [allowed_file] accepts *)

Lemma rfind_dot_dotless (s : string) :
  forall i, rfind_dot s i = None <-> dotless s = true.
Proof.
  induction s as [|c s IH]; intros i; cbn [rfind_dot dotless].
  - tauto.
  - specialize (IH (S i)). destruct (rfind_dot s (S i)) as [j|].
    + split; [discriminate|]. intros Hd. apply andb_true_iff in Hd as [_ Hd].
      apply IH in Hd. discriminate.
    + destruct (Ascii.eqb c ".") eqn:Hc; cbn [negb andb].
      * split; discriminate.
      * split; [intros _; now apply IH | reflexivity].
Qed.

Lemma rfind_dot_Some (s : string) :
  forall i j, rfind_dot s i = Some j ->
    exists pre post, s = (pre ++ String "." post)%string /\ j = i + String.length pre /\
                     dotless post = true.
Proof.
  induction s as [|c s IH]; intros i j; cbn [rfind_dot]; [discriminate|].
  destruct (rfind_dot s (S i)) as [k|] eqn:Hr.
  - intros [= <-]. destruct (IH _ _ Hr) as (pre & post & -> & -> & Hd).
    exists (String c pre), post. cbn. split; [reflexivity|]. split; [lia|assumption].
  - destruct (Ascii.eqb c ".") eqn:Hc; [|discriminate].
    intros [= <-]. apply Ascii.eqb_eq in Hc as ->.
    exists "", s. cbn. split; [reflexivity|]. split; [lia|].
    now apply (rfind_dot_dotless s (S i)).
Qed.

Lemma rfind_dot_app (pre post : string) :
  dotless post = true ->
  forall i, rfind_dot (pre ++ String "." post)%string i = Some (i + String.length pre).
Proof.
  intros Hd. induction pre as [|c pre IH]; intros i; simpl.
  - apply (rfind_dot_dotless post (S i)) in Hd. rewrite Hd. f_equal. lia.
  - rewrite IH. f_equal. lia.
Qed.

Lemma substring_all (t : string) : String.substring 0 (String.length t) t = t.
Proof. induction t as [|c t IH]; simpl; [reflexivity | now rewrite IH]. Qed.

Lemma substring_app_r (pre t : string) :
  String.substring (String.length pre)
    (String.length (pre ++ t)%string - String.length pre) (pre ++ t)%string = t.
Proof.
  induction pre as [|c pre IH]; simpl.
  - rewrite Nat.sub_0_r. apply substring_all.
  - exact IH.
Qed.

Lemma length_append (a b : string) :
  String.length (a ++ b)%string = String.length a + String.length b.
Proof. induction a as [|c a IH]; simpl; [reflexivity | now rewrite IH]. Qed.

(** The suffix of a name is not empty exactly when the name is a
    non-empty stem, a dot, and a non-empty extension without a dot. *)
Lemma path_suffix_spec (name suffix : string) :
  suffix <> "" ->
  (path_suffix name = suffix <->
   exists stem ext, name = (stem ++ String "." ext)%string /\ suffix = String "." ext /\
                    stem <> "" /\ ext <> "" /\ dotless ext = true).
Proof.
  intros Hne. unfold path_suffix. split.
  - destruct (rfind_dot name 0) as [i|] eqn:Hr; [|congruence].
    destruct (rfind_dot_Some _ _ _ Hr) as (pre & post & -> & -> & Hd).
    cbn [Nat.add]. rewrite length_append. cbn [String.length].
    destruct (0 <? String.length pre) eqn:H0; cbn [andb]; [|congruence].
    destruct (S (String.length pre) <? String.length pre + S (String.length post)) eqn:H1;
      [|congruence].
    intros <-. exists pre, post.
    pose proof (substring_app_r pre (String "." post)) as Hs.
    rewrite length_append in Hs. cbn [String.length] in Hs. rewrite Hs.
    apply Nat.ltb_lt in H0, H1.
    repeat split; [| |assumption].
    + intros ->. cbn in H0. lia.
    + intros ->. cbn in H1. lia.
  - intros (stem & ext & -> & -> & Hstem & Hext & Hd).
    rewrite (rfind_dot_app stem ext Hd 0). cbn [Nat.add].
    pose proof (substring_app_r stem (String "." ext)) as Hs.
    rewrite Hs. rewrite length_append. cbn [String.length].
    destruct stem as [|c stem]; [congruence|]. destruct ext as [|c' ext]; [congruence|].
    cbn [String.length].
    replace (0 <? S (String.length stem)) with true by (symmetry; apply Nat.ltb_lt; lia).
    replace (S (S (String.length stem)) <? S (String.length stem) + S (S (String.length ext)))
      with true by (symmetry; apply Nat.ltb_lt; lia).
    reflexivity.
Qed.

Lemma lower_ascii_dot (c : ascii) :
  Ascii.eqb (lower_ascii c) "." = Ascii.eqb c ".".
Proof.
  destruct c as [[] [] [] [] [] [] [] []]; reflexivity.
Qed.

Lemma py_lower_dotless (s : string) : dotless (py_lower s) = dotless s.
Proof.
  induction s as [|c s IH]; cbn; [reflexivity|].
  now rewrite lower_ascii_dot, IH.
Qed.

Lemma py_lower_nil (s : string) : py_lower s = "" <-> s = "".
Proof. destruct s; cbn; split; congruence. Qed.

(** X17.  [allowed_file] accepts a file name exactly when the last
    component of its path is a non-empty stem, a dot, and an extension that
    is [jpg], [jpeg], [png] or [bmp] in any mix of upper and lower case.
    A name whose only dot is its first character, such as [.jpg], has no
    stem and is refused. *)
Theorem allowed_file_accepts_exactly_image_names (filename : string) :
  allowed_file filename = true <->
  exists stem ext,
    path_name filename = (stem ++ "." ++ ext)%string /\
    stem <> "" /\
    In (py_lower ext) ["jpg"; "jpeg"; "png"; "bmp"].
Proof.
  unfold allowed_file, ALLOWED_EXT. rewrite bool_decide_eq_true.
  set (name := path_name filename). split.
  - intros Hin.
    assert (Hne : path_suffix name <> "").
    { intros Heq. rewrite Heq in Hin. apply list_elem_of_In in Hin.
      simpl in Hin. intuition discriminate. }
    destruct (proj1 (path_suffix_spec name (path_suffix name) Hne) eq_refl)
      as (stem & ext & Hname & Hsuf & Hstem & Hext & Hd).
    exists stem, ext. split; [exact Hname|]. split; [assumption|].
    rewrite Hsuf in Hin. cbn [py_lower] in Hin.
    change (lower_ascii ".") with "."%char in Hin.
    apply list_elem_of_In in Hin. simpl in Hin. simpl.
    destruct Hin as [Hin|[Hin|[Hin|[Hin|[]]]]]; injection Hin as <-; tauto.
  - intros (stem & ext & Hname & Hstem & Hin).
    assert (Hd : dotless ext = true).
    { rewrite <- py_lower_dotless.
      cbn in Hin. destruct Hin as [<-|[<-|[<-|[<-|[]]]]]; reflexivity. }
    assert (Hext : ext <> "").
    { intros ->. cbn in Hin. intuition discriminate. }
    assert (Hsuf : path_suffix name = String "." ext).
    { apply path_suffix_spec; [discriminate|]. exists stem, ext. auto. }
    rewrite Hsuf. cbn [py_lower]. change (lower_ascii ".") with "."%char.
    cbn in Hin. destruct Hin as [<-|[<-|[<-|[<-|[]]]]];
      apply list_elem_of_In; simpl; tauto.
Qed.

(** ** The request handlers *)

Section PreprocessFiles.
Variable env : environment.

Lemma insert_present (m : gmap string bytes) (p q : string) (b : bytes) :
  is_Some (m !! q) -> is_Some (<[p := b]> m !! q).
Proof.
  intros Hq. destruct (decide (q = p)) as [->|Hne].
  - rewrite lookup_insert_eq. eauto.
  - now rewrite lookup_insert_ne.
Qed.

Lemma primary_present (img_path q : string) (s s' : state) r :
  primary env img_path s = (r, s') -> is_Some (fs s !! q) -> is_Some (fs s' !! q).
Proof.
  intros Hrun Hq. destruct r as [b|e].
  - destruct (primary_returns _ _ _ _ _ Hrun) as (_ & ? & ? & _ & _ & _ & _ & -> & _).
    now apply insert_present.
  - destruct (primary_raises _ _ _ _ _ Hrun) as [_ [->|(? & ? & ? & _ & _ & _ & ->)]];
      [assumption | now apply insert_present].
Qed.

Lemma fallback_present (img_path q : string) (s s' : state) r :
  fallback env img_path s = (r, s') -> is_Some (fs s !! q) -> is_Some (fs s' !! q).
Proof.
  intros Hrun Hq.
  destruct r as [[|]|e].
  - destruct (fallback_run_inversion _ _ _ _ Hrun) as (run & _ & _ & ->).
    destruct (run_saved run); [now apply insert_present | assumption].
  - now rewrite (fallback_failure_keeps_files _ _ _ _ _ Hrun).
  - now rewrite (fallback_failure_keeps_files _ _ _ _ _ Hrun).
Qed.

(** The preprocessor deletes no file. *)
Lemma preprocess_present (img_path q : string) (s s' : state) r :
  preprocess_image_if_available env img_path s = (r, s') ->
  is_Some (fs s !! q) -> is_Some (fs s' !! q).
Proof.
  intros Hrun Hq.
  destruct (preprocess_cases env img_path s)
    as [(s1 & Hprim & Hrun')|(e & s1 & r' & s2 & Hprim & Hf & Hrun')];
    rewrite Hrun' in Hrun; injection Hrun as _ <-.
  - eapply primary_present; eassumption.
  - eapply fallback_present; [eassumption|]. eapply primary_present; eassumption.
Qed.
End PreprocessFiles.

Section HandlerProperties.
Context {A : Type} `{Number A}.
Variable env : environment.
Variable web : web_environment.
Variable keras_load_img : option bytes -> result (list A).
Variable models : list (@classifier A).
Variable CLASS_MAP : pyval.

Lemma preprocess_and_predict_cases (save_path : string) (s : state) :
  exists b s',
    preprocess_image_if_available env save_path s = (Ok b, s') /\
    preprocess_and_predict env keras_load_img models CLASS_MAP save_path s =
      (Ok (response_of (predict_image models CLASS_MAP (keras_load_img (fs s' !! save_path)))),
       s').
Proof.
  destruct (preprocess_never_raises env save_path s) as (b & s' & Hp).
  exists b, s'. split; [assumption|].
  eapply preprocess_and_predict_run; eassumption.
Qed.

Lemma save_to_files (path : string) (outcome : bytes + save_failure) (s s' : state) r :
  save_to path outcome s = (r, s') ->
  (forall p, p <> path -> fs s' !! p = fs s !! p) /\
  (r = Ok tt -> is_Some (fs s' !! path)).
Proof.
  unfold save_to, store. unfold_monad.
  destruct outcome as [b|[e [b|]]]; intros [= <- <-]; cbn [fs]; split;
    try discriminate; try reflexivity.
  - intros p Hp. now apply lookup_insert_ne.
  - intros _. rewrite lookup_insert_eq. eauto.
  - intros p Hp. now apply lookup_insert_ne.
Qed.

Lemma save_predict_record_run outcome info_lines save_history username save_name
    (s : app_state A) r s' :
  save_predict_record env web keras_load_img models CLASS_MAP outcome info_lines
    save_history username save_name s = (r, s') ->
  recorded_as web info_lines save_history username save_name s r s' /\
  client s' = client s /\
  forall p, p <> upload_path web save_name -> fs (disk s') !! p = fs (disk s) !! p.
Proof.
  unfold save_predict_record.
  destruct (save_to (upload_path web save_name) outcome (disk s)) as [[[]|e] disk1] eqn:Hsave.
  2:{ intros [= <- <-]. cbn. split; [now constructor|]. split; [reflexivity|].
      now apply (save_to_files _ _ _ _ _ Hsave). }
  destruct (save_to_files _ _ _ _ _ Hsave) as [Hother Hsaved].
  specialize (Hsaved eq_refl).
  destruct (preprocess_and_predict_cases (upload_path web save_name) disk1)
    as (b & disk2 & Hpre & ->).
  assert (Hother2 : forall p, p <> upload_path web save_name ->
                               fs disk2 !! p = fs (disk s) !! p).
  { intros p Hp. rewrite <- (Hother p Hp).
    eapply preprocess_other_files; eassumption. }
  assert (Hpresent : is_Some (fs disk2 !! upload_path web save_name)).
  { eapply preprocess_present; eassumption. }
  destruct (response_of _) as [label confidence|e].
  - destruct (leaf_info web info_lines label (db s)) as [e|[sci ben]] eqn:Hinfo.
    + intros [= <- <-]. cbn. split; [|auto]. now apply lookup_raised with label.
    + intros [= <- <-]. cbn. split; [|auto]. now constructor.
  - intros [= <- <-]. cbn. split; [|auto]. now constructor.
Qed.

Lemma upload_run (file : option (string * bytes)) (s : app_state A) r s' :
  upload env web keras_load_img models CLASS_MAP file s = (r, s') ->
  (rejected r /\ s' = s) \/
  exists user_id username file_filename data,
    current_user (client s) = Some (user_id, username) /\
    file = Some (file_filename, data) /\
    file_filename <> "" /\
    allowed_file file_filename = true /\
    let save_name := upload_save_name web username file_filename in
    recorded_as web [171; 173] (save_history_upload web) username save_name s r s' /\
    client s' = client s /\
    forall p, p <> upload_path web save_name -> fs (disk s') !! p = fs (disk s) !! p.
Proof.
  unfold upload.
  destruct (current_user (client s)) as [[user_id username]|] eqn:Huser.
  2:{ intros [= <- <-]. left. now split. }
  destruct file as [[file_filename data]|].
  2:{ intros [= <- <-]. left. now split. }
  destruct (String.eqb file_filename "") eqn:Hname.
  { intros [= <- <-]. left. now split. }
  destruct (allowed_file file_filename) eqn:Hallowed; cbn [negb].
  2:{ intros [= <- <-]. left. now split. }
  intros Hrun. right. exists user_id, username, file_filename, data.
  apply String.eqb_neq in Hname.
  repeat (split; [first [reflexivity | assumption]|]).
  cbv zeta. eapply save_predict_record_run. eassumption.
Qed.

Lemma predict_base64_run (data : pyval) (s : app_state A) r s' :
  predict_base64 env web keras_load_img models CLASS_MAP data s = (r, s') ->
  ((rejected r \/ exists e, r = InternalServerError (PythonException e)) /\ s' = s) \/
  exists user_id username,
    current_user (client s) = Some (user_id, username) /\
    let save_name := capture_save_name web username in
    recorded_as web [234; 235] (save_history_base64 web) username save_name s r s' /\
    client s' = client s /\
    forall p, p <> upload_path web save_name -> fs (disk s') !! p = fs (disk s) !! p.
Proof.
  unfold predict_base64.
  destruct (current_user (client s)) as [[user_id username]|] eqn:Huser.
  2:{ intros [= <- <-]. left. split; [now left | reflexivity]. }
  destruct (image_field data) as [[img_b64|]|e].
  2:{ intros [= <- <-]. left. split; [now left | reflexivity]. }
  2:{ intros [= <- <-]. left. split; [right; eauto | reflexivity]. }
  destruct (match img_b64 with PyStr t => b64_open_rgb web t | _ => Raise TypeError end)
    as [img|e].
  2:{ intros [= <- <-]. left. split; [now left | reflexivity]. }
  intros Hrun. right. exists user_id, username. split; [reflexivity|].
  cbv zeta. eapply save_predict_record_run. eassumption.
Qed.

Lemma recorded_as_not_rejected info_lines save_history username save_name
    (s : app_state A) r s' :
  recorded_as web info_lines save_history username save_name s r s' -> ~ rejected r.
Proof. now destruct 1. Qed.

(** X18.  A request that [upload] or [predict_base64] turns away, with
    the redirect to the login page or with one of the 400 answers "No file
    part", "No selected file", "Invalid file type", "No image provided",
    "Invalid image data", leaves the files, the database and the session
    as they were. *)
Theorem rejected_requests_change_nothing (file : option (string * bytes)) (data : pyval)
    (s : app_state A) (r : http_response A) (s' : app_state A) :
  upload env web keras_load_img models CLASS_MAP file s = (r, s') \/
  predict_base64 env web keras_load_img models CLASS_MAP data s = (r, s') ->
  rejected r ->
  s' = s.
Proof.
  intros [Hrun|Hrun] Hr.
  - destruct (upload_run _ _ _ _ Hrun) as [[_ ->]|(? & ? & ? & ? & _ & _ & _ & _ & Hrec & _)];
      [reflexivity|].
    now apply recorded_as_not_rejected in Hrec.
  - destruct (predict_base64_run _ _ _ _ Hrun) as [[_ ->]|(? & ? & _ & Hrec & _)];
      [reflexivity|].
    now apply recorded_as_not_rejected in Hrec.
Qed.

(** X20.  When [upload] answers 500 with "Prediction error", the
    database and the session are as before the request, and the uploaded
    file is on disk under its save name: it is not removed. *)
Theorem failed_prediction_keeps_the_upload (file : option (string * bytes))
    (s : app_state A) (e : exn) (s' : app_state A) :
  upload env web keras_load_img models CLASS_MAP file s = (JsonPredictionError e, s') ->
  db s' = db s /\
  client s' = client s /\
  exists user_id username file_filename data,
    current_user (client s) = Some (user_id, username) /\
    file = Some (file_filename, data) /\
    is_Some (fs (disk s') !! upload_path web (upload_save_name web username file_filename)).
Proof.
  intros Hrun.
  destruct (upload_run _ _ _ _ Hrun)
    as [[[] _]|(uid & u & fn & d & Huser & -> & _ & _ & Hrec & Hclient & _)].
  inversion Hrec; subst. split; [assumption|]. split; [assumption|].
  exists uid, u, fn, d. auto.
Qed.

(** X21.  When [upload] answers with a prediction, the tables [users]
    and [LeafInfo] are as before, and the table [history] is as before, or
    has been created empty, or holds one more row at its end: the user
    name, the save name, the label, the confidence and the time of the
    request.  It holds that row whenever no [sqlite3] call on lines
    185-190 fails. *)
Theorem answered_upload_is_recorded_at_most_once (file : option (string * bytes))
    (s : app_state A) (label : string) (confidence : A) (scientific_name benefits : string)
    (s' : app_state A) :
  upload env web keras_load_img models CLASS_MAP file s =
    (JsonPrediction label confidence scientific_name benefits, s') ->
  exists user_id username file_filename data,
    current_user (client s) = Some (user_id, username) /\
    file = Some (file_filename, data) /\
    users (db s') = users (db s) /\
    LeafInfo (db s') = LeafInfo (db s) /\
    let rows := default [] (history (db s)) in
    let row := new_history_row web rows username
                 (upload_save_name web username file_filename) label confidence in
    (history (db s') = history (db s) \/
     history (db s') = Some rows \/
     history (db s') = Some (rows ++ [row])) /\
    (first_fault web [185; 187; 188; 190] = None ->
     history (db s') = Some (rows ++ [row])).
Proof.
  intros Hrun.
  destruct (upload_run _ _ _ _ Hrun)
    as [[[] _]|(uid & u & fn & d & Huser & -> & _ & _ & Hrec & _ & _)].
  inversion Hrec as [| | |? ? ? ? ? Hdb _ _]; subst.
  exists uid, u, fn, d. split; [assumption|]. split; [reflexivity|].
  rewrite Hdb. unfold save_history_upload. cbn [first_fault].
  destruct (sqlite_fault web 185), (sqlite_fault web 187), (sqlite_fault web 188),
    (sqlite_fault web 190); cbn;
    (split; [reflexivity|]); (split; [reflexivity|]);
    (split; [tauto | first [discriminate | intros _; reflexivity]]).
Qed.

(** X22.  While the table [LeafInfo] does not exist, neither [upload]
    nor [predict_base64] answers with a prediction, and neither writes to
    the database: the lookup of lines 173 and 235 is outside every
    [try]. *)
Theorem no_answer_without_LeafInfo_table (file : option (string * bytes)) (data : pyval)
    (s : app_state A) (r : http_response A) (s' : app_state A) :
  LeafInfo (db s) = None ->
  upload env web keras_load_img models CLASS_MAP file s = (r, s') \/
  predict_base64 env web keras_load_img models CLASS_MAP data s = (r, s') ->
  db s' = db s /\
  forall label confidence scientific_name benefits,
    r <> JsonPrediction label confidence scientific_name benefits.
Proof.
  intros Hnone Hrun.
  assert (Hinfo : forall lines label sb, leaf_info web lines label (db s) <> inr sb).
  { intros lines label sb. unfold leaf_info. rewrite Hnone.
    now destruct (first_fault web lines). }
  assert (Hrec : forall lines sh u n,
             recorded_as web lines sh u n s r s' ->
             db s' = db s /\
             forall label confidence scientific_name benefits,
               r <> JsonPrediction label confidence scientific_name benefits).
  { intros lines sh u n Hrec.
    inversion Hrec as [| | |? ? ? ? ? _ _ Hl]; subst;
      try (split; [assumption | discriminate]).
    now apply Hinfo in Hl. }
  destruct Hrun as [Hrun|Hrun].
  - destruct (upload_run _ _ _ _ Hrun) as [[Hr ->]|(? & ? & ? & ? & _ & _ & _ & _ & Hrec' & _)].
    + split; [reflexivity|]. intros ? ? ? ? ->. exact Hr.
    + eapply Hrec; eassumption.
  - destruct (predict_base64_run _ _ _ _ Hrun) as [[Hr ->]|(? & ? & _ & Hrec' & _)].
    + split; [reflexivity|]. intros ? ? ? ? ->. destruct Hr as [[]|[? [=]]].
    + eapply Hrec; eassumption.
Qed.

(** X23.  [predict_base64] never creates the table [history], which
    [upload] creates on line 187: while the table does not exist, the
    database after a capture is the database before it, whatever the
    answer is. *)
Theorem predict_base64_never_creates_history (data : pyval) (s : app_state A) :
  history (db s) = None ->
  db (snd (predict_base64 env web keras_load_img models CLASS_MAP data s)) = db s.
Proof.
  intros Hnone.
  destruct (predict_base64 env web keras_load_img models CLASS_MAP data s) as [r s'] eqn:Hrun.
  cbn [snd].
  destruct (predict_base64_run _ _ _ _ Hrun) as [[_ ->]|(? & ? & _ & Hrec & _)];
    [reflexivity|].
  inversion Hrec as [| | |? ? ? ? ? Hdb _ _]; subst; try assumption.
  rewrite Hdb. unfold save_history_base64. rewrite Hnone.
  now destruct (first_fault web [234; 235]), (first_fault web [247; 248; 250]).
Qed.
End HandlerProperties.

(** ** The data URL of a capture *)

Lemma commaless_contains (header rest : string) :
  py_str_contains "," (header ++ String "," rest)%string = true.
Proof.
  induction header as [|c header IH]; simpl.
  - reflexivity.
  - rewrite IH. apply orb_true_r.
Qed.

Lemma commaless_not_contains (t : string) :
  commaless t = true -> py_str_contains "," t = false.
Proof.
  induction t as [|c t IH]; cbn [commaless py_str_contains py_startswith];
    [reflexivity|].
  intros Hc. apply andb_true_iff in Hc as [Hc Ht].
  apply negb_true_iff in Hc. rewrite (IH Ht), orb_false_r, andb_true_r.
  now rewrite Ascii.eqb_sym.
Qed.

Lemma after_comma_app (header rest : string) :
  commaless header = true ->
  after_comma (header ++ String "," rest)%string = rest.
Proof.
  induction header as [|c header IH]; [reflexivity|].
  cbn [commaless]. intros Hc. apply andb_true_iff in Hc as [Hc Ht].
  apply negb_true_iff in Hc.
  change (String c header ++ String "," rest)%string
    with (String c (header ++ String "," rest)).
  cbn [after_comma]. rewrite Hc. now apply IH.
Qed.

(** X24.  For a JSON object whose ["image"] is a string, lines 206-210
    bind [img_b64] to that string when it has no comma, and to the
    payload when it is [header,payload] with a header without a comma. *)
Theorem data_url_header_is_dropped (d : list (string * pyval)) (key t : string) :
  List.find (fun kv => String.eqb (fst kv) "image") d = Some (key, PyStr t) ->
  (commaless t = true -> image_field (PyDict d) = Ok (Some (PyStr t))) /\
  (forall header payload,
     commaless header = true ->
     t = (header ++ "," ++ payload)%string ->
     image_field (PyDict d) = Ok (Some (PyStr payload))).
Proof.
  intros Hfind. unfold image_field.
  assert (Htruthy : py_truthy (PyDict d) = true).
  { destruct d; [discriminate | reflexivity]. }
  rewrite Htruthy, Hfind. cbn [negb snd without_header py_contains rbind]. split.
  - intros Hc. now rewrite (commaless_not_contains t Hc).
  - intros header payload Hc ->. change ("," ++ payload)%string with (String "," payload).
    rewrite commaless_contains. cbn. now rewrite after_comma_app.
Qed.

(** ** Accounts *)

Section Accounts.
Context {A : Type}.
Variable web : web_environment.

Lemma find_user_None (username : string) (rows : list users_row) :
  find_user username rows = None -> ~ In username (map users_username rows).
Proof.
  unfold find_user. induction rows as [|r rows IH]; simpl; [tauto|].
  destruct (String.eqb (users_username r) username) eqn:Heq; [discriminate|].
  apply String.eqb_neq in Heq. intros Hnone [Hin|Hin]; [contradiction|].
  now apply IH.
Qed.

Lemma find_user_app (username : string) (rows : list users_row) (row : users_row) :
  find_user username rows = None ->
  users_username row = username ->
  find_user username (rows ++ [row]) = Some row.
Proof.
  unfold find_user. intros Hnone Hname. induction rows as [|r rows IH]; simpl in *.
  - apply String.eqb_eq in Hname. now rewrite Hname.
  - destruct (String.eqb (users_username r) username); [discriminate | now apply IH].
Qed.

(** What [register] does to the database, and that it does nothing
    else. *)
Lemma register_run (method : string) (form : string -> option string)
    (s : app_state A) r s' :
  register web method form s = (r, s') ->
  disk s' = disk s /\ client s' = client s /\
  history (db s') = history (db s) /\ LeafInfo (db s') = LeafInfo (db s) /\
  (r <> Redirect "login" /\
   (users (db s') = users (db s) \/
    users (db s') = Some (default [] (users (db s)))) \/
   exists u password,
     form "username" = Some u /\ form "password" = Some password /\
     strip web u <> "" /\ password <> "" /\
     find_user (strip web u) (default [] (users (db s))) = None /\
     r = Redirect "login" /\
     users (db s') =
       Some (default [] (users (db s)) ++
             [ {| users_id := next_id (map users_id (default [] (users (db s))));
                  users_username := strip web u;
                  users_password := generate_password_hash web password |} ])).
Proof.
  unfold register.
  assert (Hsame : forall r0 : http_response A, r0 <> Redirect "login" ->
            disk s = disk s /\ client s = client s /\
            history (db s) = history (db s) /\ LeafInfo (db s) = LeafInfo (db s) /\
            (r0 <> Redirect "login" /\
             (users (db s) = users (db s) \/
              users (db s) = Some (default [] (users (db s)))) \/
             exists u password,
               form "username" = Some u /\ form "password" = Some password /\
               strip web u <> "" /\ password <> "" /\
               find_user (strip web u) (default [] (users (db s))) = None /\
               r0 = Redirect "login" /\
               users (db s) =
                 Some (default [] (users (db s)) ++
                       [ {| users_id := next_id (map users_id (default [] (users (db s))));
                            users_username := strip web u;
                            users_password := generate_password_hash web password |} ])))
    by (intros r0 Hr0; repeat (split; [reflexivity|]); left; split; [assumption | now left]).
  destruct (String.eqb method "POST"); [|intros [= <- <-]; now apply Hsame].
  destruct (form "username") as [u|] eqn:Hu; [|intros [= <- <-]; now apply Hsame].
  destruct (form "password") as [password|] eqn:Hp; [|intros [= <- <-]; now apply Hsame].
  destruct (String.eqb (strip web u) "") eqn:Hu0; cbn [orb];
    [intros [= <- <-]; now apply Hsame|].
  destruct (String.eqb password "") eqn:Hp0; [intros [= <- <-]; now apply Hsame|].
  apply String.eqb_neq in Hu0, Hp0.
  destruct (first_fault web [74; 76]); [intros [= <- <-]; now apply Hsame|].
  clear Hsame.
  destruct (sqlite_fault web 78) as [e|].
  { destruct e; intros [= <- <-]; cbn; repeat (split; [reflexivity|]);
      left; (split; [discriminate | now right]). }
  destruct (find_user (strip web u) (default [] (users (db s)))) eqn:Hfind.
  { intros [= <- <-]; cbn; repeat (split; [reflexivity|]);
      left; (split; [discriminate | now right]). }
  destruct (sqlite_fault web 79) as [e|].
  { destruct e; intros [= <- <-]; cbn; repeat (split; [reflexivity|]);
      left; (split; [discriminate | now right]). }
  intros [= <- <-]. cbn. repeat (split; [reflexivity|]).
  right. exists u, password. auto 10.
Qed.

(** X25.  [register] keeps the user names of the table [users]
    distinct. *)
Theorem register_keeps_usernames_unique (method : string)
    (form : string -> option string) (s : app_state A) :
  usernames_unique (db s) ->
  usernames_unique (db (snd (register web method form s))).
Proof.
  intros Huniq.
  destruct (register web method form s) as [r s'] eqn:Hrun. cbn [snd].
  destruct (register_run _ _ _ _ _ Hrun) as (_ & _ & _ & _ & Husers).
  unfold usernames_unique in *.
  assert (Hold : NoDup (map users_username (default [] (users (db s))))).
  { destruct (users (db s)); [assumption | constructor]. }
  destruct Husers as [[_ [->| ->]]|(u & p & _ & _ & _ & _ & Hfind & _ & ->)];
    [assumption..|].
  rewrite map_app. cbn [map users_username].
  apply NoDup_app. split; [assumption|]. split.
  - intros x Hx Hx'. apply list_elem_of_singleton in Hx' as ->.
    apply find_user_None in Hfind. apply Hfind. now apply list_elem_of_In.
  - apply NoDup_singleton.
Qed.

(** X26.  After a registration that succeeded, a login under the same
    user name succeeds exactly when the password typed, once stripped by
    line 91, is the registered password, which line 70 does not strip.
    So the registered password itself logs in if and only if it has no
    white space at its ends.  The [sqlite3] calls of [login] are taken not
    to fail, and [check_password_hash] to accept, for the hash stored,
    the registered password only. *)
Theorem registered_user_logs_in_iff_password_is_stripped
    (form form' : string -> option string) (u p u' p' : string)
    (s s1 : app_state A) :
  form "username" = Some u -> form "password" = Some p ->
  form' "username" = Some u' -> form' "password" = Some p' ->
  register web "POST" form s = (Redirect "login", s1) ->
  first_fault web [92; 94] = None ->
  (forall q, check_password_hash web (generate_password_hash web p) q = true <-> q = p) ->
  strip web u' = strip web u ->
  (fst (login web "POST" form' s1) = Redirect "dashboard" <-> strip web p' = p).
Proof.
  intros Hu Hp Hu' Hp' Hreg Hfault Hhash Hsame.
  destruct (register_run _ _ _ _ _ Hreg)
    as (_ & _ & _ & _ & [[Hr _]|(u0 & p0 & Hu0 & Hp0 & _ & _ & Hfind & _ & Husers)]);
    [now contradiction Hr|].
  rewrite Hu in Hu0. injection Hu0 as <-. rewrite Hp in Hp0. injection Hp0 as <-.
  unfold login. cbn [String.eqb Ascii.eqb Bool.eqb]. rewrite Hu', Hp', Hfault, Husers, Hsame.
  rewrite (find_user_app (strip web u) _
             {| users_id := next_id (map users_id (default [] (users (db s))));
                users_username := strip web u;
                users_password := generate_password_hash web p |} Hfind eq_refl).
  cbn [users_password users_id].
  specialize (Hhash (strip web p')).
  destruct (check_password_hash web (generate_password_hash web p) (strip web p')); cbn [fst].
  - split; [intros _; now apply Hhash | reflexivity].
  - split; [discriminate | intros Heq; apply Hhash in Heq; discriminate].
Qed.

(** X27.  [register] never changes or removes a row of [users]: the
    table after the request is the table before it, followed by at most
    one row, whose user name was not in the table. *)
Theorem register_never_alters_an_account (method : string)
    (form : string -> option string) (s : app_state A) (rows : list users_row) :
  users (db s) = Some rows ->
  exists added,
    users (db (snd (register web method form s))) = Some (rows ++ added) /\
    (added = [] \/
     exists row, added = [row] /\ ~ In (users_username row) (map users_username rows)).
Proof.
  intros Hrows.
  destruct (register web method form s) as [r s'] eqn:Hrun. cbn [snd].
  destruct (register_run _ _ _ _ _ Hrun) as (_ & _ & _ & _ & Husers).
  rewrite Hrows in Husers. cbn [default] in Husers.
  destruct Husers as [[_ [->| ->]]|(u & p & _ & _ & _ & _ & Hfind & _ & ->)].
  - exists []. rewrite app_nil_r. auto.
  - exists []. rewrite app_nil_r. auto.
  - eexists. split; [reflexivity|]. right. eexists. split; [reflexivity|].
    now apply find_user_None in Hfind.
Qed.
End Accounts.

(** ** The sample records *)

Lemma has_name_find (name : string) (rows : list LeafInfo_row) :
  has_name name rows = false <->
  List.find (fun r => String.eqb (LeafInfo_name r) name) rows = None.
Proof.
  unfold has_name. induction rows as [|r rows IH]; simpl; [tauto|].
  destruct (String.eqb (LeafInfo_name r) name); simpl; [split; discriminate | exact IH].
Qed.

Lemma find_app_Some {T : Type} (f : T -> bool) (l l' : list T) (x : T) :
  List.find f l = Some x -> List.find f (l ++ l') = Some x.
Proof.
  induction l as [|y l IH]; simpl; [discriminate|].
  now destruct (f y).
Qed.

Lemma find_app_None {T : Type} (f : T -> bool) (l l' : list T) :
  List.find f l = None -> List.find f (l ++ l') = List.find f l'.
Proof.
  induction l as [|y l IH]; simpl; [reflexivity|].
  now destruct (f y).
Qed.

Section SampleInsertions.
Variable insert_fault : string * string * string * string -> bool.

Lemma insert_sample_cases (t : list LeafInfo_row * nat)
    (s : string * string * string * string) :
  fst (insert_sample insert_fault t s) = fst t /\
    (insert_fault s = true \/ has_name (sample_name s) (fst t) = true) \/
  exists row,
    fst (insert_sample insert_fault t s) = fst t ++ [row] /\
    insert_fault s = false /\
    has_name (sample_name s) (fst t) = false /\
    sample_of_row row = s.
Proof.
  unfold insert_sample, insert_or_ignore. destruct t as [rows sequence].
  destruct s as [[[name sci] ben] prec].
  destruct (insert_fault (name, sci, ben, prec)); [left; auto|].
  cbn [sample_name fst]. destruct (has_name name rows); [left; auto|].
  right. eexists. split; [reflexivity|]. auto.
Qed.

(** The loop only appends, and what it appends are samples whose names
    were not in the table. *)
Lemma insert_all_appends (l : list (string * string * string * string)) :
  forall t,
    exists added,
      fst (fold_left (insert_sample insert_fault) l t) = fst t ++ added /\
      Forall (fun row => has_name (LeafInfo_name row) (fst t) = false /\
                         In (sample_of_row row) l) added.
Proof.
  induction l as [|s l IH]; intros t; cbn [fold_left].
  - exists []. split; [now rewrite app_nil_r | constructor].
  - destruct (IH (insert_sample insert_fault t s)) as (added & Hfold & Hall). rewrite Hfold.
    destruct (insert_sample_cases t s) as [[Hstep _]|(row & Hstep & _ & Hno & Hrow)];
      rewrite Hstep in *.
    + exists added. split; [reflexivity|].
      eapply Forall_impl; [exact Hall|]. cbn beta. intros r [Hr Hr'].
      split; [assumption | now right].
    + exists (row :: added). split; [now rewrite <- app_assoc|].
      constructor.
      * split; [|left; now rewrite Hrow].
        rewrite <- Hrow in Hno. now destruct row.
      * eapply Forall_impl; [exact Hall|]. cbn beta. intros r [Hr Hr']. split; [|now right].
        unfold has_name in *. rewrite existsb_app in Hr.
        now apply orb_false_iff in Hr as [Hr _].
Qed.

Lemma insert_all_keeps_names (l : list (string * string * string * string))
    (t : list LeafInfo_row * nat) (name : string) :
  has_name name (fst t) = true ->
  has_name name (fst (fold_left (insert_sample insert_fault) l t)) = true.
Proof.
  intros Hn. destruct (insert_all_appends l t) as (added & -> & _).
  unfold has_name in *. rewrite existsb_app, Hn. reflexivity.
Qed.

Lemma insert_all_inserts (l : list (string * string * string * string)) :
  forall t s,
    In s l -> insert_fault s = false ->
    has_name (sample_name s) (fst (fold_left (insert_sample insert_fault) l t)) = true.
Proof.
  induction l as [|s0 l IH]; intros t s Hin Hfault; [contradiction|].
  cbn [fold_left]. destruct Hin as [->|Hin]; [|now apply IH].
  apply insert_all_keeps_names.
  destruct (insert_sample_cases t s) as [[-> [Hf|Hn]]|(row & -> & _ & _ & Hrow)].
  - congruence.
  - assumption.
  - unfold has_name. rewrite existsb_app. cbn [existsb].
    rewrite <- Hrow. destruct row; cbn. now rewrite String.eqb_refl, orb_true_r.
Qed.

(** Where every name is in the table, the loop adds no row. *)
Lemma insert_all_no_row (l : list (string * string * string * string)) :
  forall t,
    (forall s, In s l -> has_name (sample_name s) (fst t) = true) ->
    fst (fold_left (insert_sample insert_fault) l t) = fst t.
Proof.
  induction l as [|s0 l IH]; intros t Hall; cbn [fold_left]; [reflexivity|].
  destruct (insert_sample_cases t s0) as [[Hstep _]|(row & _ & _ & Hn & _)].
  - rewrite IH; [assumption|]. intros s Hs. rewrite Hstep. apply Hall. now right.
  - rewrite (Hall s0 (or_introl eq_refl)) in Hn. discriminate.
Qed.

Lemma insert_or_ignore_counter (t : list LeafInfo_row * nat)
    (s : string * string * string * string) :
  counter_ahead (insert_or_ignore t s).
Proof.
  unfold counter_ahead, insert_or_ignore. destruct t as [rows sequence].
  destruct s as [[[name sci] ben] prec].
  destruct (has_name name rows); cbn [fst snd].
  - lia.
  - rewrite map_app, list_max_app. cbn. lia.
Qed.

Lemma insert_sample_counter (t : list LeafInfo_row * nat)
    (s : string * string * string * string) :
  counter_ahead t -> counter_ahead (insert_sample insert_fault t s).
Proof.
  intros Ht. unfold insert_sample.
  destruct (insert_fault s); [assumption | apply insert_or_ignore_counter].
Qed.

Lemma insert_all_counter (l : list (string * string * string * string)) :
  forall t,
    l <> [] ->
    (forall s, In s l -> insert_fault s = false) ->
    counter_ahead (fold_left (insert_sample insert_fault) l t).
Proof.
  destruct l as [|s0 l]; intros t Hne Hall; [congruence|]. cbn [fold_left].
  assert (H0 : counter_ahead (insert_sample insert_fault t s0)).
  { unfold insert_sample. rewrite (Hall s0 (or_introl eq_refl)).
    apply insert_or_ignore_counter. }
  clear Hne Hall. revert H0. generalize (insert_sample insert_fault t s0).
  induction l as [|s l IH]; intros t' Ht'; cbn [fold_left]; [assumption|].
  apply IH. now apply insert_sample_counter.
Qed.

(** Where every name is in the table and the counter is not behind, each
    insertion that does not raise is ignored and takes one id. *)
Lemma insert_all_ignored (l : list (string * string * string * string)) :
  forall t,
    counter_ahead t ->
    (forall s, In s l -> has_name (sample_name s) (fst t) = true) ->
    (forall s, In s l -> insert_fault s = false) ->
    snd (fold_left (insert_sample insert_fault) l t) = snd t + length l.
Proof.
  induction l as [|s0 l IH]; intros t Ht Hall Hfault; cbn [fold_left length]; [lia|].
  assert (Hstep : insert_sample insert_fault t s0 = (fst t, S (snd t))).
  { unfold insert_sample, insert_or_ignore.
    rewrite (Hfault s0 (or_introl eq_refl)).
    pose proof (Hall s0 (or_introl eq_refl)) as Hn.
    destruct t as [rows sequence]. destruct s0 as [[[name sci] ben] prec].
    cbn [sample_name fst snd] in *. rewrite Hn.
    unfold counter_ahead in Ht. cbn [fst snd] in Ht. f_equal. lia. }
  rewrite Hstep, IH; cbn [fst snd].
  - lia.
  - unfold counter_ahead in *. cbn [fst snd]. lia.
  - intros s Hs. apply Hall. now right.
  - intros s Hs. apply Hfault. now right.
Qed.

Lemma insert_all_find (l : list (string * string * string * string)) :
  NoDup (map sample_name l) ->
  forall t s,
    In s l -> insert_fault s = false ->
    exists row,
      List.find (fun r => String.eqb (LeafInfo_name r) (sample_name s))
        (fst (fold_left (insert_sample insert_fault) l t)) = Some row /\
      (List.find (fun r => String.eqb (LeafInfo_name r) (sample_name s)) (fst t) = Some row \/
       List.find (fun r => String.eqb (LeafInfo_name r) (sample_name s)) (fst t) = None /\
       sample_of_row row = s).
Proof.
  induction l as [|s0 l IH]; intros Hnd t s Hin Hfault; [contradiction|].
  cbn [map] in Hnd. apply NoDup_cons in Hnd as [Hs0 Hnd].
  cbn [fold_left]. destruct Hin as [->|Hin].
  - destruct (insert_all_appends l (insert_sample insert_fault t s)) as (added & -> & _).
    destruct (insert_sample_cases t s) as [[-> [Hf|Hn]]|(row & -> & _ & Hn & Hrow)].
    + congruence.
    + destruct (List.find (fun r => String.eqb (LeafInfo_name r) (sample_name s)) (fst t))
        as [row|] eqn:Hfind.
      * exists row. split; [now apply find_app_Some | now left].
      * apply has_name_find in Hfind. congruence.
    + apply has_name_find in Hn. exists row. split; [|now right].
      apply find_app_Some. rewrite (find_app_None _ _ _ Hn). cbn [List.find].
      rewrite <- Hrow. destruct row; cbn. now rewrite String.eqb_refl.
  - destruct (IH Hnd (insert_sample insert_fault t s0) s Hin Hfault) as (row & Hfind & Hrow).
    exists row. split; [assumption|].
    assert (Hne : sample_name s0 <> sample_name s).
    { intros Heq. apply Hs0. rewrite Heq. apply list_elem_of_In, in_map, Hin. }
    destruct (insert_sample_cases t s0) as [[Hstep _]|(row0 & Hstep & _ & _ & Hrow0)];
      rewrite Hstep in Hrow; [assumption|].
    assert (Hname0 : String.eqb (LeafInfo_name row0) (sample_name s) = false).
    { apply String.eqb_neq. rewrite <- Hrow0 in Hne. now destruct row0. }
    destruct (List.find (fun r => String.eqb (LeafInfo_name r) (sample_name s)) (fst t))
      as [old|] eqn:Hold.
    + rewrite (find_app_Some _ _ _ _ Hold) in Hrow. assumption.
    + rewrite (find_app_None _ _ _ Hold) in Hrow. cbn [List.find] in Hrow.
      rewrite Hname0 in Hrow. exact Hrow.
Qed.
End SampleInsertions.

Section SetupRuns.
Context {A : Type}.
Variable setup_fault : nat -> option sqlite_error.
Variable insert_fault : string * string * string * string -> bool.

(** X28.  After a run of [db_setup.py] that ended normally and in which no
    insertion raised, a further run, whatever fails in it, leaves every
    row of every table as it was; it is the [AUTOINCREMENT] counter of
    [LeafInfo] that it moves, by one for each of the three samples when
    the further run too ends normally without an insertion that raises. *)
Theorem further_db_setup_adds_no_row
    (later_fault : nat -> option sqlite_error)
    (later_insert_fault : string * string * string * string -> bool)
    (d d1 : database A) :
  db_setup setup_fault insert_fault d = (None, d1) ->
  (forall s, In s samples -> insert_fault s = false) ->
  users (snd (db_setup later_fault later_insert_fault d1)) = users d1 /\
  history (snd (db_setup later_fault later_insert_fault d1)) = history d1 /\
  LeafInfo (snd (db_setup later_fault later_insert_fault d1)) = LeafInfo d1 /\
  (fst (db_setup later_fault later_insert_fault d1) = None ->
   (forall s, In s samples -> later_insert_fault s = false) ->
   LeafInfo_sequence (snd (db_setup later_fault later_insert_fault d1)) =
     LeafInfo_sequence d1 + 3).
Proof.
  intros Hrun Hfault. unfold db_setup in Hrun.
  destruct (setup_fault 7); [discriminate|].
  destruct (setup_fault 11); [discriminate|].
  destruct (setup_fault 34); [discriminate|].
  injection Hrun as <-.
  set (t0 := match LeafInfo d with
             | Some rows => (rows, LeafInfo_sequence d)
             | None => ([], 0)
             end).
  set (t1 := insert_samples insert_fault t0).
  assert (Hnames : forall s, In s samples -> has_name (sample_name s) (fst t1) = true).
  { intros s Hs. apply (insert_all_inserts insert_fault); [assumption | now apply Hfault]. }
  assert (Hahead : counter_ahead t1).
  { apply (insert_all_counter insert_fault); [discriminate | assumption]. }
  unfold db_setup. cbn [set_LeafInfo LeafInfo LeafInfo_sequence users history].
  destruct (later_fault 7); cbn [fst snd LeafInfo LeafInfo_sequence users history];
    [repeat split; discriminate|].
  destruct (later_fault 11); cbn [fst snd LeafInfo LeafInfo_sequence users history];
    [repeat split; discriminate|].
  destruct (later_fault 34);
    cbn [fst snd set_LeafInfo LeafInfo LeafInfo_sequence users history];
    [repeat split; discriminate|].
  split; [reflexivity|]. split; [reflexivity|]. split.
  - f_equal. unfold insert_samples.
    apply (insert_all_no_row later_insert_fault samples (fst t1, snd t1)). exact Hnames.
  - intros _ Hlater. unfold insert_samples.
    rewrite (insert_all_ignored later_insert_fault samples (fst t1, snd t1));
      [reflexivity | exact Hahead | exact Hnames | exact Hlater].
Qed.

(** X29.  [db_setup.py] never changes or removes a row of [LeafInfo]:
    the table after the run is the table before it, followed by rows that
    are samples of the script and whose names were not in the table.  A
    record that was edited in the database is not reset by the script. *)
Theorem db_setup_keeps_existing_rows (d : database A) (rows : list LeafInfo_row) :
  LeafInfo d = Some rows ->
  exists added,
    LeafInfo (snd (db_setup setup_fault insert_fault d)) = Some (rows ++ added) /\
    Forall (fun row => has_name (LeafInfo_name row) rows = false /\
                       In (sample_of_row row) samples) added.
Proof.
  intros Hrows. unfold db_setup.
  assert (Hnil : exists added,
             Some rows = Some (rows ++ added) /\
             Forall (fun row => has_name (LeafInfo_name row) rows = false /\
                                In (sample_of_row row) samples) added).
  { exists []. split; [now rewrite app_nil_r | constructor]. }
  destruct (setup_fault 7); cbn [snd]; [now rewrite Hrows|].
  destruct (setup_fault 11); cbn [snd]; [now rewrite Hrows|].
  rewrite Hrows.
  destruct (setup_fault 34); cbn [fst snd set_LeafInfo LeafInfo]; [assumption|].
  destruct (insert_all_appends insert_fault samples (rows, LeafInfo_sequence d)) as (added & Hfold & Hall).
  exists added. split; [|assumption]. f_equal. exact Hfold.
Qed.

(** X30.  After a run of [db_setup.py] that ends normally and in which
    the insertion of a sample did not raise, the lookup that [upload] and
    [predict_base64] make for the name of that sample, when no SQLite
    call of the lookup fails, finds a row: the row that the table held
    under that name before the run, else the scientific name and the
    benefits of the sample.  (An insertion that
    raises is only printed by lines 31-32: the run still ends normally
    and may leave no row of that name.) *)
Theorem samples_are_found_after_setup (web : web_environment) (lines : list nat)
    (d d' : database A) (name scientific_name benefits precautions : string) :
  db_setup setup_fault insert_fault d = (None, d') ->
  In (name, scientific_name, benefits, precautions) samples ->
  insert_fault (name, scientific_name, benefits, precautions) = false ->
  first_fault web lines = None ->
  leaf_info web lines name d' =
    inr (match List.find (fun r => String.eqb (LeafInfo_name r) name)
                 (default [] (LeafInfo d)) with
         | Some old => (LeafInfo_scientific_name old, LeafInfo_benefits old)
         | None => (scientific_name, benefits)
         end).
Proof.
  intros Hrun Hin Hfault Hlines. unfold db_setup in Hrun.
  destruct (setup_fault 7); [discriminate|].
  destruct (setup_fault 11); [discriminate|].
  destruct (setup_fault 34); [discriminate|].
  injection Hrun as <-. unfold leaf_info. rewrite Hlines.
  cbn [set_LeafInfo LeafInfo]. unfold insert_samples.
  assert (Hnd : NoDup (map sample_name samples)).
  { cbn. repeat (apply NoDup_cons; split;
                 [intros Hx; apply list_elem_of_In in Hx; cbn in Hx; intuition discriminate|]).
    apply NoDup_nil_2. }
  set (t0 := match LeafInfo d with
             | Some rows => (rows, LeafInfo_sequence d)
             | None => ([], 0)
             end).
  assert (Ht0 : fst t0 = default [] (LeafInfo d)) by (unfold t0; now destruct (LeafInfo d)).
  destruct (insert_all_find insert_fault samples Hnd t0 _ Hin Hfault) as (row & Hfind & Hrow).
  cbn [sample_name] in Hfind, Hrow. rewrite Hfind. rewrite Ht0 in Hrow.
  destruct Hrow as [->|[-> Hrow]]; [reflexivity|].
  destruct row; cbn in Hrow. now injection Hrow as <- <- <- <-.
Qed.
End SetupRuns.

(** ** The properties above at concrete inputs *)


Lemma converted_class_map_yields_file_names_witness :
  load_class_map (fun _ => None) (Some (Ok (PyDict sample_json_items)))
    = PyDict (int_items [("Neem", 0); ("Tulsi", 1); ("Basil", 1)]%Z) /\
  Forall (fun kv => exists z, snd kv = PyInt z)
         (int_items [("Neem", 0); ("Tulsi", 1); ("Basil", 1)]%Z) /\
  map fst (int_items [("Neem", 0); ("Tulsi", 1); ("Basil", 1)]%Z)
    = map fst sample_json_items /\
  exists label,
    label_for (PyDict (int_items [("Neem", 0); ("Tulsi", 1); ("Basil", 1)]%Z)) 1 = Ok label /\
    (label = py_str 1 \/ In label (map fst sample_json_items)).
Proof.
  apply (converted_class_map_yields_file_names (fun _ => None) sample_json_items
           (int_items [("Neem", 0); ("Tulsi", 1); ("Basil", 1)]%Z) 1).
  reflexivity.
Defined.

Lemma injective_class_map_round_trip_witness :
  label_for (load_class_map (fun _ => None)
               (Some (Ok (PyDict (int_items [("Neem", 0); ("Tulsi", 1)]%Z))))) 1
    = Ok "Tulsi".
Proof.
  apply (injective_class_map_round_trip (fun _ => None) [("Neem", 0); ("Tulsi", 1)]%Z "Tulsi" 1).
  - repeat constructor; simpl; intros Hin; inversion Hin as [|? ? ? Hin']; subst.
    inversion Hin'.
  - right. now left.
Defined.

Lemma missing_index_is_rendered_as_string_witness :
  label_for (load_class_map (fun _ => None)
               (Some (Ok (PyDict (int_items [("Neem", 0); ("Tulsi", 1)]%Z))))) 12
    = Ok (py_str 12).
Proof.
  apply (missing_index_is_rendered_as_string (fun _ => None) [("Neem", 0); ("Tulsi", 1)]%Z 12).
  intros k [Hk|[Hk|[]]]; discriminate.
Defined.

Lemma index_labels_are_distinct_witness :
  py_truthy (PyDict []) = false /\
  label_for (PyDict []) 7 = label_for (PyDict []) 7 /\
  7 = 7.
Proof.
  split; [reflexivity|]. split; [reflexivity|].
  apply (index_labels_are_distinct (PyDict []) 7 7); reflexivity.
Defined.

Lemma preprocessor_touches_one_file_witness :
  fs (snd (preprocess_image_if_available env_without_rembg leaf uploaded)) !! "uploads/other.png"
    = fs uploaded !! "uploads/other.png".
Proof.
  apply (preprocessor_touches_one_file env_without_rembg leaf "uploads/other.png" uploaded
           (snd (preprocess_image_if_available env_without_rembg leaf uploaded))
           (fst (preprocess_image_if_available env_without_rembg leaf uploaded))).
  - now destruct (preprocess_image_if_available env_without_rembg leaf uploaded).
  - discriminate.
Defined.

Lemma failing_fallback_changes_no_file_witness :
  fs (snd (fallback env_no_contours leaf uploaded)) = fs uploaded.
Proof.
  apply (failing_fallback_changes_no_file env_no_contours leaf uploaded
           (snd (fallback env_no_contours leaf uploaded)) (Ok false)).
  - vm_compute. reflexivity.
  - discriminate.
Defined.

Lemma false_means_unchanged_or_failed_write_witness :
  let s' := snd (preprocess_image_if_available env_write_fails leaf uploaded) in
  fs s' = fs uploaded \/
  exists input output e persisted,
    fs uploaded !! leaf = Some input /\
    rembg_remove env_write_fails input = Ok output /\
    file_write env_write_fails leaf output = WriteRaises e persisted /\
    fs s' = <[leaf := take persisted output]> (fs uploaded).
Proof.
  apply (false_means_unchanged_or_failed_write env_write_fails leaf uploaded).
  vm_compute. reflexivity.
Defined.

Lemma true_means_removal_stored_or_fallback_completed_witness :
  let s' := snd (preprocess_image_if_available env_without_rembg leaf uploaded) in
  (exists input output,
     fs uploaded !! leaf = Some input /\
     rembg_remove env_without_rembg input = Ok output /\
     fs s' = <[leaf := output]> (fs uploaded)) \/
  (exists e s1 r,
     primary env_without_rembg leaf uploaded = (Raise e, s1) /\
     crop_run_of env_without_rembg (fs s1 !! leaf) leaf r /\
     fs s' = match run_saved r with
             | Some b => <[leaf := b]> (fs s1)
             | None => fs s1
             end).
Proof.
  apply (true_means_removal_stored_or_fallback_completed env_without_rembg leaf uploaded).
  vm_compute. reflexivity.
Defined.

Lemma max_selects_first_largest_contour_witness :
  let cs := [[(0, 0)]; [(1, 1)]; [(2, 2)]]%Z in
  snd (max_by_contourArea env_without_rembg [(0, 0)%Z] [[(1, 1)]; [(2, 2)]]%Z uploaded)
    = appended uploaded (map EvContourArea cs) /\
  exists i, first_of_largest_area env_without_rembg cs [(1, 1)%Z] i.
Proof.
  apply (max_selects_first_largest_contour env_without_rembg
           [(0, 0)%Z] [[(1, 1)]; [(2, 2)]]%Z uploaded).
  vm_compute. reflexivity.
Defined.

Lemma rejected_requests_change_nothing_witness :
  snd (upload env_without_rembg web_plain keras_reads_nonempty one_model two_classes
         None new_server) = new_server.
Proof.
  apply (rejected_requests_change_nothing env_without_rembg web_plain keras_reads_nonempty
           one_model two_classes None PyNone new_server
           (JsonError "No file part" 400)); [left; reflexivity | exact I].
Defined.

Lemma failed_prediction_keeps_the_upload_witness :
  db (snd (upload env_without_rembg web_plain keras_reads_nonempty [] two_classes
             jpeg_upload set_up_server)) = db set_up_server.
Proof.
  apply (failed_prediction_keeps_the_upload env_without_rembg web_plain
           keras_reads_nonempty [] two_classes jpeg_upload set_up_server
           (RuntimeError no_models_msg)).
  vm_compute. reflexivity.
Defined.

Lemma answered_upload_is_recorded_at_most_once_witness :
  exists row,
    history (db (snd (upload env_without_rembg web_plain keras_reads_nonempty one_model
                        two_classes jpeg_upload set_up_server))) = Some [row] /\
    history_label row = "Neem".
Proof.
  destruct (answered_upload_is_recorded_at_most_once env_without_rembg web_plain
              keras_reads_nonempty one_model two_classes jpeg_upload set_up_server
              "Neem" (9 # 10)%Q "Azadirachta indica"
              "Antibacterial, skin healing, anti-inflammatory"
              (snd (upload env_without_rembg web_plain keras_reads_nonempty one_model
                      two_classes jpeg_upload set_up_server)))
    as (user_id & username & file_filename & data & _ & _ & _ & _ & _ & Hrow).
  - vm_compute. reflexivity.
  - eexists. split; [exact (Hrow eq_refl) | reflexivity].
Defined.

Lemma no_answer_without_LeafInfo_table_witness :
  db (snd (upload env_without_rembg web_plain keras_reads_nonempty one_model two_classes
             jpeg_upload new_server)) = db new_server.
Proof.
  apply (no_answer_without_LeafInfo_table env_without_rembg web_plain keras_reads_nonempty
           one_model two_classes jpeg_upload PyNone new_server
           (fst (upload env_without_rembg web_plain keras_reads_nonempty one_model
                   two_classes jpeg_upload new_server))).
  - reflexivity.
  - left. apply surjective_pairing.
Defined.

Lemma predict_base64_never_creates_history_witness :
  db (snd (predict_base64 env_without_rembg web_plain keras_reads_nonempty one_model
             two_classes capture set_up_server)) = db set_up_server.
Proof.
  apply (predict_base64_never_creates_history env_without_rembg web_plain
           keras_reads_nonempty one_model two_classes capture set_up_server).
  reflexivity.
Defined.

Lemma data_url_header_is_dropped_witness :
  image_field capture = Ok (Some (PyStr "AAAA")).
Proof.
  apply (proj2 (data_url_header_is_dropped
                  [("image", PyStr "data:image/jpeg;base64,AAAA")]
                  "image" "data:image/jpeg;base64,AAAA" eq_refl)
           "data:image/jpeg;base64" "AAAA"); reflexivity.
Defined.

Lemma register_keeps_usernames_unique_witness :
  usernames_unique
    (db (snd (register web_plain "POST" (registration "asha" "pw") new_server))).
Proof.
  apply (register_keeps_usernames_unique web_plain "POST" (registration "asha" "pw")
           new_server).
  exact I.
Defined.

Lemma registered_user_logs_in_iff_password_is_stripped_witness :
  fst (login web_plain "POST" (registration "asha" "pw ")
         (snd (register web_plain "POST" (registration " asha " "pw ") new_server))) =
    Redirect "dashboard" <->
  strip web_plain "pw " = "pw ".
Proof.
  apply (registered_user_logs_in_iff_password_is_stripped web_plain
           (registration " asha " "pw ") (registration "asha" "pw ")
           " asha " "pw " "asha" "pw " new_server); try reflexivity.
  intros q. change (String.eqb "pw " q = true <-> q = "pw ").
  rewrite String.eqb_eq. split; congruence.
Defined.

Lemma register_never_alters_an_account_witness :
  exists added,
    users (db (snd (register web_plain "POST" (registration "asha" "other")
                      (snd (register web_plain "POST" (registration "asha" "pw")
                              new_server))))) =
      Some ([ {| users_id := 1; users_username := "asha";
                 users_password := "pbkdf2:pw" |} ] ++ added) /\
    (added = [] \/
     exists row, added = [row] /\ ~ In (users_username row) ["asha"]).
Proof.
  apply (register_never_alters_an_account web_plain "POST" (registration "asha" "other")
           (snd (register web_plain "POST" (registration "asha" "pw") new_server))
           [ {| users_id := 1; users_username := "asha"; users_password := "pbkdf2:pw" |} ]).
  reflexivity.
Defined.

Lemma further_db_setup_adds_no_row_witness :
  users (snd (db_setup (fun _ => None) (fun _ => false) (db set_up_server)))
    = users (db set_up_server) /\
  history (snd (db_setup (fun _ => None) (fun _ => false) (db set_up_server)))
    = history (db set_up_server) /\
  LeafInfo (snd (db_setup (fun _ => None) (fun _ => false) (db set_up_server)))
    = LeafInfo (db set_up_server) /\
  LeafInfo_sequence (snd (db_setup (fun _ => None) (fun _ => false) (db set_up_server)))
    = LeafInfo_sequence (db set_up_server) + 3.
Proof.
  destruct (further_db_setup_adds_no_row (fun _ => None) (fun _ => false)
              (fun _ => None) (fun _ => false) (db new_server) (db set_up_server))
    as (Husers & Hhistory & Hrows & Hsequence).
  - reflexivity.
  - intros s _. reflexivity.
  - split; [exact Husers|]. split; [exact Hhistory|]. split; [exact Hrows|].
    apply Hsequence; [reflexivity|]. intros s _. reflexivity.
Defined.

(** The counter of the example server: 3 after the first run of the
    script, 6 after the second, which adds no row. *)
Example second_setup_moves_the_counter :
  LeafInfo_sequence (db set_up_server) = 3 /\
  LeafInfo_sequence (snd (db_setup (fun _ => None) (fun _ => false) (db set_up_server)))
    = 6 /\
  option_map (@length _) (LeafInfo (db set_up_server)) = Some 3 /\
  option_map (@length _)
    (LeafInfo (snd (db_setup (fun _ => None) (fun _ => false) (db set_up_server))))
    = Some 3.
Proof. vm_compute. repeat split. Qed.

Lemma db_setup_keeps_existing_rows_witness :
  exists added,
    LeafInfo (snd (db_setup (fun _ => None) (fun _ => false) edited_database)) =
      Some ([edited_Neem] ++ added) /\
    Forall (fun row => has_name (LeafInfo_name row) [edited_Neem] = false /\
                       In (sample_of_row row) samples) added.
Proof.
  apply (db_setup_keeps_existing_rows (fun _ => None) (fun _ => false) edited_database
           [edited_Neem]).
  reflexivity.
Defined.

Lemma samples_are_found_after_setup_witness :
  leaf_info web_plain [171; 173] "Neem"
    (snd (db_setup (fun _ => None) (fun _ => false) edited_database)) =
  inr ("Melia azadirachta", "Antiseptic").
Proof.
  apply (samples_are_found_after_setup (fun _ => None) (fun _ => false) web_plain
           [171; 173] edited_database
           (snd (db_setup (fun _ => None) (fun _ => false) edited_database))
           "Neem" "Azadirachta indica" "Antibacterial, skin healing, anti-inflammatory"
           "Avoid ingestion in large amounts.").
  - reflexivity.
  - left. reflexivity.
  - reflexivity.
  - reflexivity.
Defined.

(** ** The handlers on the example server *)

(** The extension is matched without regard to case, a hidden file named
    by its extension has no suffix, and only the last suffix counts. *)
Example allowed_file_examples :
  map allowed_file ["Leaf.JPG"; "scans/neem.jpeg"; ".jpg"; "leaf.jpg.exe"; "leaf"] =
  [true; true; false; false; false].
Proof. reflexivity. Qed.

(** The same upload before and after [db_setup.py] has run: first the
    lookup of line 173 raises and nothing is recorded, then the answer
    carries the sample and the history holds one row. *)
Example upload_before_and_after_setup :
  fst (upload env_without_rembg web_plain keras_reads_nonempty one_model two_classes
         jpeg_upload new_server) =
    InternalServerError (SqliteException OperationalError) /\
  fst (upload env_without_rembg web_plain keras_reads_nonempty one_model two_classes
         jpeg_upload set_up_server) =
    JsonPrediction "Neem" (9 # 10)%Q "Azadirachta indica"
      "Antibacterial, skin healing, anti-inflammatory".
Proof. split; vm_compute; reflexivity. Qed.

(** A capture is answered like an upload, and leaves no row in a
    database whose [history] table no upload has created. *)
Example capture_is_not_recorded :
  fst (predict_base64 env_without_rembg web_plain keras_reads_nonempty one_model
         two_classes capture set_up_server) =
    JsonPrediction "Neem" (9 # 10)%Q "Azadirachta indica"
      "Antibacterial, skin healing, anti-inflammatory" /\
  history (db (snd (predict_base64 env_without_rembg web_plain keras_reads_nonempty
                      one_model two_classes capture set_up_server))) = None.
Proof. split; vm_compute; reflexivity. Qed.

(** A password registered with a space at its end cannot be used. *)
Example password_with_trailing_space :
  fst (register web_plain "POST" (registration "asha" "pw ") new_server) =
    Redirect "login" /\
  fst (login web_plain "POST" (registration "asha" "pw ")
         (snd (register web_plain "POST" (registration "asha" "pw ") new_server))) =
    Text "Invalid credentials" 401.
Proof. split; vm_compute; reflexivity. Qed.

(** A JSON body that is a list holding ["image"] is not turned away with
    400: indexing it raises. *)
Example json_list_body_raises :
  fst (predict_base64 env_without_rembg web_plain keras_reads_nonempty one_model
         two_classes (PyList [PyStr "image"]) set_up_server) =
    InternalServerError (PythonException TypeError).
Proof. vm_compute. reflexivity. Qed.
